(** * tablelinker: a shallow embedding of the conversion engine

    The development follows the Python sources of [tablelinker.core]:
    - [convertors.py]: the convertor base classes and their reorder helpers,
    - [context.py] and [params.py]: the execution context and the parameter
      declarations,
    - [table.py]: [Table.convert],
    - [mapping.py]: the header mapper,
    - [date_extractor.py]: the date and time extractor.

    Python integers are [Z], Python [str] values are [string]s holding the
    UTF-8 encoding of the text, Python lists are [list]s, dictionaries are
    [gmap]s, and a raised exception is the [Raise] outcome of the [res]
    monad. *)

From Stdlib Require Import ZArith QArith String Ascii List Lia.
From stdpp Require Import gmap strings list sorting.

Local Open Scope Z_scope.
Local Open Scope string_scope.
Local Open Scope list_scope.

(** ** Exceptions and the result monad *)

Inductive exn :=
  | IndexError
  | ValueError
  | TypeError
  | KeyError
  | AttributeError
  | RuntimeError
  | StopIteration
  | OverflowError
  | OSError.

Inductive res (A : Type) :=
  | Ok (a : A)
  | Raise (e : exn).
Arguments Ok {A} a.
Arguments Raise {A} e.

#[global] Instance res_ret : MRet res := fun A a => Ok a.
#[global] Instance res_bind : MBind res := fun A B f m =>
  match m with
  | Ok a => f a
  | Raise e => Raise e
  end.

Definition is_Ok {A} (r : res A) : bool :=
  match r with Ok _ => true | Raise _ => false end.

#[local] Set Warnings "-register-all".

(** ** Python values

    The values that travel through parameters, rows and convertor results. *)

Inductive pyval :=
  | VNone
  | VBool (b : bool)
  | VInt (z : Z)
  | VStr (s : string)
  | VList (l : list pyval).

(** Truthiness, as tested by [if x:]. *)
Definition truthy (v : pyval) : bool :=
  match v with
  | VNone => false
  | VBool b => b
  | VInt z => negb (Z.eqb z 0)
  | VStr s => negb (String.eqb s "")
  | VList l => match l with [] => false | _ => true end
  end.

(** [x == y] *)
Fixpoint py_eq (x y : pyval) : bool :=
  match x, y with
  | VNone, VNone => true
  | VBool a, VBool b => Bool.eqb a b
  | VInt a, VInt b => Z.eqb a b
  | VBool a, VInt b => Z.eqb (Z.b2z a) b
  | VInt a, VBool b => Z.eqb a (Z.b2z b)
  | VStr a, VStr b => String.eqb a b
  | VList l1, VList l2 =>
      (fix go (l1 l2 : list pyval) : bool :=
         match l1, l2 with
         | [], [] => true
         | a :: l1', b :: l2' => py_eq a b && go l1' l2'
         | _, _ => false
         end) l1 l2
  | _, _ => false
  end.

(** [v == ""] *)
Definition is_empty_str (v : pyval) : bool := py_eq v (VStr "").

(** [isinstance(v, str)] *)
Definition is_str (v : pyval) : bool :=
  match v with VStr _ => true | _ => false end.

(** [x is None] *)
Definition is_None (v : pyval) : bool :=
  match v with VNone => true | _ => false end.

(** The integer a value stands for where Python wants an index or a number
    to compare: [bool] is a subclass of [int]. *)
Definition as_int (v : pyval) : option Z :=
  match v with
  | VInt z => Some z
  | VBool b => Some (Z.b2z b)
  | _ => None
  end.

(** ** Python list primitives *)

Section PyList.
Context {A : Type}.

(** The position a subscript [i] denotes in [l]: negative subscripts count
    from the end, anything else out of range has no position. *)
Definition py_index (l : list A) (i : Z) : option nat :=
  let n := Z.of_nat (length l) in
  if bool_decide (0 <= i < n) then Some (Z.to_nat i)
  else if bool_decide (- n <= i < 0) then Some (Z.to_nat (i + n))
  else None.

(** [l[i]] *)
Definition py_getitem (l : list A) (i : Z) : res A :=
  match py_index l i with
  | Some k => match l !! k with Some x => Ok x | None => Raise IndexError end
  | None => Raise IndexError
  end.

(** [l.pop(i)] and [del l[i]]: the list that is left. *)
Definition py_pop (l : list A) (i : Z) : res (list A) :=
  match py_index l i with
  | Some k => Ok (delete k l)
  | None => Raise IndexError
  end.

(** The bound of a slice or of [list.insert]: clamped into [0, len]. *)
Definition py_clamp (l : list A) (i : Z) : nat :=
  let n := Z.of_nat (length l) in
  Z.to_nat (if bool_decide (i < 0) then Z.max 0 (i + n) else Z.min i n).

(** [l.insert(i, v)] *)
Definition py_insert (l : list A) (i : Z) (v : A) : list A :=
  take (py_clamp l i) l ++ v :: drop (py_clamp l i) l.

(** [l.append(v)] *)
Definition py_append (l : list A) (v : A) : list A := l ++ [v].

(** [l[0:i]] and [l[i:]] *)
Definition py_slice_to (l : list A) (i : Z) : list A := take (py_clamp l i) l.
Definition py_slice_from (l : list A) (i : Z) : list A := drop (py_clamp l i) l.

(** *** Lists held in a store

    [reorder] copies its argument and then mutates the copy in place; the
    store makes the difference between the caller's list and the copy
    visible. *)

Definition loc := positive.

Definition h_copy (h : gmap loc (list A)) (r : loc) : res (loc * gmap loc (list A)) :=
  match h !! r with
  | Some l => let r' := fresh (dom h) in Ok (r', <[r' := l]> h)
  | None => Raise TypeError
  end.

Definition h_pop (h : gmap loc (list A)) (r : loc) (i : Z) : res (gmap loc (list A)) :=
  match h !! r with
  | Some l => l' ← py_pop l i; Ok (<[r := l']> h)
  | None => Raise TypeError
  end.

Definition h_append (h : gmap loc (list A)) (r : loc) (v : A) : res (gmap loc (list A)) :=
  match h !! r with
  | Some l => Ok (<[r := py_append l v]> h)
  | None => Raise TypeError
  end.

Definition h_insert (h : gmap loc (list A)) (r : loc) (i : Z) (v : A) : res (gmap loc (list A)) :=
  match h !! r with
  | Some l => Ok (<[r := py_insert l i v]> h)
  | None => Raise TypeError
  end.
End PyList.

(** [l.index(x)] and [x in l], with Python's equality. *)
Fixpoint py_list_index (l : list pyval) (x : pyval) : res Z :=
  match l with
  | [] => Raise ValueError
  | y :: l' =>
      if py_eq y x then Ok 0
      else k ← py_list_index l' x; Ok (k + 1)
  end.

Definition py_in (x : pyval) (l : list pyval) : bool :=
  existsb (fun y => py_eq y x) l.

(** [l[i]] where the subscript is itself a Python value. *)
Definition py_subscript {A} (l : list A) (i : pyval) : res A :=
  match as_int i with
  | Some z => py_getitem l z
  | None => Raise TypeError
  end.

(** ** Python string primitives

    A [str] is held as the bytes of its UTF-8 encoding.  Searching and
    replacing a (valid) substring gives the same result on the bytes as on
    the code points, because no encoded character is a part of another. *)

Definition chr (n : nat) : string := String (ascii_of_nat n) "".

Definition bytes (l : list nat) : string :=
  fold_right (fun n s => String (ascii_of_nat n) s) "" l.

Fixpoint string_drop (n : nat) (s : string) : string :=
  match n, s with
  | S n', String _ s' => string_drop n' s'
  | _, _ => s
  end.

Fixpoint string_take (n : nat) (s : string) : string :=
  match n, s with
  | S n', String c s' => String c (string_take n' s')
  | _, _ => ""
  end.

Fixpoint string_rev_app (s acc : string) : string :=
  match s with
  | "" => acc
  | String c s' => string_rev_app s' (String c acc)
  end.

Definition string_rev (s : string) : string := string_rev_app s "".

(** [s.startswith(p)] *)
Definition startswith (p s : string) : bool := String.prefix p s.

(** [needle in hay] *)
Fixpoint str_contains (needle hay : string) : bool :=
  startswith needle hay ||
  match hay with
  | "" => false
  | String _ hay' => str_contains needle hay'
  end.

(** [s.replace(old, new)] for a non-empty [old] (every call of the sources
    passes a non-empty literal): occurrences are replaced from the left
    and do not overlap.  [skip] counts the bytes of the occurrence that is
    being stepped over. *)
Fixpoint replace_from (old new : string) (skip : nat) (s : string) : string :=
  match s with
  | "" => ""
  | String c s' =>
      match skip with
      | S k => replace_from old new k s'
      | O =>
          if startswith old s
          then new +:+ replace_from old new (String.length old - 1) s'
          else String c (replace_from old new 0 s')
      end
  end.

Definition replace (old new s : string) : string :=
  match old with
  | "" => s
  | _ => replace_from old new 0 s
  end.

(** ASCII decimal digits.  Python also takes the decimal digits of other
    scripts; they are outside the model. *)
Definition is_digit (c : ascii) : bool :=
  (48 <=? nat_of_ascii c)%nat && (nat_of_ascii c <=? 57)%nat.

Definition digit_value (c : ascii) : Z := Z.of_nat (nat_of_ascii c) - 48.

Fixpoint all_digits (s : string) : bool :=
  match s with
  | "" => true
  | String c s' => is_digit c && all_digits s'
  end.

Fixpoint digits_value_from (acc : Z) (s : string) : Z :=
  match s with
  | "" => acc
  | String c s' => digits_value_from (10 * acc + digit_value c) s'
  end.

Definition digits_value (s : string) : Z := digits_value_from 0 s.

(** *** The decimal digits of every script

    [\d] of a regular expression, [int] and [float] take the decimal
    digits (category Nd) of every script.  They come in runs of ten code
    points, from the zero on; these are the zeros outside ASCII, as code
    points (Unicode 14.0). *)
Definition decimal_zeros : list N :=
  [ 1632; 1776; 1984; 2406; 2534; 2662; 2790; 2918; 3046; 3174; 3302; 3430;
    3558; 3664; 3792; 3872; 4160; 4240; 6112; 6160; 6470; 6608; 6784; 6800;
    6992; 7088; 7232; 7248; 42528; 43216; 43264; 43472; 43504; 43600;
    44016; 65296; 66720; 68912; 69734; 69872; 69942; 70096; 70384; 70736;
    70864; 71248; 71360; 71472; 71904; 72016; 72784; 73040; 73120; 92768;
    92864; 93008; 120782; 120792; 120802; 120812; 120822; 123200; 123632;
    125264; 130032 ]%N.

(** The UTF-8 encoding of a code point. *)
Definition utf8 (cp : N) : string :=
  let byte (n : N) := N.to_nat n in
  (if cp <? 128 then bytes [byte cp]
   else if cp <? 2048
   then bytes [byte (192 + cp / 64); byte (128 + cp mod 64)]
   else if cp <? 65536
   then bytes [byte (224 + cp / 4096); byte (128 + (cp / 64) mod 64);
               byte (128 + cp mod 64)]
   else bytes [byte (240 + cp / 262144); byte (128 + (cp / 4096) mod 64);
               byte (128 + (cp / 64) mod 64); byte (128 + cp mod 64)])%N.

(** The decimal digits outside ASCII, each with its value. *)
Definition wide_digits : list (string * Z) :=
  Eval vm_compute in
    flat_map
      (fun zero =>
         List.map (fun k => (utf8 (zero + N.of_nat k), Z.of_nat k)) (seq 0 10))
      decimal_zeros.

(** The decimal digit a string begins with, as it is written, and its
    value. *)
Definition leading_decimal (s : string) : option (string * Z) :=
  match s with
  | String c _ =>
      if is_digit c then Some (String c "", digit_value c)
      else List.find (fun d => startswith (fst d) s) wide_digits
  | "" => None
  end.

(** The values of the digits of a string of decimal digits; none for a
    string with another character. *)
Fixpoint decimal_digits_from (fuel : nat) (s : string) : option (list Z) :=
  match s with
  | "" => Some []
  | _ =>
      match fuel with
      | O => None
      | S fuel' =>
          match leading_decimal s with
          | Some (d, v) =>
              option_map (cons v)
                (decimal_digits_from fuel' (string_drop (String.length d) s))
          | None => None
          end
      end
  end.

Definition decimal_digits (s : string) : option (list Z) :=
  decimal_digits_from (String.length s) s.

(** The number a list of digits writes. *)
Definition number_of (ds : list Z) : Z :=
  fold_left (fun acc d => 10 * acc + d) ds 0.

(** The number a string of decimal digits writes; no number for the empty
    string and for a string with another character. *)
Definition decimal_value (s : string) : option Z :=
  match decimal_digits s with
  | Some (d :: ds) => Some (number_of (d :: ds))
  | _ => None
  end.

(** The characters [str.strip] removes and [int] skips: the Unicode white
    space, in UTF-8. *)
Definition whitespace : list string :=
  [ chr 9; chr 10; chr 11; chr 12; chr 13; chr 28; chr 29; chr 30; chr 31;
    chr 32; bytes [194; 133]; bytes [194; 160]; bytes [225; 154; 128];
    bytes [226; 128; 128]; bytes [226; 128; 129]; bytes [226; 128; 130];
    bytes [226; 128; 131]; bytes [226; 128; 132]; bytes [226; 128; 133];
    bytes [226; 128; 134]; bytes [226; 128; 135]; bytes [226; 128; 136];
    bytes [226; 128; 137]; bytes [226; 128; 138]; bytes [226; 128; 168];
    bytes [226; 128; 169]; bytes [226; 128; 175]; bytes [226; 129; 159];
    bytes [227; 128; 128] ]%nat.

Definition leading_of (ws : list string) (s : string) : option string :=
  List.find (fun w => startswith w s) ws.

Fixpoint lstrip_with (ws : list string) (fuel : nat) (s : string) : string :=
  match fuel with
  | O => s
  | S fuel' =>
      match leading_of ws s with
      | Some w => lstrip_with ws fuel' (string_drop (String.length w) s)
      | None => s
      end
  end.

Definition lstrip (s : string) : string :=
  lstrip_with whitespace (String.length s) s.

Definition rstrip (s : string) : string :=
  string_rev
    (lstrip_with (List.map string_rev whitespace) (String.length s) (string_rev s)).

(** [s.strip()] *)
Definition strip (s : string) : string := rstrip (lstrip s).

(** Digits with single underscores between them, as [int] reads them. *)
Fixpoint digits_underscore (acc : Z) (after_digit : bool) (s : string) : option Z :=
  match s with
  | "" => if after_digit then Some acc else None
  | String c s' =>
      if is_digit c then digits_underscore (10 * acc + digit_value c) true s'
      else if Ascii.eqb c "_" && after_digit then digits_underscore acc false s'
      else None
  end.

(** [int(s)] for a string [s] *)
Definition py_int_str (s : string) : res Z :=
  let t := strip s in
  let '(negative, body) :=
    match t with
    | String "-" r => (true, r)
    | String "+" r => (false, r)
    | _ => (false, t)
    end in
  match digits_underscore 0 false body with
  | Some n => Ok (if negative then - n else n)
  | None => Raise ValueError
  end.

(** [int(v)] *)
Definition py_int (v : pyval) : res pyval :=
  match v with
  | VInt z => Ok (VInt z)
  | VBool b => Ok (VInt (Z.b2z b))
  | VStr s => n ← py_int_str s; Ok (VInt n)
  | _ => Raise TypeError
  end.

(** [s.lower()] on the ASCII letters. *)
Definition lower_ascii (c : ascii) : ascii :=
  let n := nat_of_ascii c in
  if (65 <=? n)%nat && (n <=? 90)%nat then ascii_of_nat (n + 32) else c.

Fixpoint lower (s : string) : string :=
  match s with
  | "" => ""
  | String c s' => String (lower_ascii c) (lower s')
  end.

(** [sep.join(l)] *)
Fixpoint join (sep : string) (l : list string) : string :=
  match l with
  | [] => ""
  | [x] => x
  | x :: l' => x +:+ sep +:+ join sep l'
  end.

(** [list(s)]: the characters of [s], each one the bytes of a code point. *)
Definition utf8_width (c : ascii) : nat :=
  let n := nat_of_ascii c in
  if (n <? 128)%nat then 1%nat
  else if (n <? 224)%nat then 2%nat
  else if (n <? 240)%nat then 3%nat
  else 4%nat.

Fixpoint chars_from (fuel : nat) (s : string) : list string :=
  match fuel with
  | O => []
  | S fuel' =>
      match s with
      | "" => []
      | String c _ =>
          string_take (utf8_width c) s
            :: chars_from fuel' (string_drop (utf8_width c) s)
      end
  end.

Definition chars (s : string) : list string := chars_from (String.length s) s.

(** [v[i]] for a value [v] *)
Definition py_item (v : pyval) (i : Z) : res pyval :=
  match v with
  | VList l => py_getitem l i
  | VStr s => c ← py_getitem (chars s) i; Ok (VStr c)
  | _ => Raise TypeError
  end.


(** [sep.join(l)]: every element has to be a string. *)
Fixpoint py_join (sep : string) (l : list pyval) : res string :=
  match l with
  | [] => Ok ""
  | VStr s :: l' =>
      match l' with
      | [] => Ok s
      | _ => rest ← py_join sep l'; Ok (s +:+ sep +:+ rest)
      end
  | _ => Raise TypeError
  end.
(** ** Parameter declarations ([params.py]) *)

Module params.

(** The parameter classes, by the way they read a value. *)
Inductive param_kind :=
  | PlainParam        (* Param, TextParam, StringParam, StringListParam, DictParam *)
  | IntParam
  | EnumsParam (enums : list pyval)
  | BooleanParam
  | CollectionParam
  | AttributeParam
  | AttributeListParam
  | InputAttributeParam
  | InputAttributeListParam
  | OutputAttributeParam
  | OutputAttributeListParam.

Record Param := {
  name : string;
  required : bool;
  default_value : pyval;
  kind : param_kind
}.

(** [Param.key] *)
Definition key (p : Param) : string := name p.

(** [ParamSet]: the list of declarations and the dictionary by name. *)
Record ParamSet := {
  _list : list Param;
  _dist : gmap string Param
}.

Definition empty : ParamSet := {| _list := []; _dist := ∅ |}.

(** [ParamSet.append]: a second declaration of a name is refused (the
    [raise] of a string is a [TypeError]). *)
Definition append (ps : ParamSet) (param : Param) : res ParamSet :=
  match _dist ps !! name param with
  | None => Ok {| _list := _list ps ++ [param];
                  _dist := <[name param := param]> (_dist ps) |}
  | Some _ => Raise TypeError
  end.

(** [ParamSet.add] *)
Fixpoint add (ps : ParamSet) (other : list Param) : res ParamSet :=
  match other with
  | [] => Ok ps
  | o :: other' => ps' ← append ps o; add ps' other'
  end.

(** [ParamSet(l)] *)
Definition new (l : list Param) : res ParamSet := add empty l.

(** [item in ps] *)
Definition contains (ps : ParamSet) (item : string) : bool :=
  match List.filter (fun param => String.eqb (name param) item) (_list ps) with
  | [] => false
  | _ => true
  end.

(** [ps[item]] is [None] for a name that is not declared. *)
Definition getitem (ps : ParamSet) (item : string) : option Param :=
  _dist ps !! item.

(** [ps.keys()] and [ps.params()] *)
Definition keys (ps : ParamSet) : list string := List.map key (_list ps).
Definition params (ps : ParamSet) : list Param := _list ps.

End params.

(** ** Convertor classes and their metadata ([convertors.py]) *)

Module convertor_class.

Record ConvertorMeta := {
  key : string;
  params : params.ParamSet
}.

(** The base class a convertor derives from decides the standard
    parameters its [meta()] puts before the ones of its own [Meta]. *)
Inductive base_class :=
  | Convertor
  | InputOutputConvertor
  | InputOutputsConvertor.

Record Class := {
  Meta_key : string;
  Meta_params : list params.Param;
  base : base_class
}.

Definition InputOutputConvertor_params : list params.Param :=
  [ {| params.name := "input_col_idx"; params.required := true;
       params.default_value := VNone; params.kind := params.InputAttributeParam |};
    {| params.name := "output_col_name"; params.required := false;
       params.default_value := VNone; params.kind := params.PlainParam |};
    {| params.name := "output_col_idx"; params.required := false;
       params.default_value := VNone; params.kind := params.OutputAttributeParam |};
    {| params.name := "overwrite"; params.required := false;
       params.default_value := VBool true; params.kind := params.BooleanParam |} ].

Definition InputOutputsConvertor_params : list params.Param :=
  [ {| params.name := "input_col_idx"; params.required := true;
       params.default_value := VNone; params.kind := params.InputAttributeParam |};
    {| params.name := "output_col_names"; params.required := false;
       params.default_value := VList []; params.kind := params.PlainParam |};
    {| params.name := "output_col_idx"; params.required := false;
       params.default_value := VNone; params.kind := params.OutputAttributeParam |};
    {| params.name := "overwrite"; params.required := false;
       params.default_value := VBool false; params.kind := params.BooleanParam |} ].

(** [cls.meta()] *)
Definition meta (cls : Class) : res ConvertorMeta :=
  ps ← params.new
         (match base cls with
          | Convertor => Meta_params cls
          | InputOutputConvertor => InputOutputConvertor_params ++ Meta_params cls
          | InputOutputsConvertor => InputOutputsConvertor_params ++ Meta_params cls
          end);
  Ok {| key := Meta_key cls; params := ps |}.

End convertor_class.

(** ** Input and output collections ([input.py], [output.py]) *)

Module input.

(** [ArrayInputCollection] *)
Record ArrayInputCollection := {
  _array : list (list pyval);
  _current : nat
}.

Definition reset (c : ArrayInputCollection) : ArrayInputCollection :=
  {| _array := _array c; _current := 0 |}.

(** [next()]: [None] stands for [StopIteration]. *)
Definition next (c : ArrayInputCollection)
    : option (list pyval * ArrayInputCollection) :=
  match _array c !! _current c with
  | Some value => Some (value, {| _array := _array c; _current := S (_current c) |})
  | None => None
  end.

End input.

(** ** The execution context ([context.py]) *)

Module context.

Inductive level := WARNING | ERROR.

Record Context := {
  _convertor : convertor_class.Class;
  _input : input.ArrayInputCollection;
  _output : list (list pyval);
  _convertor_params : gmap string pyval;
  _current : pyval;
  _data : gmap string pyval
}.

Definition with_input (c : Context) (i : input.ArrayInputCollection) (cur : pyval) :=
  {| _convertor := _convertor c; _input := i; _output := _output c;
     _convertor_params := _convertor_params c; _current := cur; _data := _data c |}.

(** [Context.__init__]: the check of the parameter names (a warning for
    each one that is not declared) and of the required parameters (an
    error for the first one that is missing).  The result gives the
    input collection back as the constructor leaves it, the log records
    written, and the context or the exception. *)
Definition unknown_param_message (convertor_key key : string) : string :=
  "コンバータ '" +:+ convertor_key +:+ "' ではパラメータ '" +:+ key +:+ "' は利用できません".

Definition missing_param_message (convertor_key name : string) : string :=
  "コンバータ '" +:+ convertor_key +:+ "' の必須パラメータ '" +:+ name +:+ "' が未指定です".

Fixpoint check_required (declared_params : params.ParamSet) (convertor_key : string)
    (convertor_params : gmap string pyval) (names : list string)
    : list (level * string) * res unit :=
  match names with
  | [] => ([], Ok tt)
  | name :: names' =>
      match params.getitem declared_params name with
      | None => ([], Raise AttributeError)
      | Some param =>
          if params.required param && negb (bool_decide (is_Some (convertor_params !! name)))
          then ([(ERROR, missing_param_message convertor_key name)], Raise ValueError)
          else check_required declared_params convertor_key convertor_params names'
      end
  end.

Definition init (convertor : convertor_class.Class)
    (convertor_params : gmap string pyval)
    (input : input.ArrayInputCollection) (output : list (list pyval))
    : input.ArrayInputCollection * list (level * string) * res Context :=
  match convertor_class.meta convertor with
  | Raise e => (input, [], Raise e)
  | Ok convertor_meta =>
      let declared_params := convertor_class.params convertor_meta in
      let convertor_key := convertor_class.key convertor_meta in
      let warnings :=
        List.map (fun key => (WARNING, unknown_param_message convertor_key key))
          (List.filter (fun key => negb (params.contains declared_params key))
             (List.map fst (map_to_list convertor_params))) in
      let '(errors, checked) :=
        check_required declared_params convertor_key convertor_params
          (params.keys declared_params) in
      (input, warnings ++ errors,
       _ ← checked;
       Ok {| _convertor := convertor; _input := input; _output := output;
             _convertor_params := convertor_params; _current := VNone;
             _data := ∅ |})
  end.

(** [reset], [next], [output], [set_data], [get_data] *)
Definition reset (c : Context) : Context :=
  with_input c (input.reset (_input c)) (_current c).

Definition next (c : Context) : option (list pyval * Context) :=
  match input.next (_input c) with
  | Some (row, i) => Some (row, with_input c i (VList row))
  | None => None
  end.

Definition output (c : Context) (value : list pyval) : Context :=
  {| _convertor := _convertor c; _input := _input c;
     _output := _output c ++ [value];
     _convertor_params := _convertor_params c; _current := _current c;
     _data := _data c |}.

Definition set_data (c : Context) (key : string) (value : pyval) : Context :=
  {| _convertor := _convertor c; _input := _input c; _output := _output c;
     _convertor_params := _convertor_params c; _current := _current c;
     _data := <[key := value]> (_data c) |}.

Definition get_data (c : Context) (key : string) : res pyval :=
  match _data c !! key with
  | Some v => Ok v
  | None => Raise KeyError
  end.

(** [get_proxy]: the attribute [_proxy] is never assigned. *)
Definition get_proxy (c : Context) (value : pyval) : res pyval :=
  Raise AttributeError.

(** *** Reading a value through its declaration ([Param.get_value] and
    its overriding definitions in [params.py]) *)

(** [re.match(r'^\d+$', value)]: decimal digits, of any script, and a
    line end may follow them. *)
Definition number_string_body (value : string) : string :=
  match string_rev value with
  | String c r => if Ascii.eqb c (ascii_of_nat 10) then string_rev r else value
  | "" => value
  end.

Definition is_number_string (value : string) : bool :=
  match decimal_value (number_string_body value) with
  | Some _ => true
  | None => false
  end.

(** [int(value)] for such a string; [int] refuses a text of more than
    4300 digits (the default of [sys.int_max_str_digits]). *)
Definition int_of_number_string (value : string) : res Z :=
  match decimal_digits (number_string_body value) with
  | Some (d :: ds) =>
      if bool_decide (4300 < length (d :: ds))%nat then Raise ValueError
      else Ok (number_of (d :: ds))
  | _ => Raise ValueError
  end.

(** [AttributeParam.get_column_number] *)
Definition get_column_number (param_name : string) (value : pyval) (c : Context)
    (allow_error : bool) : res pyval :=
  stored ← get_data c "headers";
  headers ← (if truthy stored
             then match stored with VList l => Ok l | _ => Raise AttributeError end
             else Ok []);
  value ←
    match value with
    | VStr s =>
        match py_list_index headers value with
        | Ok idx => Ok (VInt idx)
        | Raise _ =>
            if is_number_string s then n ← int_of_number_string s; Ok (VInt n)
            else if allow_error then Ok (VInt (-1))
            else
              (* the message of the error joins the header row *)
              _ ← py_join "," headers; Raise ValueError
        end
    | _ => Ok value
    end;
  match as_int value with
  | None => Raise TypeError
  | Some z =>
      if bool_decide (z < -1) || bool_decide (z >= Z.of_nat (length headers))
      then (if allow_error then Ok (VInt (-1)) else Raise ValueError)
      else Ok value
  end.

(** [AttributeListParam.get_column_numbers], for a list of values. *)
Fixpoint get_column_numbers_list (param_name : string) (values : list pyval)
    (c : Context) (allow_error : bool) : res (list pyval) :=
  match values with
  | [] => Ok []
  | value :: values' =>
      v ← get_column_number param_name value c allow_error;
      vs ← get_column_numbers_list param_name values' c allow_error;
      Ok (v :: vs)
  end.

Definition get_column_numbers (param_name : string) (values : pyval) (c : Context)
    (allow_error : bool) : res pyval :=
  match values with
  | VList l => vs ← get_column_numbers_list param_name l c allow_error; Ok (VList vs)
  | _ => Raise TypeError
  end.

(** [BooleanParam.parse_value] *)
Definition parse_boolean (value : pyval) : pyval :=
  match value with
  | VBool b => VBool b
  | VStr s => VBool (String.eqb (lower s) "true")
  | _ => value
  end.

(** [param.get_value(value, context)] *)
Definition get_value (param : params.Param) (value : pyval) (c : Context) : res pyval :=
  match params.kind param with
  | params.CollectionParam => get_proxy c value
  | k =>
      if is_None value then Ok (params.default_value param)
      else
        match k with
        | params.IntParam => py_int value
        | params.EnumsParam enums =>
            if py_in value enums then Ok value else Raise ValueError
        | params.BooleanParam => Ok (parse_boolean value)
        | params.InputAttributeParam =>
            get_column_number (params.name param) value c false
        | params.InputAttributeListParam =>
            get_column_numbers (params.name param) value c false
        | params.OutputAttributeParam =>
            get_column_number (params.name param) value c true
        | params.OutputAttributeListParam =>
            get_column_numbers (params.name param) value c true
        | _ => Ok value
        end
  end.

(** [Context.get_param] (the log records written before an exception is
    raised are left out). *)
Definition get_param (c : Context) (name : string) : res pyval :=
  convertor_meta ← convertor_class.meta (_convertor c);
  let declared_params := convertor_class.params convertor_meta in
  if negb (params.contains declared_params name) then Raise ValueError
  else
    match params.getitem declared_params name with
    | None => Raise AttributeError
    | Some param =>
        if params.required param
           && negb (bool_decide (is_Some (_convertor_params c !! name)))
        then Raise ValueError
        else
          let val := default VNone (_convertor_params c !! name) in
          get_value param val c
    end.

(** [Context.get_params] *)
Definition get_params (c : Context) : res (list string) :=
  convertor_meta ← convertor_class.meta (_convertor c);
  Ok (params.keys (convertor_class.params convertor_meta)).

End context.

(** ** The convertor base classes ([convertors.py]) *)

Module convertors.

Definition is_False (v : pyval) : bool :=
  match v with VBool false => true | _ => false end.

(** An attribute that holds [None] or an integer, read as a subscript. *)
Definition as_index (v : pyval) : res Z :=
  match as_int v with Some z => Ok z | None => Raise TypeError end.

Definition as_optional_index (v : pyval) : res (option Z) :=
  match v with
  | VNone => Ok None
  | _ => z ← as_index v; Ok (Some z)
  end.

Definition len {A} (l : list A) : Z := Z.of_nat (length l).

(** *** [Convertor] *)
Module Convertor.

Record Self := {
  headers : list pyval;
  num_of_columns : Z
}.

(** [Convertor.preproc]: reads the header row and records it. *)
Definition preproc (c : context.Context) : res (Self * context.Context) :=
  match context.next c with
  | None => Raise StopIteration
  | Some (headers, c) =>
      let c := context.set_data c "headers" (VList headers) in
      let c := context.set_data c "num_of_columns" (VInt (len headers)) in
      Ok ({| headers := headers; num_of_columns := len headers |}, c)
  end.

Definition process_header (headers : list pyval) (c : context.Context)
    : res context.Context :=
  Ok (context.output c headers).

Definition check_record (rows : list pyval) (c : context.Context) : res bool :=
  num_of_columns ← context.get_data c "num_of_columns";
  Ok (py_eq num_of_columns (VInt (len rows))).

Definition process_record (rows : list pyval) (c : context.Context)
    : res context.Context :=
  Ok (context.output c rows).

(** [Convertor.process], over the hooks of a class: [preproc] gives its
    return value with the instance, and the rows are the ones the input
    still holds when the loop starts. *)
Section Process.
Context {Inst : Type}.
Variable preproc_hook : context.Context -> res (pyval * Inst * context.Context).
Variable headers_of : Inst -> list pyval.
Variable process_header_hook :
  Inst -> list pyval -> context.Context -> res context.Context.
Variable check_record_hook : Inst -> list pyval -> context.Context -> res bool.
Variable process_record_hook :
  Inst -> list pyval -> context.Context -> res context.Context.

Fixpoint process_rows (self : Inst) (remaining : list (list pyval))
    (c : context.Context) : res context.Context :=
  match remaining with
  | [] => Ok c
  | rows :: remaining' =>
      let i := context._input c in
      let c := context.with_input c
                 {| input._array := input._array i;
                    input._current := S (input._current i) |}
                 (VList rows) in
      match check_record_hook self rows c with
      | Raise e => Raise e
      | Ok false =>
          (* the row is skipped; the warning joins its fields *)
          match py_join "," rows with
          | Raise e => Raise e
          | Ok _ => process_rows self remaining' c
          end
      | Ok true =>
          match process_record_hook self rows c with
          | Raise e => Raise e
          | Ok c => process_rows self remaining' c
          end
      end
  end.

Definition process (c : context.Context) : res context.Context :=
  '(ret, self, c) ← preproc_hook c;
  if is_False ret then Raise RuntimeError
  else
    let c := context.reset c in
    match context.next c with
    | None => Raise StopIteration
    | Some (_, c) =>
        c ← process_header_hook self (headers_of self) c;
        process_rows self
          (drop (input._current (context._input c))
             (input._array (context._input c))) c
    end.
End Process.

End Convertor.

(** *** [InputOutputConvertor] *)
Module InputOutputConvertor.

Record Self := {
  headers : list pyval;
  num_of_columns : Z;
  input_col_idx : pyval;
  output_col_name : pyval;
  output_col_idx : pyval;
  overwrite : pyval;
  del_col : pyval
}.

(** [InputOutputConvertor.preproc] *)
Definition preproc (c : context.Context) : res (pyval * Self * context.Context) :=
  '(base, c) ← Convertor.preproc c;
  let headers := Convertor.headers base in
  let num_of_columns := Convertor.num_of_columns base in
  input_col_idx ← context.get_param c "input_col_idx";
  output_col_name ← context.get_param c "output_col_name";
  output_col_idx ← context.get_param c "output_col_idx";
  overwrite ← context.get_param c "overwrite";
  '(output_col_name, del_col, output_col_idx, overwrite) ←
    (if is_None output_col_name then
       name ← py_subscript headers input_col_idx;
       Ok (name, input_col_idx,
           (if is_None output_col_idx then input_col_idx else output_col_idx),
           overwrite)
     else
       match py_list_index headers output_col_name with
       | Ok idx => Ok (output_col_name, VInt idx, output_col_idx, overwrite)
       | Raise ValueError => Ok (output_col_name, VNone, output_col_idx, VBool true)
       | Raise e => Raise e
       end);
  let output_col_idx :=
    if is_None output_col_idx then VInt num_of_columns else output_col_idx in
  Ok (VBool true,
      {| headers := headers; num_of_columns := num_of_columns;
         input_col_idx := input_col_idx; output_col_name := output_col_name;
         output_col_idx := output_col_idx; overwrite := overwrite;
         del_col := del_col |},
      c).

Section Reorder.
Context {A : Type}.

(** [InputOutputConvertor.reorder] on the store: [original] is the
    caller's list, the result is the location of [new_list]. *)
Definition reorder_heap (h : gmap loc (list A)) (original : loc)
    (del_idx : option Z) (insert_idx : Z) (insert_value : A)
    : res (loc * gmap loc (list A)) :=
  '(new_list, h) ← h_copy h original;
  '(h, insert_idx) ←
    match del_idx with
    | Some d =>
        h ← h_pop h new_list d;
        Ok (h, if bool_decide (d < insert_idx) then insert_idx - 1 else insert_idx)
    | None => Ok (h, insert_idx)
    end;
  h ← (if bool_decide (insert_idx < 0)
       then h_append h new_list insert_value
       else h_insert h new_list insert_idx insert_value);
  Ok (new_list, h).

(** The same function on list values, as the hooks below use it. *)
Definition reorder (original : list A) (del_idx : option Z) (insert_idx : Z)
    (insert_value : A) : res (list A) :=
  let new_list := original in
  '(new_list, insert_idx) ←
    match del_idx with
    | Some d =>
        new_list ← py_pop new_list d;
        Ok (new_list,
            if bool_decide (d < insert_idx) then insert_idx - 1 else insert_idx)
    | None => Ok (new_list, insert_idx)
    end;
  Ok (if bool_decide (insert_idx < 0)
      then py_append new_list insert_value
      else py_insert new_list insert_idx insert_value).
End Reorder.

(** [reorder] called with the attributes of the instance. *)
Definition reorder_attrs (self : Self) (original : list pyval) (insert_value : pyval)
    : res (list pyval) :=
  del_idx ← as_optional_index (del_col self);
  insert_idx ← as_index (output_col_idx self);
  reorder original del_idx insert_idx insert_value.

Definition process_header (self : Self) (headers : list pyval)
    (c : context.Context) : res context.Context :=
  headers ← reorder_attrs self headers (output_col_name self);
  Ok (context.output c headers).

(** [process_convertor] of the base class *)
Definition process_convertor (self : Self) (rows : list pyval)
    (c : context.Context) : res pyval :=
  py_subscript rows (input_col_idx self).

Section ProcessRecord.
(** The method a subclass overrides. *)
Variable process_convertor :
  Self -> list pyval -> context.Context -> res pyval.

(** Whether a value has to be computed for the row. *)
Definition need_value (self : Self) (rows : list pyval) : res bool :=
  if truthy (overwrite self) then Ok true
  else
    del_col ← as_index (del_col self);
    if bool_decide (del_col >= len rows) then Ok true
    else x ← py_getitem rows del_col; Ok (is_empty_str x).

(** [InputOutputConvertor.process_record]; a skipped row leaves the
    context as it is. *)
Definition process_record (self : Self) (rows : list pyval)
    (c : context.Context) : res context.Context :=
  need ← need_value self rows;
  if (need : bool) then
    value ← process_convertor self rows c;
    if is_False value then Ok c
    else
      rows ← reorder_attrs self rows value;
      Ok (context.output c rows)
  else
    value ← py_subscript rows (del_col self);
    rows ← reorder_attrs self rows value;
    Ok (context.output c rows).
End ProcessRecord.

(** [process] of the class, for a given [process_convertor]. *)
Definition process
    (process_convertor : Self -> list pyval -> context.Context -> res pyval)
    (c : context.Context) : res context.Context :=
  Convertor.process preproc headers process_header
    (fun _ => Convertor.check_record) (process_record process_convertor) c.

(** *** The specification's description of [reorder] *)
Section ReorderSpec.
Context {A : Type}.

(** A delete index is [None] or a valid subscript of [S]. *)
Definition valid_delete (S : list A) (d : option Z) : Prop :=
  match d with
  | None => True
  | Some d => - len S <= d < len S
  end.

(** The element at [d] removed. *)
Definition removed (S : list A) (d : option Z) : list A :=
  match d with
  | None => S
  | Some d => delete (Z.to_nat (if bool_decide (d < 0) then d + len S else d)) S
  end.

(** The insert index, one less when the deleted index was before it. *)
Definition adjusted (d : option Z) (i : Z) : Z :=
  match d with
  | Some d => if bool_decide (d < i) then i - 1 else i
  | None => i
  end.

(** Where the value lands in a list [R]: at the end for a negative
    position and for one past the end. *)
Definition insertion_point (R : list A) (i : Z) : nat :=
  if bool_decide (i < 0) then length R
  else Nat.min (Z.to_nat i) (length R).

Definition reorder_spec (S : list A) (d : option Z) (i : Z) (v : A) : list A :=
  let R := removed S d in
  let k := insertion_point R (adjusted d i) in
  take k R ++ [v] ++ drop k R.
End ReorderSpec.

End InputOutputConvertor.

(** *** [InputOutputsConvertor] *)
Module InputOutputsConvertor.

Record Self := {
  headers : list pyval;
  num_of_columns : Z;
  input_col_idx : pyval;
  output_col_idx : Z;
  output_col_names : list pyval;
  old_col_indexes : list (option Z);
  del_col_indexes : list (option Z)
}.

(** The loop "既存列をチェック". *)
Definition check_existing (headers : list pyval) (output_col_names : list pyval)
    : list (option Z) :=
  List.map
    (fun output_col_name =>
       if py_in output_col_name headers
       then match py_list_index headers output_col_name with
            | Ok idx => Some idx
            | Raise _ => None
            end
       else None)
    output_col_names.

(** The inner loop: every later index above [del_index] goes down by
    one. *)
Definition adjust_later (del_index : Z) (later : list (option Z))
    : list (option Z) :=
  List.map
    (fun d =>
       match d with
       | Some d => if bool_decide (del_index < d) then Some (d - 1) else Some d
       | None => None
       end)
    later.

(** The outer loop, from slot [i] on, over the list as it is being
    updated. *)
Fixpoint adjust_loop (steps : nat) (i : nat) (del_col_indexes : list (option Z))
    (output_col_idx : Z) : list (option Z) * Z :=
  match steps with
  | O => (del_col_indexes, output_col_idx)
  | S steps' =>
      match del_col_indexes !! i with
      | Some (Some del_index) =>
          adjust_loop steps' (S i)
            (take (S i) del_col_indexes
               ++ adjust_later del_index (drop (S i) del_col_indexes))
            (if bool_decide (del_index < output_col_idx)
             then output_col_idx - 1 else output_col_idx)
      | _ => adjust_loop steps' (S i) del_col_indexes output_col_idx
      end
  end.

(** The part of [preproc] that follows the reading of the parameters:
    the indexes of the existing columns, the position of the insertion
    and the adjusted indexes. *)
Definition plan (headers output_col_names : list pyval) (output_col_idx : pyval)
    : res (list (option Z) * list (option Z) * Z) :=
  let old_col_indexes := check_existing headers output_col_names in
  output_col_idx ←
    (if is_None output_col_idx then Ok (len headers)
     else
       z ← as_index output_col_idx;
       Ok (if bool_decide (z >= len headers) then len headers else z));
  let '(del_col_indexes, output_col_idx) :=
    adjust_loop (length old_col_indexes) 0 old_col_indexes output_col_idx in
  Ok (old_col_indexes, del_col_indexes, output_col_idx).

(** [InputOutputsConvertor.preproc] *)
Definition preproc (c : context.Context) : res (pyval * Self * context.Context) :=
  '(base, c) ← Convertor.preproc c;
  let headers := Convertor.headers base in
  input_col_idx ← context.get_param c "input_col_idx";
  output_col_idx ← context.get_param c "output_col_idx";
  output_col_names ← context.get_param c "output_col_names";
  output_col_names ←
    match output_col_names with
    | VStr s => Ok [VStr s]
    | VList l => Ok l
    | _ => Raise TypeError
    end;
  '(old_col_indexes, del_col_indexes, output_col_idx) ←
    plan headers output_col_names output_col_idx;
  Ok (VBool true,
      {| headers := headers; num_of_columns := Convertor.num_of_columns base;
         input_col_idx := input_col_idx; output_col_idx := output_col_idx;
         output_col_names := output_col_names;
         old_col_indexes := old_col_indexes;
         del_col_indexes := del_col_indexes |},
      c).

Section Reorder.
Context {A : Type}.

Fixpoint delete_all (new_list : list A) (delete_idxs : list (option Z))
    : res (list A) :=
  match delete_idxs with
  | [] => Ok new_list
  | None :: delete_idxs' => delete_all new_list delete_idxs'
  | Some delete_idx :: delete_idxs' =>
      new_list ← py_pop new_list delete_idx;
      delete_all new_list delete_idxs'
  end.

(** [InputOutputsConvertor.reorder] *)
Definition reorder (original : list A) (delete_idxs : list (option Z))
    (insert_idx : Z) (insert_values : list A) : res (list A) :=
  new_list ← delete_all original delete_idxs;
  Ok (py_slice_to new_list insert_idx ++ insert_values
        ++ py_slice_from new_list insert_idx).
End Reorder.

Definition process_header (self : Self) (headers : list pyval)
    (c : context.Context) : res context.Context :=
  headers ← reorder headers (del_col_indexes self) (output_col_idx self)
              (output_col_names self);
  Ok (context.output c headers).

(** [process_convertor] of the base class *)
Definition process_convertor (self : Self) (rows : list pyval)
    (c : context.Context) : res pyval :=
  py_subscript rows (input_col_idx self).

Definition as_list (v : pyval) : res (list pyval) :=
  match v with VList l => Ok l | _ => Raise TypeError end.

Section ProcessRecord.
(** The method a subclass overrides. *)
Variable process_convertor :
  Self -> list pyval -> context.Context -> res pyval.

(** The first loop: the values the destination columns hold. *)
Fixpoint old_values_of (rows : list pyval) (old_col_indexes : list (option Z))
    : res (list pyval) :=
  match old_col_indexes with
  | [] => Ok []
  | None :: idxs => vs ← old_values_of rows idxs; Ok (VStr "" :: vs)
  | Some idx :: idxs =>
      v ← py_getitem rows idx;
      vs ← old_values_of rows idxs;
      Ok (v :: vs)
  end.

(** The loop of the branch without overwriting, from slot [i] on.
    [values] is [None] until [process_convertor] has been called;
    [calls] counts its invocations.  The result is the count together
    with [new_values] or the exception. *)
Fixpoint fill_values (self : Self) (rows : list pyval) (c : context.Context)
    (i : Z) (old_values : list pyval) (values : pyval) (calls : nat)
    (new_values : list pyval) : nat * res (list pyval) :=
  match old_values with
  | [] => (calls, Ok new_values)
  | old_value :: old_values' =>
      if is_empty_str old_value then
        let '(calls, computed) :=
          if is_None values
          then (S calls, process_convertor self rows c)
          else (calls, Ok values) in
        match computed with
        | Raise e => (calls, Raise e)
        | Ok values =>
            match py_item values i with
            | Raise e => (calls, Raise e)
            | Ok x =>
                fill_values self rows c (i + 1) old_values' values calls
                  (new_values ++ [x])
            end
        end
      else
        fill_values self rows c (i + 1) old_values' values calls
          (new_values ++ [old_value])
  end.

(** The values to insert, with the number of invocations of
    [process_convertor]. *)
Definition new_values_of (self : Self) (rows : list pyval) (c : context.Context)
    : nat * res (list pyval) :=
  match old_values_of rows (old_col_indexes self) with
  | Raise e => (O, Raise e)
  | Ok old_values =>
      match context.get_param c "overwrite" with
      | Raise e => (O, Raise e)
      | Ok flag =>
          if truthy flag
          then (1%nat, v ← process_convertor self rows c; as_list v)
          else fill_values self rows c 0 old_values VNone O []
      end
  end.

(** [InputOutputsConvertor.process_record], with the number of
    invocations of [process_convertor]. *)
Definition process_record (self : Self) (rows : list pyval)
    (c : context.Context) : nat * res context.Context :=
  let '(calls, new_values) := new_values_of self rows c in
  (calls,
   new_values ← new_values;
   rows ← reorder rows (del_col_indexes self) (output_col_idx self) new_values;
   Ok (context.output c rows)).
End ProcessRecord.

(** [process] of the class, for a given [process_convertor]. *)
Definition process
    (process_convertor : Self -> list pyval -> context.Context -> res pyval)
    (c : context.Context) : res context.Context :=
  Convertor.process preproc headers process_header
    (fun _ => Convertor.check_record)
    (fun self rows c => snd (process_record process_convertor self rows c)) c.

End InputOutputsConvertor.

End convertors.

(** ** Convertor classes used as examples *)

(** [AttrCopyConvertor] *)
Definition AttrCopyConvertor : convertor_class.Class :=
  {| convertor_class.Meta_key := "acopy";
     convertor_class.Meta_params := [];
     convertor_class.base := convertor_class.InputOutputConvertor |}.

Definition AttrCopyConvertor_meta : convertor_class.ConvertorMeta :=
  Eval vm_compute in
    match convertor_class.meta AttrCopyConvertor with
    | Ok m => m
    | Raise _ => {| convertor_class.key := ""; convertor_class.params := params.empty |}
    end.

(** A convertor that declares a [CollectionParam]. *)
Definition source_param : params.Param :=
  {| params.name := "source"; params.required := false;
     params.default_value := VStr "default"; params.kind := params.CollectionParam |}.

Definition CollectionConvertor : convertor_class.Class :=
  {| convertor_class.Meta_key := "with_collection";
     convertor_class.Meta_params := [source_param];
     convertor_class.base := convertor_class.Convertor |}.

Definition sample_input : input.ArrayInputCollection :=
  {| input._array :=
       [ [VStr "a"; VStr "b"; VStr "c"];
         [VStr "1"; VStr ""; VStr "3"];
         [VStr "4"; VStr "5"; VStr "6"] ];
     input._current := 0 |}.

(** The context [Context.__init__] builds. *)
Definition context_of (cls : convertor_class.Class) (cp : gmap string pyval)
    (i : input.ArrayInputCollection) : context.Context :=
  {| context._convertor := cls; context._input := i; context._output := [];
     context._convertor_params := cp; context._current := VNone;
     context._data := ∅ |}.

(** [acopy] from column [a] into the existing column [b], keeping the
    values [b] holds. *)
Definition keep_context : context.Context :=
  context_of AttrCopyConvertor
    {[ "input_col_idx" := VStr "a"; "output_col_name" := VStr "b";
       "overwrite" := VBool false ]}
    sample_input.

Definition keep_self : convertors.InputOutputConvertor.Self :=
  {| convertors.InputOutputConvertor.headers := [VStr "a"; VStr "b"; VStr "c"];
     convertors.InputOutputConvertor.num_of_columns := 3;
     convertors.InputOutputConvertor.input_col_idx := VInt 0;
     convertors.InputOutputConvertor.output_col_name := VStr "b";
     convertors.InputOutputConvertor.output_col_idx := VInt 3;
     convertors.InputOutputConvertor.overwrite := VBool false;
     convertors.InputOutputConvertor.del_col := VInt 1 |}.

(** [acopy] from column [a] into a new column [z], with the overwrite flag
    given as false. *)
Definition new_column_context : context.Context :=
  context_of AttrCopyConvertor
    {[ "input_col_idx" := VInt 0; "output_col_name" := VStr "z";
       "overwrite" := VBool false ]}
    sample_input.

Definition new_column_self : convertors.InputOutputConvertor.Self :=
  {| convertors.InputOutputConvertor.headers := [VStr "a"; VStr "b"; VStr "c"];
     convertors.InputOutputConvertor.num_of_columns := 3;
     convertors.InputOutputConvertor.input_col_idx := VInt 0;
     convertors.InputOutputConvertor.output_col_name := VStr "z";
     convertors.InputOutputConvertor.output_col_idx := VInt 3;
     convertors.InputOutputConvertor.overwrite := VBool true;
     convertors.InputOutputConvertor.del_col := VNone |}.

(** A convertor with two output columns, [b] (existing) and [n] (new). *)
Definition TwoOutputsConvertor : convertor_class.Class :=
  {| convertor_class.Meta_key := "two_outputs";
     convertor_class.Meta_params := [];
     convertor_class.base := convertor_class.InputOutputsConvertor |}.

Definition two_outputs_context : context.Context :=
  context_of TwoOutputsConvertor
    {[ "input_col_idx" := VStr "a";
       "output_col_names" := VList [VStr "b"; VStr "n"] ]}
    sample_input.

Definition two_outputs_self : convertors.InputOutputsConvertor.Self :=
  {| convertors.InputOutputsConvertor.headers := [VStr "a"; VStr "b"; VStr "c"];
     convertors.InputOutputsConvertor.num_of_columns := 3;
     convertors.InputOutputsConvertor.input_col_idx := VInt 0;
     convertors.InputOutputsConvertor.output_col_idx := 2;
     convertors.InputOutputsConvertor.output_col_names := [VStr "b"; VStr "n"];
     convertors.InputOutputsConvertor.old_col_indexes := [Some 1; None];
     convertors.InputOutputsConvertor.del_col_indexes := [Some 1; None] |}.

Definition two_values (self : convertors.InputOutputsConvertor.Self)
    (rows : list pyval) (c : context.Context) : res pyval :=
  Ok (VList [VStr "x"; VStr "y"]).

Definition two_outputs_context_after : context.Context :=
  Eval vm_compute in
    match convertors.InputOutputsConvertor.preproc two_outputs_context with
    | Ok (_, _, c) => c
    | Raise _ => two_outputs_context
    end.

(** A convertor that rewrites the columns it is given: the value for the
    column [n] is [new n], and the flag [overwrite] is set. *)
Definition renewed (n : pyval) : pyval :=
  match n with
  | VStr s => VStr ("new " +:+ s)
  | _ => n
  end.

Definition renew_values (self : convertors.InputOutputsConvertor.Self)
    (rows : list pyval) (c : context.Context) : res pyval :=
  Ok (VList (List.map renewed (convertors.InputOutputsConvertor.output_col_names self))).

Definition renew_context (output_col_names : list string) : context.Context :=
  context_of TwoOutputsConvertor
    {[ "input_col_idx" := VStr "c";
       "output_col_names" := VList (VStr <$> output_col_names);
       "overwrite" := VBool true ]}
    sample_input.

(** The rows a run writes. *)
Definition output_of (r : res context.Context) : option (list (list pyval)) :=
  match r with
  | Ok c => Some (context._output c)
  | Raise _ => None
  end.

(** ** Notions the statements about [Context] use *)

(** The dictionary and the list of a parameter set hold the same
    declarations. *)
Definition ParamSet_wf (ps : params.ParamSet) : Prop :=
  (forall p, In p (params._list ps) -> params._dist ps !! params.name p = Some p) /\
  (forall n p, params._dist ps !! n = Some p ->
     params.name p = n /\ In p (params._list ps)).

(** A declared parameter that is required and not supplied. *)
Definition missing_required (ps : params.ParamSet) (cp : gmap string pyval)
    (n : string) : Prop :=
  exists p, params.getitem ps n = Some p /\ params.required p = true /\ cp !! n = None.

(** ** Notions the statements about [InputOutputsConvertor] use *)

(** The values the specification describes for a row without overwriting:
    the component of the computed vector for an empty slot, the old value
    for every other slot. *)
Definition merged_values (old_values values : list pyval) : list pyval :=
  zip_with (fun old_value v => if is_empty_str old_value then v else old_value)
    old_values values.

(** An index [e] after the deletion of the column [d]. *)
Definition shift (d e : Z) : Z := if bool_decide (d < e) then e - 1 else e.

(** The number of indexes of [before] that are smaller than [x]. *)
Definition count_smaller (before : list (option Z)) (x : Z) : Z :=
  Z.of_nat
    (length
       (List.filter
          (fun o => match o with Some y => bool_decide (y < x) | None => false end)
          before)).

(** The adjustment of [preproc] told by recursion on the list: the first
    index stays, the later ones are shifted and adjusted in turn. *)
Fixpoint adjust_rec (steps : nat) (idxs : list (option Z)) (output_col_idx : Z)
    : list (option Z) * Z :=
  match steps, idxs with
  | S steps', Some d :: later =>
      let '(later', out) :=
        adjust_rec steps' (convertors.InputOutputsConvertor.adjust_later d later)
          (shift d output_col_idx) in
      (Some d :: later', out)
  | S steps', None :: later =>
      let '(later', out) := adjust_rec steps' later output_col_idx in
      (None :: later', out)
  | _, _ => (idxs, output_col_idx)
  end.

(** The elements of [row] whose position, counted from [k], is not among
    the indexes [D]. *)
Fixpoint keep_from {A} (k : Z) (D : list (option Z)) (row : list A) : list A :=
  match row with
  | [] => []
  | x :: row' =>
      if bool_decide (Some k ∈ D) then keep_from (k + 1) D row'
      else x :: keep_from (k + 1) D row'
  end.


(** The indexes of a list, without the [None] entries. *)
Definition indexes (l : list (option Z)) : list Z := omap id l.

(** The index of a name in the header row. *)
Definition name_index (names : list string) (s : string) : option Z :=
  match py_list_index (VStr <$> names) (VStr s) with
  | Ok idx => Some idx
  | Raise _ => None
  end.

(** The position [plan] starts from: the requested one, or the end of the
    row. *)
Definition requested_position (headers : list pyval) (output_col_idx : pyval)
    : res Z :=
  if is_None output_col_idx then Ok (convertors.len headers)
  else
    z ← convertors.as_index output_col_idx;
    Ok (if bool_decide (z >= convertors.len headers)
        then convertors.len headers else z).

(** ** [Table.convert] ([table.py]) *)

Module table.

(** A registered convertor: its class, and [conv().process(context)] as
    the context the run leaves (with the rows written so far) and its
    outcome. *)
Record Convertor := {
  cls : convertor_class.Class;
  process : context.Context -> context.Context * res unit
}.

Record Table := {
  file : string;
  is_tempfile : bool;
  skip_cleaning : bool
}.

(** The files (a CSV file is the list of its rows) and the registry of
    convertors, with the extra convertors that are registered on
    demand. *)
Record World := {
  files : gmap string (list (list pyval));
  CONVERTOR_DICT : gmap string Convertor;
  extras : gmap string Convertor
}.

Definition with_files (w : World) (f : gmap string (list (list pyval))) : World :=
  {| files := f; CONVERTOR_DICT := CONVERTOR_DICT w; extras := extras w |}.

(** [NamedTemporaryFile(delete=False, prefix='table_').name]: a new,
    empty file (the directory and the prefix of the name are left out). *)
Definition NamedTemporaryFile (w : World) : string * World :=
  let name := fresh (dom (files w)) in
  (name, with_files w (<[name := []]> (files w))).

(** [open(path, "w")] *)
Definition open_for_writing (w : World) (path : string) : World :=
  with_files w (<[path := []]> (files w)).

(** Closing the output writes the rows to the file, if it is still
    there. *)
Definition close_output (w : World) (path : string) (rows : list (list pyval))
    : World :=
  match files w !! path with
  | Some _ => with_files w (<[path := rows]> (files w))
  | None => w
  end.

(** [os.remove(path)] *)
Definition remove (w : World) (path : string) : World :=
  with_files w (delete path (files w)).

(** [tablelinker.useExtraConvertors()] and
    [convertors.convertor_find_by] *)
Definition register_extras (w : World) : World :=
  {| files := files w; CONVERTOR_DICT := extras w ∪ CONVERTOR_DICT w;
     extras := extras w |}.

Definition convertor_find_by (w : World) (name : string)
    : option Convertor * World :=
  match CONVERTOR_DICT w !! name with
  | Some conv => (Some conv, w)
  | None =>
      let w := register_extras w in
      (CONVERTOR_DICT w !! name, w)
  end.

(** What the variable [output] of [convert] holds: the argument, which
    is [None] or a path, and later the output collection. *)
Inductive output_var :=
  | OutputNone
  | OutputPath (path : string)
  | OutputCollection (filepath : string).

(** [output is None] *)
Definition output_is_None (v : output_var) : bool :=
  match v with OutputNone => true | _ => false end.

(** [Table.convert].  The reader [self.open()] sets up yields the rows
    of the file as they are, which is what it does for a table with
    [skip_cleaning]; the cleaning [open] does otherwise
    ([csv_cleaner.py]) is not modelled. *)
Definition convert (w : World) (self : Table) (convertor : string)
    (params : gmap string pyval) (output : output_var) : World * res Table :=
  (* self.open() *)
  match files w !! file self with
  | None => (w, Raise OSError)
  | Some rows =>
      let '(csv_out, w) :=
        match output with
        | OutputPath path => (path, w)
        | OutputCollection path => (path, w)
        | OutputNone => NamedTemporaryFile w
        end in
      let input := {| input._array := rows; input._current := 0 |} in
      let output := OutputCollection csv_out in
      let '(conv, w) := convertor_find_by w convertor in
      let '(conv, w) :=
        match conv with
        | Some conv => (Some conv, w)
        | None => convertor_find_by (register_extras w) convertor
        end in
      match conv with
      | None => (w, Raise ValueError)
      | Some conv =>
          match context.init (cls conv) params input [] with
          | (_, _, Raise e) => (w, Raise e)
          | (_, _, Ok context) =>
              (* __enter__ *)
              let w := open_for_writing w csv_out in
              let '(context, outcome) := process conv context in
              match outcome with
              | Ok _ =>
                  (close_output w csv_out (context._output context),
                   Ok {| file := csv_out;
                         is_tempfile := output_is_None output;
                         skip_cleaning := true |})
              | Raise RuntimeError =>
                  let w :=
                    if output_is_None output then remove w csv_out else w in
                  (close_output w csv_out (context._output context),
                   Raise RuntimeError)
              | Raise e =>
                  (close_output w csv_out (context._output context), Raise e)
              end
          end
      end
  end.

(** A convertor of the kind the geocoder ones are: [preproc] returns
    [False] when the backend cannot be set up, and [process] raises
    [RuntimeError] after the header row has been read. *)
Definition unusable : Convertor :=
  {| cls := {| convertor_class.Meta_key := "unusable";
               convertor_class.Meta_params := [];
               convertor_class.base := convertor_class.Convertor |};
     process := fun c =>
       match convertors.Convertor.process
               (fun c => '(self, c) ← convertors.Convertor.preproc c;
                         Ok (VBool false, self, c))
               convertors.Convertor.headers
               (fun _ => convertors.Convertor.process_header)
               (fun _ => convertors.Convertor.check_record)
               (fun _ => convertors.Convertor.process_record) c with
       | Ok c' => (c', Ok tt)
       | Raise e => (c, Raise e)
       end |}.

Definition sample_world : World :=
  {| files := {[ "in.csv" := [ [VStr "a"; VStr "b"]; [VStr "1"; VStr "2"] ] ]};
     CONVERTOR_DICT := {[ "unusable" := unusable ]};
     extras := ∅ |}.

Definition sample_table : Table :=
  {| file := "in.csv"; is_tempfile := false; skip_cleaning := false |}.

End table.

(** ** Notions the statements about [Table.convert] use *)

(** The file [convert] writes to: the caller's path, or the temporary
    file it creates. *)
Definition output_path (w : table.World) (output : table.output_var) : string :=
  match output with
  | table.OutputPath path => path
  | table.OutputCollection path => path
  | table.OutputNone => fresh (dom (table.files w))
  end.

(** ** The header mapper ([mapping.py])

    Python floats are held as rationals. *)

Module mapping.

(** *** [StringSimilarity] *)

Definition _subcost : Z := 10.
Definition _delcost : Z := 1.
Definition _inscost : Z := 1.

(** The bigram list [ulist] of [strsim]; [nlist[-1]] fails on the empty
    list. *)
Fixpoint bigrams_from (previous : string) (nlist : list string) : list string :=
  match nlist with
  | [] => [previous +:+ "$"]
  | c :: nlist' => (previous +:+ c) :: bigrams_from c nlist'
  end.

Definition bigrams (nlist : list string) : res (list string) :=
  match nlist with
  | [] => Raise IndexError
  | _ => Ok (bigrams_from "^" nlist)
  end.

(** One row of the matrix [m] of [_match_str] (with [flag] ['char'], the
    only value a caller passes): [diagonal] is [m[j-1][i-1]], [above]
    holds [m[j-1][i]] onwards, [left] is [m[j][i-1]]. *)
Fixpoint fill_row (diagonal : Z) (above : list Z) (left : Z)
    (list1 : list string) (y : string) : list Z :=
  match list1, above with
  | x :: list1', up :: above' =>
      let v1 := left + _delcost in
      let v2 := up + _inscost in
      let v3 := if String.eqb x y then diagonal else diagonal + _subcost in
      let minval := Z.min v1 (Z.min v2 v3) in
      minval :: fill_row up above' minval list1' y
  | _, _ => []
  end.

Fixpoint fill_rows (j : Z) (previous : list Z) (list1 list2 : list string)
    : list (list Z) :=
  match list2 with
  | [] => []
  | y :: list2' =>
      let row :=
        match previous with
        | diagonal :: above =>
            j * _inscost :: fill_row diagonal above (j * _inscost) list1 y
        | [] => []
        end in
      row :: fill_rows (j + 1) row list1 list2'
  end.

Definition matrix (list1 list2 : list string) : list (list Z) :=
  let row0 := List.map (fun i => Z.of_nat i * _delcost) (seq 0 (S (length list1))) in
  row0 :: fill_rows 1 row0 list1 list2.

Definition at_ (m : list (list Z)) (j i : nat) : Z :=
  default 0 (default [] (m !! j) !! i).

(** The loop that walks back through the matrix and counts the
    matches. *)
Fixpoint count_matches (fuel : nat) (m : list (list Z)) (i j : nat) (matched : Z) : Z :=
  match fuel, i, j with
  | S fuel', S i', S j' =>
      let v1 := at_ m j i' in
      let v2 := at_ m j' i' in
      let v3 := at_ m j' i in
      if bool_decide (v2 <= v1) && bool_decide (v2 <= v3)
      then count_matches fuel' m i' j'
             (if bool_decide (at_ m j' i' = at_ m j i) then matched + 1 else matched)
      else if bool_decide (v1 <= v3) then count_matches fuel' m i' j matched
      else count_matches fuel' m i j' matched
  | _, _, _ => matched
  end.

(** The number of matches [_match_str] returns. *)
Definition _match_str (list1 list2 : list string) : Z :=
  count_matches (length list1 + length list2) (matrix list1 list2)
    (length list1) (length list2) 0.

Definition strsim (term1 term2 : string) : res Q :=
  ulist1 ← bigrams (chars term1);
  ulist2 ← bigrams (chars term2);
  let matched := _match_str ulist1 ulist2 in
  Ok (Qmake (2 * matched) 1 / Qmake (Z.of_nat (length ulist1 + length ulist2)) 1)%Q.

(** *** [ItemsPair] *)

Section ItemsPair.
(** [Similarity.item2vec], which raises when the tokens of the item do
    not average to a vector, [Similarity.cos_sim] and
    [Munkres().compute]: they rest on libraries (the tokenizer and its
    vectors, numpy, munkres). *)
Variable vector : Type.
Variable item2vec : string -> res vector.
Variable cos_sim : vector -> vector -> Q.
Variable Munkres_compute : list (list Q) -> list (nat * nat).

(** [ItemsPair.__init__] *)
Definition items_of (items : list string) : list string :=
  List.map (fun x => if negb (String.eqb x "") then x else "empty") items.

Definition mx_get (mx : list (list Q)) (i j : nat) : res Q :=
  match mx !! i with
  | Some row => match row !! j with Some v => Ok v | None => Raise IndexError end
  | None => Raise IndexError
  end.

(** The entries the loops of [get_weighted_matrix] assign; the others
    stay 0. *)
Definition mxsim_entry (vec0 vec1 : list vector) (i j : nat) : Q :=
  match vec0 !! i, vec1 !! j with
  | Some a, Some b =>
      let sim := cos_sim a b in
      let sim := if Qlt_le_dec sim 0 then 0%Q else sim in
      ((-1) * sim)%Q
  | _, _ => 0%Q
  end.

Definition mxed_entry (items0 items1 : list string) (i j : nat) : res Q :=
  match items0 !! i, items1 !! j with
  | Some a, Some b => ed ← strsim a b; Ok ((-1) * ed)%Q
  | _, _ => Ok 0%Q
  end.

Fixpoint all_ok {A} (l : list (res A)) : res (list A) :=
  match l with
  | [] => Ok []
  | r :: l' => x ← r; xs ← all_ok l'; Ok (x :: xs)
  end.

(** [get_weighted_matrix]: the matrices [mxsim] and [mxed]. *)
Definition get_weighted_matrix (items0 items1 : list string)
    : res (list (list Q) * list (list Q)) :=
  vec0 ← all_ok (List.map item2vec items0);
  vec1 ← all_ok (List.map item2vec items1);
  let dim := Nat.max (length items0) (length items1) in
  let mxsim :=
    List.map (fun i => List.map (fun j => mxsim_entry vec0 vec1 i j) (seq 0 dim))
      (seq 0 dim) in
  mxed ← all_ok
           (List.map
              (fun i => all_ok (List.map (fun j => mxed_entry items0 items1 i j)
                                  (seq 0 dim)))
              (seq 0 dim));
  Ok (mxsim, mxed).

(** [match] *)
Definition match_ (items0 items1 : list string) : res (list (nat * nat)) :=
  '(mxsim, _) ← get_weighted_matrix items0 items1;
  Ok (Munkres_compute mxsim).

(** [mapping] *)
Fixpoint results_of (items0 items1 : list string) (mxsim : list (list Q))
    (pairs : list (nat * nat)) : res (list (option string * option string * Q)) :=
  match pairs with
  | [] => Ok []
  | (i, j) :: pairs' =>
      v ← mx_get mxsim i j;
      rest ← results_of items0 items1 mxsim pairs';
      Ok ((items0 !! i, items1 !! j, (- v)%Q) :: rest)
  end.

Definition mapping (items0 items1 : list string)
    : res (list (option string * option string * Q)) :=
  pairs ← match_ items0 items1;
  '(mxsim, _) ← get_weighted_matrix items0 items1;
  results_of items0 items1 mxsim pairs.



End ItemsPair.

End mapping.

(** Stand-ins for the libraries, to run the mapper: the vector of an item
    is the item, every pair is half similar, and row [i] is assigned
    column [i]. *)
Definition item_itself (item : string) : res string := Ok item.

Definition half_similar (a b : string) : Q := (1 # 2)%Q.

Definition diagonal_assignment (mx : list (list Q)) : list (nat * nat) :=
  List.map (fun i => (i, i)) (seq 0 (length mx)).

(** ** Notions the statements about [ItemsPair] use *)

(** [mxsim] as [get_weighted_matrix] leaves it for [dim] rows and columns
    and the vectors [vec0], [vec1] of the items. *)
Definition mxsim_of {vector : Type} (cos_sim : vector -> vector -> Q)
    (dim : nat) (vec0 vec1 : list vector) : list (list Q) :=
  List.map (fun i => List.map (fun j => mapping.mxsim_entry vector cos_sim vec0 vec1 i j)
                       (seq 0 dim)) (seq 0 dim).

(** The similarity as it is stored and returned: cut at 0 from below. *)
Definition cut_at_0 (sim : Q) : Q := if Qlt_le_dec sim 0 then 0%Q else sim.
(** ** Regular expressions ([regex] as the date extractor uses it)

    The patterns of [date_extractor.py] are values of [regex], and the
    matcher follows the backtracking search of the library: the
    alternatives of a choice are tried in order, the repetitions are
    greedy, and the first way that lets the rest of the pattern match is
    taken.  A pattern works on the bytes of the UTF-8 text; a character
    class that lists characters outside ASCII is [OneOf] over their
    encodings. *)

Module re.

Inductive regex :=
  | Eps
  | Lit (s : string)                    (* the text [s] *)
  | Cls (p : ascii -> bool)             (* one byte of a class *)
  | OneOf (l : list string)             (* one of the listed characters *)
  | Seq (a b : regex)
  | Alt (a b : regex)                   (* a|b *)
  | Opt (a : regex)                     (* a? *)
  | Star (a : regex)                    (* a* *)
  | Group (name : string) (a : regex)   (* (?P<name>a) *)
  | Backref (name : string)             (* (?P=name) *)
  | NotAhead (a : regex).               (* (?!a) *)

Definition Plus (a : regex) : regex := Seq a (Star a).

Fixpoint seqs (l : list regex) : regex :=
  match l with
  | [] => Eps
  | [a] => a
  | a :: l' => Seq a (seqs l')
  end.

Fixpoint alts (l : list regex) : regex :=
  match l with
  | [] => OneOf []
  | [a] => a
  | a :: l' => Alt a (alts l')
  end.

(** A choice between texts, as in [(?:頃|ころ|ごろ)]. *)
Definition lits (l : list string) : regex := alts (List.map Lit l).

(** The groups that have matched, the latest first. *)
Definition captures := list (string * string).

Fixpoint group_of (name : string) (caps : captures) : option string :=
  match caps with
  | [] => None
  | (n, text) :: caps' => if String.eqb n name then Some text else group_of name caps'
  end.

(** The part of [s] that was consumed when [rest] is left. *)
Definition consumed (s rest : string) : string :=
  string_take (String.length s - String.length rest) s.

(** [rmatch r s caps k]: match [r] at the start of [s] and hand what is
    left, with the groups, to the continuation [k]; [None] when no way of
    matching [r] lets [k] succeed. *)
Fixpoint rmatch (R : Type) (r : regex) (s : string) (caps : captures)
    (k : string -> captures -> option R) {struct r} : option R :=
  match r with
  | Eps => k s caps
  | Lit t =>
      if startswith t s then k (string_drop (String.length t) s) caps else None
  | Cls p =>
      match s with
      | String c s' => if p c then k s' caps else None
      | "" => None
      end
  | OneOf l =>
      match List.find (fun w => startswith w s) l with
      | Some w => k (string_drop (String.length w) s) caps
      | None => None
      end
  | Seq a b => rmatch R a s caps (fun s' caps' => rmatch R b s' caps' k)
  | Alt a b =>
      match rmatch R a s caps k with
      | Some x => Some x
      | None => rmatch R b s caps k
      end
  | Opt a =>
      match rmatch R a s caps k with
      | Some x => Some x
      | None => k s caps
      end
  | Star a =>
      (fix star (fuel : nat) (s : string) (caps : captures) : option R :=
         match fuel with
         | O => k s caps
         | S fuel' =>
             match rmatch R a s caps
                     (fun s' caps' =>
                        if (String.length s' <? String.length s)%nat
                        then star fuel' s' caps' else None) with
             | Some x => Some x
             | None => k s caps
             end
         end) (String.length s) s caps
  | Group name a =>
      rmatch R a s caps (fun s' caps' => k s' ((name, consumed s s') :: caps'))
  | Backref name =>
      match group_of name caps with
      | Some t =>
          if startswith t s then k (string_drop (String.length t) s) caps else None
      | None => None
      end
  | NotAhead a =>
      match rmatch unit a s caps (fun _ _ => Some tt) with
      | Some _ => None
      | None => k s caps
      end
  end.
Arguments rmatch {R} r s caps k.

(** A match: where it starts, its text, what follows it, its groups. *)
Record Match := {
  start : nat;
  group0 : string;
  rest : string;
  groups : captures
}.

(** [m.group(name)] *)
Definition group (m : Match) (name : string) : option string :=
  group_of name (groups m).

(** [re.match] at the start of [s], for a match that began at [pos]. *)
Definition match_at (r : regex) (pos : nat) (s : string) : option Match :=
  rmatch r s []
    (fun s' caps =>
       Some {| start := pos; group0 := consumed s s'; rest := s'; groups := caps |}).

(** [re.fullmatch] *)
Definition fullmatch (r : regex) (s : string) : bool :=
  match rmatch r s [] (fun s' _ => if String.eqb s' "" then Some tt else None) with
  | Some _ => true
  | None => false
  end.

(** [re.search]: the first position where the pattern matches. *)
Fixpoint search_from (r : regex) (pos : nat) (s : string) : option Match :=
  match match_at r pos s with
  | Some m => Some m
  | None =>
      match s with
      | "" => None
      | String _ s' => search_from r (S pos) s'
      end
  end.

Definition search (r : regex) (s : string) : option Match := search_from r 0 s.

(** [re.finditer]: the matches from left to right, each search starting
    where the match before ended (one byte further after an empty
    match). *)
Fixpoint finditer_from (fuel : nat) (r : regex) (pos : nat) (s : string)
    : list Match :=
  match fuel with
  | O => []
  | S fuel' =>
      match search_from r pos s with
      | None => []
      | Some m =>
          let after :=
            if String.eqb (group0 m) "" then string_drop 1 (rest m) else rest m in
          let width :=
            if String.eqb (group0 m) "" then 1%nat else String.length (group0 m) in
          m :: (if String.eqb (group0 m) "" && String.eqb (rest m) "" then []
                else finditer_from fuel' r (start m + width) after)
      end
  end.

Definition finditer (r : regex) (s : string) : list Match :=
  finditer_from (S (String.length s)) r 0 s.

(** [re.sub(r, repl, s)] *)
Fixpoint sub_from (fuel : nat) (r : regex) (repl : string) (s : string) : string :=
  match fuel with
  | O => s
  | S fuel' =>
      match match_at r 0 s with
      | Some m =>
          if String.eqb (group0 m) ""
          then match s with
               | "" => repl
               | String c s' => repl +:+ String c (sub_from fuel' r repl s')
               end
          else repl +:+ sub_from fuel' r repl (rest m)
      | None =>
          match s with
          | "" => ""
          | String c s' => String c (sub_from fuel' r repl s')
          end
      end
  end.

Definition sub (r : regex) (repl : string) (s : string) : string :=
  sub_from (S (String.length s)) r repl s.

(** *** Character classes *)

Definition in_range (lo hi : ascii) (c : ascii) : bool :=
  (nat_of_ascii lo <=? nat_of_ascii c)%nat && (nat_of_ascii c <=? nat_of_ascii hi)%nat.

(** [\d], on ASCII: the digits of the date and time patterns, which are
    taken on texts whose digits are the ASCII ones. *)
Definition digit : regex := Cls is_digit.

(** [\d]: a decimal digit of any script. *)
Definition decimal : regex :=
  Alt (Cls is_digit) (OneOf (List.map fst wide_digits)).

(** [\w]: the ASCII letters, digits and underscore; every byte of a
    character outside ASCII is taken as a part of a word character. *)
Definition is_word (c : ascii) : bool :=
  in_range "a" "z" c || in_range "A" "Z" c || is_digit c || Ascii.eqb c "_"
  || (128 <=? nat_of_ascii c)%nat.

(** [\s] of the [regex] module: the characters with the Unicode property
    White_Space (the information separators U+001C to U+001F, which
    [str.strip] removes, are not among them). *)
Definition space : regex :=
  OneOf
    [ chr 9; chr 10; chr 11; chr 12; chr 13; chr 32;
      bytes [194; 133]; bytes [194; 160]; bytes [225; 154; 128];
      bytes [226; 128; 128]; bytes [226; 128; 129]; bytes [226; 128; 130];
      bytes [226; 128; 131]; bytes [226; 128; 132]; bytes [226; 128; 133];
      bytes [226; 128; 134]; bytes [226; 128; 135]; bytes [226; 128; 136];
      bytes [226; 128; 137]; bytes [226; 128; 138]; bytes [226; 128; 168];
      bytes [226; 128; 169]; bytes [226; 128; 175]; bytes [226; 129; 159];
      bytes [227; 128; 128] ]%nat.

(** [[lo-hi]] *)
Definition range (lo hi : ascii) : regex := Cls (in_range lo hi).

(** A class given by the characters it lists. *)
Definition one_of (s : string) : regex := OneOf (chars s).

(** [a{n}] *)
Fixpoint times (n : nat) (a : regex) : regex :=
  match n with
  | O => Eps
  | S O => a
  | S n' => Seq a (times n' a)
  end.

End re.

(** ** The date and time extractor ([date_extractor.py]) *)

Module date_extractor.
Import re.

(** [is_integer] *)
Definition is_integer (s : string) : bool := is_Ok (py_int_str (strip s)).

(** *** The patterns *)

(** The suffix [(?:頃|ころ|ごろ)] and [(?:過ぎ|すぎ)] of several patterns. *)
Definition koro : regex := lits ["頃"; "ころ"; "ごろ"].
Definition sugi : regex := lits ["過ぎ"; "すぎ"].

Definition url : regex :=
  seqs [ Lit "http"; Opt (Lit "s"); Lit "://";
         Plus (Cls (fun c => is_word c
                             || existsb (Ascii.eqb c)
                                  (list_ascii_of_string "/:%#$&?()~.=+-"))) ].

Definition excel_date : regex :=
  seqs [ one_of "34"; times 4 decimal; Opt (Seq (Lit ".") (Star decimal)) ].

Definition era : regex := one_of "MTSHR明大昭平令".
Definition year_special : regex :=
  seqs [ alts [Lit "本"; Lit "今"; Seq (Opt (Lit "再")) (Lit "来");
               Seq (Opt (Lit "一")) (Lit "昨")];
         Lit "年"; Opt (Lit "度") ].
Definition year_4digits : regex :=
  Seq (Alt (Seq (Lit "1") (one_of "356789")) (Seq (Lit "2") (one_of "01")))
    (times 2 digit).
Definition year_2digits : regex :=
  Alt (times 2 digit) (Seq (Opt (Lit " ")) digit).
Definition year_era : regex :=
  Seq era (Alt (Seq (Lit " ") digit) (Seq digit (Opt digit))).
Definition year_era_first : regex := Seq era (Lit "元").
Definition year_num : regex := Alt year_4digits year_era.
Definition year_jp : regex :=
  Alt (seqs [year_num; Lit "年"; Opt (Lit "度")]) year_special.
Definition year : regex := Alt year_num year_jp.

Definition month_special : regex :=
  Seq (alts [Lit "今"; Seq (Opt (Lit "再")) (Lit "来"); Lit "先"]) (Lit "月").
Definition month_2digits : regex :=
  alts [ Seq (Lit " ") (range "1" "9"); Seq (Lit "0") (range "1" "9");
         Seq (Lit "1") (range "0" "2") ].
Definition month_1digit : regex := range "1" "9".
Definition month_num : regex := Alt month_2digits month_1digit.
Definition month_jp : regex := Alt (Seq month_num (Lit "月")) month_special.
Definition month : regex := Alt month_num month_jp.

Definition youbi_char : regex := one_of "日月火水木金土".
Definition youbi_one : regex := seqs [youbi_char; Lit "曜"; Opt (Lit "日")].
Definition youbi_par : regex := seqs [Lit "("; youbi_char; Lit ")"].
Definition week_number : regex := one_of "12345一二三四五".
Definition youbi : regex :=
  Alt
    (seqs [ Opt (Alt (Lit "毎週")
                   (seqs [ Opt (Lit "毎月"); Lit "第"; week_number;
                           Star (seqs [ Opt (one_of ",.・〜"); Opt (Lit "第");
                                        week_number ]);
                           Opt (Lit "週") ]));
            Star (Seq youbi_char (Lit "・"));
            youbi_one ])
    youbi_par.

Definition day_special : regex :=
  alts [ seqs [lits ["初"; "上"; "中"; "下"]; Lit "旬"; Opt koro];
         Seq (alts [ Lit "本"; Lit "今";
                     Seq (Lit "明") (Opt (Seq (Opt (Lit "明")) (Lit "後")));
                     Seq (Opt (Seq (Lit "一") (Opt (Lit "咋")))) (Lit "昨");
                     Lit "翌"; Lit "毎"; Seq (Lit "祝") (Opt (Lit "休"));
                     Lit "休"; Lit "末"; Lit "同" ])
           (Lit "日");
         Lit "年末年始";
         Lit "お盆" ].
Definition day_2digits : regex :=
  alts [ Seq (Lit " ") (range "1" "9"); Seq (Lit "0") (range "1" "9");
         Seq (one_of "12") digit; Seq (Lit "3") (one_of "01") ].
Definition day_1digit : regex := range "1" "9".
Definition day_num : regex := Alt day_2digits day_1digit.
Definition day_jp : regex := alts [Seq day_num (Lit "日"); day_special; youbi].
Definition day : regex := Alt day_num day_jp.

Definition time_special : regex :=
  Group "hour_time_special"
    (alts [ seqs [Lit "正午"; Opt sugi; Opt koro];
            Seq (Lit "午前") (Opt (Lit "中"));
            Lit "昼間帯";
            Lit "午後";
            Seq (Lit "夕方") (Opt koro);
            Seq (Lit "夜") (Opt (Lit "間"));
            Lit "未明" ]).

Definition hour_2digits : regex :=
  Alt (Seq (one_of "01") digit) (Seq (Lit "2") (range "0" "4")).
Definition hour_1digit : regex := digit.
Definition hour_num : regex := Alt hour_2digits hour_1digit.
Definition hour_jp : regex :=
  Seq (Alt (seqs [Opt (lits ["午前"; "午後"]); Opt (Lit "1"); digit])
         (Seq (Lit "2") (range "0" "4")))
    (Lit "時").

Definition minute_num : regex := Alt (Seq (range "0" "5") digit) (Lit "60").
Definition minute_jp : regex :=
  Alt (Seq (Alt (Seq (Opt (range "0" "5")) digit) (Lit "60")) (Lit "分")) (Lit "半").

Definition second_num : regex := Alt (Seq (range "0" "5") digit) (Lit "60").
Definition second_jp : regex :=
  Seq (Alt (Seq (Opt (range "0" "5")) digit) (Lit "60")) (Lit "秒").

Definition time_num : regex :=
  seqs [ Opt (Lit "T");
         Group "hour_time_num" hour_num;
         Lit ":";
         Group "minute_time_num" minute_num;
         Opt (Seq (Lit ":") (Group "second_time_num" second_num));
         Opt (seqs [Lit "+"; digit; Lit "2"; Lit ":"; digit; Lit "2"]) ].

Definition hms_jp : regex :=
  seqs [ Group "hour_hms_jp" hour_jp;
         Opt (Seq (Group "minute_hms_jp" minute_jp)
                (Opt (Group "second_hms_jp" second_jp)));
         Opt sugi;
         Opt koro ].

Definition time_jp : regex := Alt hms_jp time_special.
Definition time : regex := Alt time_num time_jp.

(* YYYYMM *)
Definition ym_6digits : regex :=
  Seq (Group "year_ym_6digits" year_4digits) (Group "month_ym_6digits" month_2digits).
Definition ym_delimiter : regex :=
  seqs [ Group "year_ym_delimiter" year; one_of "-/.";
         Group "month_ym_delimiter" month ].
Definition ym_jp : regex :=
  Seq (Group "year_ym_jp" (Seq year_jp (Opt koro))) (Group "month_ym_jp" month_jp).
Definition ym : regex := alts [ym_6digits; ym_delimiter; ym_jp].

(* MMDD *)
Definition md_delimiter : regex :=
  seqs [ Group "month_md_delimiter" month; one_of "-/.";
         Group "day_md_delimiter" day ].
Definition md_jp : regex :=
  seqs [ Group "month_md_jp" month_jp; Group "day_md_jp" day_jp; Opt youbi_par ].
Definition md : regex :=
  Alt md_delimiter
    (seqs [md_jp; Opt koro; Opt (Seq (Opt (one_of " の")) time_jp)]).

(* MMDDYYYY *)
Definition mdy_delimiter : regex :=
  seqs [ Group "month_mdy_delimiter" month;
         Group "delimiter_mdy" (one_of "-/.");
         Group "day_mdy_delimiter" day;
         Backref "delimiter_mdy";
         Group "year_mdy_delimiter" year ].
Definition mdy_jp : regex :=
  seqs [ Group "month_mdy_jp" month_jp; Group "day_mdy_jp" day_jp;
         Group "year_mdy_jp" year_jp ].
Definition mdy : regex := Alt mdy_delimiter mdy_jp.

(* YYYYMM.DD *)
Definition ym_d : regex :=
  seqs [ Group "year_ym_d" year_era_first; Group "month_ym_d" month_num;
         Lit "."; Group "day_ym_d" day_num ].

(* YYYY-MMDD *)
Definition y_md : regex :=
  seqs [ Group "year_y_md" year_num; Lit "-";
         Group "month_y_md" (Alt month_jp month_2digits);
         Group "day_y_md" day_special ].

(* YYYYMMDD *)
Definition ymd_8digits : regex :=
  seqs [ Group "year_ymd_8digits" year_4digits;
         Group "month_ymd_8digits" month_2digits;
         Group "day_ymd_8digits" day_2digits ].
Definition ymd_delimiter : regex :=
  seqs [ Group "year_ymd_delimiter" (Alt year year_2digits);
         Group "delimiter_ymd" (one_of "-/.,");
         Group "month_ymd_delimiter" month;
         Backref "delimiter_ymd";
         Group "day_ymd_delimiter" day ].
Definition ymd_jp : regex :=
  seqs [ Group "year_ymd_jp" year_jp; Group "month_ymd_jp" month_jp;
         Group "day_ymd_jp" day_jp; Opt youbi_par; Opt koro ].
Definition ymd : regex :=
  alts [ Seq ymd_8digits (Opt (Group "hour_2digits" hour_2digits));
         Seq ymd_delimiter (Opt (Seq (Opt (Lit " ")) time_num));
         Seq ymd_jp (Opt (Seq (Opt (one_of " の")) time_jp)) ].

Definition date : regex :=
  alts [ ymd; y_md; ym_d; mdy; md; ym;
         seqs [Group "day_jp" day_jp; Opt youbi_par; Opt time_jp];
         Group "month_jp" month_jp;
         Group "year_jp" year_jp;
         Group "year_era" year_era;
         Seq (Group "year_4digits" year_4digits) (NotAhead (one_of "号番"));
         time ].

Definition date_span : regex :=
  Seq date
    (Plus (Seq (lits ["〜"; "～"; "~"; "から"; "及び"; "および"; "と"; "、"; "・"])
             date)).

Definition re_url : regex := url.
Definition re_datespan : regex := date_span.
Definition re_date : regex := date.

(** *** The tables *)

Definition convert_dic : list (string * string) :=
  [ ("０", "0"); ("１", "1"); ("２", "2"); ("３", "3"); ("４", "4");
    ("５", "5"); ("６", "6"); ("７", "7"); ("８", "8"); ("９", "9");
    ("．", "."); ("（", "("); ("）", ")");
    ("Ｒ", "R"); ("Ｈ", "H"); ("Ｓ", "S"); ("Ｔ", "T"); ("Ｍ", "M");
    ("R.", "R"); ("H.", "H"); ("S.", "S"); ("T.", "T"); ("M.", "M");
    ("令和", "R"); ("平成", "H"); ("昭和", "S"); ("大正", "T"); ("明治", "M");
    ("元年", "1年"); ("元.", "1.");
    ("January", "1"); ("February", "2"); ("March", "3"); ("April", "4");
    ("May", "5"); ("June", "6"); ("July", "7"); ("August", "8");
    ("September", "9"); ("October", "10"); ("November", "11");
    ("December", "12");
    ("Jan", "1"); ("Feb", "2"); ("Mar", "3"); ("Apr", "4"); ("May", "5");
    ("Jun", "6"); ("Jul", "7"); ("Aug", "8"); ("Sep", "9"); ("Oct", "10");
    ("Nov", "11"); ("Dec", "12");
    ("-年", "年"); ("-月", "月"); ("-日", "日") ].

Definition year_dic : list (string * Z) :=
  [ ("令", 2018); ("平", 1988); ("昭", 1925); ("大", 1911); ("明", 1867);
    ("R", 2018); ("H", 1988); ("S", 1925); ("T", 1911); ("M", 1867) ].

(** *** The conversions *)

(** [convert_string]: the replacements of [convert_dic], in its order. *)
Definition convert_string (s : string) : string :=
  fold_left (fun s kv => replace (fst kv) (snd kv) s) convert_dic s.

(** The loop of [convert_year] over [year_dic]. *)
Fixpoint convert_year_in (dic : list (string * Z)) (y : string) : option (res pyval) :=
  match dic with
  | [] => None
  | (k, v) :: dic' =>
      if str_contains k y
      then Some (n ← py_int_str
                       (replace "元" "1"
                          (replace "年" "" (replace "年度" "" (replace k "" y))));
                 Ok (VInt (v + n)))
      else convert_year_in dic' y
  end.

(** [convert_year] *)
Definition convert_year (y : string) : res pyval :=
  match convert_year_in year_dic y with
  | Some r => r
  | None =>
      let t := replace "年" "" (replace "年度" "" y) in
      if is_integer t then n ← py_int_str t; Ok (VInt n) else Ok (VStr y)
  end.

(** [convert_hour] *)
Definition convert_hour (h : string) : res pyval :=
  if str_contains "午後" h && is_integer (replace "時" "" (replace "午後" "" h))
  then n ← py_int_str (replace "時" "" (replace "午後" "" h)); Ok (VInt (12 + n))
  else if is_integer (replace "時" "" (replace "午前" "" h))
  then n ← py_int_str (replace "時" "" (replace "午前" "" h)); Ok (VInt n)
  else Ok (VStr h).

(** [convert_minute] *)
Definition convert_minute (m : string) : res pyval :=
  if String.eqb m "半" then Ok (VInt 30)
  else if is_integer (replace "分" "" m)
  then n ← py_int_str (replace "分" "" m); Ok (VInt n)
  else Ok (VStr m).

(** [search_group] *)
Definition search_group (groups : Match) (group_name : string) : string :=
  match group groups group_name with
  | None => ""
  | Some ret => ret
  end.

Definition concat_groups (d : Match) (names : list string) : string :=
  fold_left (fun acc name => acc +:+ search_group d name) names "".

(** An integer when the text, without its unit, is one. *)
Definition int_or_text (unit text : string) : res pyval :=
  if is_integer (replace unit "" text)
  then n ← py_int_str (replace unit "" text); Ok (VInt n)
  else Ok (VStr text).

(** [_get_ymdhms] *)
Definition _get_ymdhms (d : Match) : res (list pyval) :=
  let year :=
    concat_groups d
      [ "year_ymd_8digits"; "year_ymd_delimiter"; "year_ymd_jp"; "year_y_md";
        "year_ym_d"; "year_mdy_delimiter"; "year_mdy_jp"; "year_ym_6digits";
        "year_ym_delimiter"; "year_ym_jp"; "year_jp"; "year_era";
        "year_4digits" ] in
  let month :=
    concat_groups d
      [ "month_ymd_8digits"; "month_ymd_delimiter"; "month_ymd_jp";
        "month_y_md"; "month_ym_d"; "month_mdy_delimiter"; "month_mdy_jp";
        "month_ym_6digits"; "month_ym_delimiter"; "month_ym_jp";
        "month_md_delimiter"; "month_md_jp"; "month_jp" ] in
  let day :=
    concat_groups d
      [ "day_ymd_8digits"; "day_ymd_delimiter"; "day_ymd_jp"; "day_y_md";
        "day_ym_d"; "day_mdy_delimiter"; "day_mdy_jp"; "day_md_delimiter";
        "day_md_jp"; "day_jp" ] in
  let hour :=
    concat_groups d
      [ "hour_time_num"; "hour_hms_jp"; "hour_time_special"; "hour_2digits" ] in
  let minute := concat_groups d ["minute_time_num"; "minute_hms_jp"] in
  let second := concat_groups d ["second_time_num"; "second_hms_jp"] in
  year ← convert_year year;
  month ← int_or_text "月" month;
  day ← int_or_text "日" day;
  hour ← convert_hour hour;
  minute ← convert_minute minute;
  second ← (if is_integer (replace "秒" "" second)
            then n ← py_int_str (replace "秒" "" second); Ok (VInt n)
            else Ok VNone);
  Ok [year; month; day; hour; minute; second].

(** *** Dates ([datetime] of the Python library) *)

Local Open Scope Z_scope.

Definition is_leap (year : Z) : bool :=
  (year mod 4 =? 0) && (negb (year mod 100 =? 0) || (year mod 400 =? 0)).

Definition days_before_year (year : Z) : Z :=
  let y := year - 1 in
  y * 365 + y / 4 - y / 100 + y / 400.

Definition days_in_month (year month : Z) : Z :=
  if month =? 2 then (if is_leap year then 29 else 28)
  else if (month =? 4) || (month =? 6) || (month =? 9) || (month =? 11) then 30
  else 31.

(** [_DAYS_BEFORE_MONTH] of a year that is not a leap year. *)
Definition DAYS_BEFORE_MONTH (month : Z) : Z :=
  nth (Z.to_nat month) [0; 0; 31; 59; 90; 120; 151; 181; 212; 243; 273; 304; 334] 0.

Definition days_before_month (year month : Z) : Z :=
  DAYS_BEFORE_MONTH month + (if (2 <? month) && is_leap year then 1 else 0).

(** [_ymd2ord] *)
Definition ymd2ord (year month day : Z) : Z :=
  days_before_year year + days_before_month year month + day.

(** [_ord2ymd] *)
Definition ord2ymd (n : Z) : Z * Z * Z :=
  let n := n - 1 in
  let n400 := n / 146097 in
  let n := n mod 146097 in
  let year := n400 * 400 + 1 in
  let n100 := n / 36524 in
  let n := n mod 36524 in
  let n4 := n / 1461 in
  let n := n mod 1461 in
  let n1 := n / 365 in
  let n := n mod 365 in
  let year := year + n100 * 100 + n4 * 4 + n1 in
  if (n1 =? 4) || (n100 =? 4) then (year - 1, 12, 31)
  else
    let leapyear := (n1 =? 3) && (negb (n4 =? 24) || (n100 =? 3)) in
    let month := Z.shiftr (n + 50) 5 in
    let preceding :=
      DAYS_BEFORE_MONTH month + (if (2 <? month) && leapyear then 1 else 0) in
    let '(month, preceding) :=
      if n <? preceding
      then (month - 1,
            preceding
            - (nth (Z.to_nat (month - 1))
                 [0; 31; 28; 31; 30; 31; 30; 31; 31; 30; 31; 30; 31] 0
               + (if (month - 1 =? 2) && leapyear then 1 else 0)))
      else (month, preceding) in
    (year, month, n - preceding + 1).

Definition MAXORDINAL : Z := 3652059.

(** A [timedelta], normalised: days, seconds of the day, microseconds. *)
Record timedelta := {
  days : Z;
  seconds : Z;
  microseconds : Z
}.

Record datetime := {
  dt_year : Z; dt_month : Z; dt_day : Z;
  dt_hour : Z; dt_minute : Z; dt_second : Z; dt_microsecond : Z
}.

(** [datetime + timedelta] *)
Definition datetime_add (t : datetime) (delta : timedelta) : res datetime :=
  let us := dt_microsecond t + microseconds delta in
  let s := dt_hour t * 3600 + dt_minute t * 60 + dt_second t + seconds delta
           + us / 1000000 in
  let d := ymd2ord (dt_year t) (dt_month t) (dt_day t) + days delta + s / 86400 in
  let s := s mod 86400 in
  let hour := s / 3600 in
  let rem := s mod 3600 in
  if (0 <? d) && (d <=? MAXORDINAL) then
    let '(y, m, dd) := ord2ymd d in
    Ok {| dt_year := y; dt_month := m; dt_day := dd;
          dt_hour := hour; dt_minute := rem / 60; dt_second := rem mod 60;
          dt_microsecond := us mod 1000000 |}
  else Raise OverflowError.

(** *** [get_datetime] *)

Inductive format := EXCEL_DATE | SPAN | DATETIME | NOT_DATETIME.

Record extracted := {
  ex_datetime : list (list pyval);
  ex_text : string;
  ex_format : format
}.

Fixpoint get_all (ds : list Match) : res (list (list pyval)) :=
  match ds with
  | [] => Ok []
  | d :: ds' =>
      ymdhms ← _get_ymdhms d;
      datetimes ← get_all ds';
      Ok (ymdhms :: datetimes)
  end.

(** The text [get_datetime] searches: the input after [convert_string],
    without the URLs and without white space. *)
Definition normalized (datestr : string) : string :=
  let datestr := convert_string (strip datestr) in
  let text := strip (sub re_url "<URL>" datestr) in
  sub (Plus space) "" text.

Section GetDatetime.
(** Python's [float]: the values, [float(text)], and
    [timedelta(days=num)] for a float [num]. *)
Variable pyfloat : Type.
Variable py_float : string -> res pyfloat.
Variable timedelta_days : pyfloat -> timedelta.

(** [convert_excel_date] *)
Definition convert_excel_date (num : pyfloat) : res datetime :=
  datetime_add
    {| dt_year := 1899; dt_month := 12; dt_day := 30;
       dt_hour := 0; dt_minute := 0; dt_second := 0; dt_microsecond := 0 |}
    (timedelta_days num).

Definition get_datetime (datestr : string) : res extracted :=
  let text := normalized datestr in
  if fullmatch excel_date text then
    num ← py_float text;
    ymdt ← convert_excel_date num;
    Ok {| ex_datetime :=
            [ [ VInt (dt_year ymdt); VInt (dt_month ymdt); VInt (dt_day ymdt);
                VInt (dt_hour ymdt); VInt (dt_minute ymdt);
                VInt (dt_second ymdt) ] ];
          ex_text := text;
          ex_format := EXCEL_DATE |}
  else
    match search re_datespan text with
    | Some m =>
        datetimes ← get_all (finditer re_date text);
        Ok {| ex_datetime := datetimes; ex_text := group0 m; ex_format := SPAN |}
    | None =>
        match search re_date text with
        | Some m =>
            datetimes ← get_all (finditer re_date text);
            Ok {| ex_datetime := datetimes; ex_text := group0 m;
                  ex_format := DATETIME |}
        | None =>
            Ok {| ex_datetime := []; ex_text := text; ex_format := NOT_DATETIME |}
        end
    end.
End GetDatetime.

End date_extractor.

(** ** Notions the statements about the date extractor use *)

Fixpoint concat_strings (ws : list string) : string :=
  match ws with
  | [] => ""
  | w :: ws' => w +:+ concat_strings ws'
  end.

(** The texts a pattern can match, whatever follows them (a
    back-reference stands for any text, a look-ahead for the empty one). *)
Fixpoint lang (r : re.regex) (w : string) : Prop :=
  match r with
  | re.Eps => w = ""
  | re.Lit t => w = t
  | re.Cls p => exists c, w = String c "" /\ p c = true
  | re.OneOf l => In w l
  | re.Seq a b => exists u v, w = u +:+ v /\ lang a u /\ lang b v
  | re.Alt a b => lang a w \/ lang b w
  | re.Opt a => w = "" \/ lang a w
  | re.Star a => exists ws, w = concat_strings ws /\ Forall (lang a) ws
  | re.Group _ a => lang a w
  | re.Backref _ => True
  | re.NotAhead _ => w = ""
  end.

(** The patterns without repetition, back-reference and look-ahead, and
    the finite list of the texts such a pattern can match. *)
Fixpoint star_free (r : re.regex) : bool :=
  match r with
  | re.Eps | re.Lit _ | re.Cls _ | re.OneOf _ => true
  | re.Seq a b | re.Alt a b => star_free a && star_free b
  | re.Opt a | re.Group _ a => star_free a
  | re.Star _ | re.Backref _ | re.NotAhead _ => false
  end.

Definition all_ascii : list ascii := List.map ascii_of_nat (seq 0 256).

Fixpoint enumerate (r : re.regex) : list string :=
  match r with
  | re.Eps => [""]
  | re.Lit t => [t]
  | re.Cls p => List.map (fun c => String c "") (List.filter p all_ascii)
  | re.OneOf l => l
  | re.Seq a b =>
      flat_map (fun u => List.map (fun v => u +:+ v) (enumerate b)) (enumerate a)
  | re.Alt a b => enumerate a ++ enumerate b
  | re.Opt a => "" :: enumerate a
  | re.Group _ a => enumerate a
  | re.Star _ | re.Backref _ | re.NotAhead _ => []
  end.

(** The era-relative year strings of the patterns: [year_era], alone or
    followed by [年] or [年度] as in [year_jp], and [year_era_first]. *)
Definition era_year : re.regex :=
  re.Alt
    (re.Seq date_extractor.year_era
       (re.Opt (re.Seq (re.Lit "年") (re.Opt (re.Lit "度")))))
    date_extractor.year_era_first.

(** The eras of the specification and their base years. *)
Inductive era_name := Reiwa | Heisei | Showa | Taisho | Meiji.

Definition era_base_year (e : era_name) : Z :=
  match e with
  | Reiwa => 2018
  | Heisei => 1988
  | Showa => 1925
  | Taisho => 1911
  | Meiji => 1867
  end.

(** The era a year string starts with, by its character or its Latin
    letter, and the rest of the string. *)
Definition era_of (y : string) : option (era_name * string) :=
  let after (mark : string) := string_drop (String.length mark) y in
  if startswith "令" y then Some (Reiwa, after "令")
  else if startswith "R" y then Some (Reiwa, after "R")
  else if startswith "平" y then Some (Heisei, after "平")
  else if startswith "H" y then Some (Heisei, after "H")
  else if startswith "昭" y then Some (Showa, after "昭")
  else if startswith "S" y then Some (Showa, after "S")
  else if startswith "大" y then Some (Taisho, after "大")
  else if startswith "T" y then Some (Taisho, after "T")
  else if startswith "明" y then Some (Meiji, after "明")
  else if startswith "M" y then Some (Meiji, after "M")
  else None.

(** The digits a string starts with. *)
Fixpoint leading_digits (s : string) : string :=
  match s with
  | String c s' => if is_digit c then String c (leading_digits s') else ""
  | "" => ""
  end.

(** The year within the era: 1 for [元], else the number that follows the
    era (after a blank, if there is one). *)
Definition relative_year (after_era : string) : Z :=
  if startswith "元" after_era then 1
  else
    digits_value
      (leading_digits
         (if startswith " " after_era then string_drop 1 after_era else after_era)).

Definition res_pyval_eqb (a b : res pyval) : bool :=
  match a, b with
  | Ok x, Ok y => py_eq x y
  | _, _ => false
  end.

(** The check of one year string against the specification. *)
Definition era_year_converts (y : string) : bool :=
  match era_of y with
  | Some (e, after) =>
      match date_extractor.convert_year y with
      | Ok (VInt g) => Z.eqb g (era_base_year e + relative_year after)
      | _ => false
      end
  | None => false
  end.

(** Two strings that differ at a place both of them have: neither begins
    the other. *)
Fixpoint differ (a b : string) : bool :=
  match a, b with
  | String x a', String y b' => negb (Ascii.eqb x y) || differ a' b'
  | _, _ => false
  end.

(** The check of an entry of [wide_digits]: it begins with a byte outside
    ASCII, its value is a digit's, and no other entry begins it. *)
Definition wide_digit_ok (e : string * Z) : bool :=
  match fst e with
  | String c _ => (128 <=? nat_of_ascii c)%nat
  | "" => false
  end
  && (0 <=? snd e)%Z && (snd e <=? 9)%Z
  && forallb
       (fun e' =>
          (String.eqb (fst e') (fst e) && Z.eqb (snd e') (snd e))
          || differ (fst e') (fst e))
       wide_digits.

(** One decimal digit, as it is written, and its value. *)
Definition decimal_char (d : string) (v : Z) : Prop :=
  (exists c, d = String c "" /\ is_digit c = true /\ v = digit_value c)
  \/ In (d, v) wide_digits.

(** The values of the decimal digits a string starts with. *)
Fixpoint leading_decimals_from (fuel : nat) (s : string) : list Z :=
  match fuel with
  | O => []
  | S fuel' =>
      match leading_decimal s with
      | Some (d, v) =>
          v :: leading_decimals_from fuel' (string_drop (String.length d) s)
      | None => []
      end
  end.

Definition leading_decimals (s : string) : list Z :=
  leading_decimals_from (String.length s) s.

(** A stand-in for Python's floats, to run [get_datetime]: a float is the
    integer part of the text. *)
Definition integer_part (text : string) : res Z := Ok (number_of (leading_decimals text)).

Definition whole_days (num : Z) : date_extractor.timedelta :=
  {| date_extractor.days := num; date_extractor.seconds := 0;
     date_extractor.microseconds := 0 |}.

(** The check that [ord2ymd] gives a date of the calendar whose ordinal is
    [n]. *)
Definition ordinal_date_ok (n : Z) : bool :=
  let '(y, m, d) := date_extractor.ord2ymd n in
  Z.eqb (date_extractor.ymd2ord y m d) n
  && Z.leb 1 m && Z.leb m 12 && Z.leb 1 d && Z.leb d (date_extractor.days_in_month y m).

Fixpoint ordinal_dates_ok (count : nat) (n : Z) : bool :=
  match count with
  | O => true
  | S count' => ordinal_date_ok n && ordinal_dates_ok count' (n + 1)
  end.


(** The hour a text of [hour_jp] stands for in the source: the number
    written in it, and 12 more when it begins with [午後]. *)
Definition clock_hour (h : string) : Z :=
  if startswith "午後" h
  then 12 + digits_value (leading_digits (string_drop (String.length "午後") h))
  else if startswith "午前" h
  then digits_value (leading_digits (string_drop (String.length "午前") h))
  else digits_value (leading_digits h).

(** The minute a text of [minute_jp] stands for: 30 for [半], else the
    number written in it. *)
Definition clock_minute (m : string) : Z :=
  if String.eqb m "半" then 30 else digits_value (leading_digits m).

Definition gives_int (r : res pyval) (n : Z) : bool :=
  match r with
  | Ok (VInt g) => Z.eqb g n
  | _ => false
  end.

Definition hour_converts (h : string) : bool :=
  gives_int (date_extractor.convert_hour h) (clock_hour h)
  && Z.leb 0 (clock_hour h) && Z.leb (clock_hour h) 31.

Definition minute_converts (m : string) : bool :=
  gives_int (date_extractor.convert_minute m) (clock_minute m)
  && Z.leb 0 (clock_minute m) && Z.leb (clock_minute m) 60.
(** ** More of [convertors.py]: the class that overrides nothing *)

(** [NoopConvertor] *)
Definition NoopConvertor : convertor_class.Class :=
  {| convertor_class.Meta_key := "noop";
     convertor_class.Meta_params := [];
     convertor_class.base := convertor_class.Convertor |}.

(** [Convertor.process] with the methods of [Convertor] itself, as
    [NoopConvertor] runs it; [preproc] has no [return], its value is
    [None]. *)
Definition Convertor_process (c : context.Context) : res context.Context :=
  convertors.Convertor.process
    (fun c => '(self, c) ← convertors.Convertor.preproc c; Ok (VNone, self, c))
    convertors.Convertor.headers
    (fun _ => convertors.Convertor.process_header)
    (fun _ => convertors.Convertor.check_record)
    (fun _ => convertors.Convertor.process_record) c.

(** The rows of another width than [headers], which [process] skips with
    a warning that joins their fields, hold strings only. *)
Definition skipped_rows_are_text (headers : list pyval) (rows : list (list pyval))
    : bool :=
  forallb (fun r => Nat.eqb (length r) (length headers) || forallb is_str r) rows.

(** The rows with as many fields as [headers]. *)
Definition rows_of_width (headers : list pyval) (rows : list (list pyval))
    : list (list pyval) :=
  List.filter (fun r => Nat.eqb (length r) (length headers)) rows.

(** The fields a row gains in an [InputOutputConvertor]: one when no
    column is replaced. *)
Definition gained (self : convertors.InputOutputConvertor.Self) : nat :=
  if is_None (convertors.InputOutputConvertor.del_col self) then 1%nat else 0%nat.

(** No string of the list begins with a digit (of the white space
    characters none does, nor ends with one). *)
Definition no_digit_first (ws : list string) : bool :=
  forallb (fun w => match w with
                    | String a _ => negb (is_digit a)
                    | "" => false
                    end) ws.

(** A context with the header row stored, as [Convertor.preproc] leaves
    it. *)
Definition headers_context : context.Context :=
  context.set_data (context_of NoopConvertor ∅ sample_input) "headers"
    (VList [VStr "a"; VStr "b"; VStr "c"]).

(** The position the subscript [z] denotes in a list of [n] elements. *)
Definition position (n : nat) (z : Z) : nat :=
  Z.to_nat (if bool_decide (z < 0) then z + Z.of_nat n else z).

(** [acopy] with the input column only. *)
Definition in_place_context : context.Context :=
  context_of AttrCopyConvertor {[ "input_col_idx" := VStr "b" ]} sample_input.

Definition in_place_self : convertors.InputOutputConvertor.Self :=
  {| convertors.InputOutputConvertor.headers := [VStr "a"; VStr "b"; VStr "c"];
     convertors.InputOutputConvertor.num_of_columns := 3;
     convertors.InputOutputConvertor.input_col_idx := VInt 1;
     convertors.InputOutputConvertor.output_col_name := VStr "b";
     convertors.InputOutputConvertor.output_col_idx := VInt 1;
     convertors.InputOutputConvertor.overwrite := VBool true;
     convertors.InputOutputConvertor.del_col := VInt 1 |}.

Definition in_place_context_after : context.Context :=
  Eval vm_compute in
    match convertors.InputOutputConvertor.preproc in_place_context with
    | Ok (_, _, c) => c
    | Raise _ => in_place_context
    end.

Definition keep_context_done : context.Context :=
  Eval vm_compute in
    match convertors.InputOutputConvertor.process
            convertors.InputOutputConvertor.process_convertor keep_context with
    | Ok c => c
    | Raise _ => keep_context
    end.


(** An input with a row that is too short, and one where such a row holds
    a number. *)
Definition ragged_input : input.ArrayInputCollection :=
  {| input._array := [ [VStr "a"; VStr "b"]; [VStr "1"]; [VStr "1"; VStr "2"] ];
     input._current := 0 |}.

Definition ragged_number_input : input.ArrayInputCollection :=
  {| input._array := [ [VStr "a"; VStr "b"]; [VStr "1"; VStr "2"]; [VInt 1] ];
     input._current := 0 |}.
(** ** The column convertors of [tablelinker.convertors.basics]

    Several methods of these classes change the list they are given in
    place.  That list is the row the context has read last: an element of
    the array of the input, whose rows are taken to be distinct list
    objects, read from the start of the input. *)

Module basics.
Import convertors.

Definition with_params (c : context.Context) (p : gmap string pyval)
    : context.Context :=
  {| context._convertor := context._convertor c;
     context._input := context._input c;
     context._output := context._output c;
     context._convertor_params := p;
     context._current := context._current c;
     context._data := context._data c |}.

(** The context once the row read last has become [row]. *)
Definition mutated (c : context.Context) (row : list pyval) : context.Context :=
  let i := context._input c in
  context.with_input c
    {| input._array := <[pred (input._current i) := row]> (input._array i);
       input._current := input._current i |}
    (VList row).

(** The same for the header row, which is also the list [preproc] has
    stored under ["headers"]. *)
Definition mutated_headers (c : context.Context) (row : list pyval)
    : context.Context :=
  context.set_data (mutated c row) "headers" (VList row).

(** [l[i] = v] *)
Definition py_setitem {A} (l : list A) (i : pyval) (v : A) : res (list A) :=
  z ← as_index i;
  match py_index l z with
  | Some k => Ok (<[k := v]> l)
  | None => Raise IndexError
  end.

(** [len(v)] and the elements a loop over [v] visits: a string gives
    its characters. *)
Definition py_len (v : pyval) : res Z :=
  match v with
  | VList l => Ok (len l)
  | VStr s => Ok (len (chars s))
  | _ => Raise TypeError
  end.

Definition py_iter (v : pyval) : res (list pyval) :=
  match v with
  | VList l => Ok l
  | VStr s => Ok (VStr <$> chars s)
  | _ => Raise TypeError
  end.

Fixpoint for_each {A B} (f : A -> res B) (l : list A) : res (list B) :=
  match l with
  | [] => Ok []
  | x :: l' => y ← f x; ys ← for_each f l'; Ok (y :: ys)
  end.

(** [preproc] of a class that does not override it; it has no
    [return]. *)
Definition base_preproc (c : context.Context)
    : res (pyval * Convertor.Self * context.Context) :=
  '(self, c) ← Convertor.preproc c; Ok (VNone, self, c).

(** [Convertor.process] for a class whose [process_header] assigns
    attributes of the instance: the hook gives the instance back. *)
Section ProcessUpdating.
Context {Inst : Type}.
Variable preproc_hook : context.Context -> res (pyval * Inst * context.Context).
Variable headers_of : Inst -> list pyval.
Variable process_header_hook :
  Inst -> list pyval -> context.Context -> res (Inst * context.Context).
Variable check_record_hook : Inst -> list pyval -> context.Context -> res bool.
Variable process_record_hook :
  Inst -> list pyval -> context.Context -> res context.Context.

Definition process_updating (c : context.Context) : res context.Context :=
  '(ret, self, c) ← preproc_hook c;
  if is_False ret then Raise RuntimeError
  else
    let c := context.reset c in
    match context.next c with
    | None => Raise StopIteration
    | Some (_, c) =>
        '(self, c) ← process_header_hook self (headers_of self) c;
        Convertor.process_rows check_record_hook process_record_hook self
          (drop (input._current (context._input c))
             (input._array (context._input c))) c
    end.
End ProcessUpdating.

Definition input_col_idx_param : params.Param :=
  {| params.name := "input_col_idx"; params.required := true;
     params.default_value := VNone; params.kind := params.InputAttributeParam |}.

Definition output_col_idx_param : params.Param :=
  {| params.name := "output_col_idx"; params.required := false;
     params.default_value := VNone; params.kind := params.OutputAttributeParam |}.

(** *** [delete_col.py] *)
Module DeleteColConvertor.
Definition cls : convertor_class.Class :=
  {| convertor_class.Meta_key := "delete_col";
     convertor_class.Meta_params := [input_col_idx_param];
     convertor_class.base := convertor_class.Convertor |}.

Record Self := {
  headers : list pyval;
  num_of_columns : Z;
  input_col_idx : pyval
}.

Definition preproc (c : context.Context) : res (pyval * Self * context.Context) :=
  '(base, c) ← Convertor.preproc c;
  input_col_idx ← context.get_param c "input_col_idx";
  Ok (VNone,
      {| headers := Convertor.headers base;
         num_of_columns := Convertor.num_of_columns base;
         input_col_idx := input_col_idx |},
      c).

Definition delete_col (input_col_idx : pyval) (target_list : list pyval)
    : res (list pyval) :=
  z ← as_index input_col_idx;
  py_pop target_list z.

Definition process_header (self : Self) (headers : list pyval)
    (c : context.Context) : res context.Context :=
  headers ← delete_col (input_col_idx self) headers;
  Ok (context.output (mutated_headers c headers) headers).

Definition process_record (self : Self) (record : list pyval)
    (c : context.Context) : res context.Context :=
  record ← delete_col (input_col_idx self) record;
  Ok (context.output (mutated c record) record).

Definition process (c : context.Context) : res context.Context :=
  Convertor.process preproc headers process_header
    (fun _ => Convertor.check_record) process_record c.
End DeleteColConvertor.

Module DeleteColsConvertor.
Definition cls : convertor_class.Class :=
  {| convertor_class.Meta_key := "delete_cols";
     convertor_class.Meta_params :=
       [ {| params.name := "input_col_idxs"; params.required := true;
            params.default_value := VNone;
            params.kind := params.InputAttributeListParam |} ];
     convertor_class.base := convertor_class.Convertor |}.

(** [input_col_idxs] is assigned by [process_header]. *)
Record Self := {
  headers : list pyval;
  num_of_columns : Z;
  input_col_idxs : list Z
}.

Definition preproc (c : context.Context) : res (pyval * Self * context.Context) :=
  '(base, c) ← Convertor.preproc c;
  Ok (VNone,
      {| headers := Convertor.headers base;
         num_of_columns := Convertor.num_of_columns base;
         input_col_idxs := [] |},
      c).

(** [sorted(v, reverse=True)] for a list of integers. *)
Definition sorted_reverse (v : pyval) : res (list Z) :=
  match v with
  | VList l => zs ← for_each as_index l; Ok (merge_sort (flip Z.le) zs)
  | _ => Raise TypeError
  end.

Fixpoint delete_cols (positions : list Z) (target_list : list pyval)
    : res (list pyval) :=
  match positions with
  | [] => Ok target_list
  | pos :: positions' =>
      target_list ← py_pop target_list pos;
      delete_cols positions' target_list
  end.

(** [get_param] goes through [get_column_numbers], which puts the
    numbers into the list of the parameter itself. *)
Definition process_header (self : Self) (headers : list pyval)
    (c : context.Context) : res (Self * context.Context) :=
  v ← context.get_param c "input_col_idxs";
  let c := with_params c (<["input_col_idxs" := v]> (context._convertor_params c)) in
  idxs ← sorted_reverse v;
  headers ← delete_cols idxs headers;
  Ok ({| headers := DeleteColsConvertor.headers self;
         num_of_columns := num_of_columns self;
         input_col_idxs := idxs |},
      context.output (mutated_headers c headers) headers).

Definition process_record (self : Self) (record : list pyval)
    (c : context.Context) : res context.Context :=
  record ← delete_cols (input_col_idxs self) record;
  Ok (context.output (mutated c record) record).

Definition process (c : context.Context) : res context.Context :=
  process_updating preproc headers process_header
    (fun _ => Convertor.check_record) process_record c.
End DeleteColsConvertor.

(** *** [move_col.py] *)
Module MoveColConvertor.
Definition cls : convertor_class.Class :=
  {| convertor_class.Meta_key := "move_col";
     convertor_class.Meta_params := [input_col_idx_param; output_col_idx_param];
     convertor_class.base := convertor_class.Convertor |}.

(** The two column numbers have been compared by [preproc]: they are
    integers. *)
Record Self := {
  headers : list pyval;
  num_of_columns : Z;
  input_col_idx : Z;
  output_col_idx : Z
}.

Definition preproc (c : context.Context) : res (pyval * Self * context.Context) :=
  '(base, c) ← Convertor.preproc c;
  input_col_idx ← context.get_param c "input_col_idx";
  output_col_idx ← context.get_param c "output_col_idx";
  let output_col_idx :=
    if truthy output_col_idx then output_col_idx
    else VInt (len (Convertor.headers base)) in
  o ← as_index output_col_idx;
  i ← as_index input_col_idx;
  Ok (VNone,
      {| headers := Convertor.headers base;
         num_of_columns := Convertor.num_of_columns base;
         input_col_idx := i;
         output_col_idx := if bool_decide (o > i) then o - 1 else o |},
      c).

Definition move_list (input_col_idx output_col_idx : Z) (target_list : list pyval)
    : res (list pyval) :=
  col ← py_getitem target_list input_col_idx;
  target_list ← py_pop target_list input_col_idx;
  Ok (py_insert target_list output_col_idx col).

Definition process_header (self : Self) (headers : list pyval)
    (c : context.Context) : res context.Context :=
  headers ← move_list (input_col_idx self) (output_col_idx self) headers;
  Ok (context.output (mutated_headers c headers) headers).

Definition process_record (self : Self) (record : list pyval)
    (c : context.Context) : res context.Context :=
  record ← move_list (input_col_idx self) (output_col_idx self) record;
  Ok (context.output (mutated c record) record).

Definition process (c : context.Context) : res context.Context :=
  Convertor.process preproc headers process_header
    (fun _ => Convertor.check_record) process_record c.
End MoveColConvertor.

(** *** [rename_col.py] *)
Module RenameColConvertor.
Definition cls : convertor_class.Class :=
  {| convertor_class.Meta_key := "rename_col";
     convertor_class.Meta_params :=
       [ input_col_idx_param;
         {| params.name := "output_col_name"; params.required := true;
            params.default_value := VNone; params.kind := params.PlainParam |} ];
     convertor_class.base := convertor_class.Convertor |}.

Definition process_header (self : Convertor.Self) (headers : list pyval)
    (c : context.Context) : res context.Context :=
  input_col_idx ← context.get_param c "input_col_idx";
  new_name ← context.get_param c "output_col_name";
  headers ← py_setitem headers input_col_idx new_name;
  Ok (context.output (mutated_headers c headers) headers).

Definition process (c : context.Context) : res context.Context :=
  Convertor.process base_preproc Convertor.headers process_header
    (fun _ => Convertor.check_record) (fun _ => Convertor.process_record) c.
End RenameColConvertor.

Module RenameColsConvertor.
Definition cls : convertor_class.Class :=
  {| convertor_class.Meta_key := "rename_cols";
     convertor_class.Meta_params :=
       [ {| params.name := "column_list"; params.required := true;
            params.default_value := VNone; params.kind := params.PlainParam |} ];
     convertor_class.base := convertor_class.Convertor |}.

(** The row that is written is the value of the parameter: the
    elements of a list (of a string, a CSV writer writes the
    characters). *)
Definition process_header (self : Convertor.Self) (headers : list pyval)
    (c : context.Context) : res context.Context :=
  output_headers ← context.get_param c "column_list";
  n ← py_len output_headers;
  if negb (Z.eqb (len headers) n) then Raise ValueError
  else
    row ← py_iter output_headers;
    Ok (context.output c row).

Definition process (c : context.Context) : res context.Context :=
  Convertor.process base_preproc Convertor.headers process_header
    (fun _ => Convertor.check_record) (fun _ => Convertor.process_record) c.
End RenameColsConvertor.

(** *** [reorder_col.py] *)
Module ReorderColsConvertor.
Definition cls : convertor_class.Class :=
  {| convertor_class.Meta_key := "reorder_cols";
     convertor_class.Meta_params :=
       [ {| params.name := "column_list"; params.required := true;
            params.default_value := VNone; params.kind := params.PlainParam |} ];
     convertor_class.base := convertor_class.Convertor |}.

Record Self := {
  headers : list pyval;
  num_of_columns : Z;
  mapping : list pyval
}.

(** The test of the first loop: a name that is no header, a number
    that is no index (a [bool] is an [int]). *)
Definition missed (headers : list pyval) (idx : pyval) : bool :=
  match idx with
  | VStr _ => negb (py_in idx headers)
  | VInt z => bool_decide (z < 0) || bool_decide (z >= len headers)
  | VBool b => bool_decide (Z.b2z b >= len headers)
  | _ => false
  end.

Definition preproc (c : context.Context) : res (pyval * Self * context.Context) :=
  '(base, c) ← Convertor.preproc c;
  let headers := Convertor.headers base in
  output_headers ← context.get_param c "column_list";
  output_headers ← py_iter output_headers;
  let missed_headers := List.filter (missed headers) output_headers in
  if bool_decide (len missed_headers > 0) then Raise ValueError
  else
    mapping ← for_each
                (fun idx =>
                   match idx with
                   | VStr _ => i ← py_list_index headers idx; Ok (VInt i)
                   | _ => Ok idx
                   end)
                output_headers;
    Ok (VNone,
        {| headers := headers;
           num_of_columns := Convertor.num_of_columns base;
           mapping := mapping |},
        c).

Definition reorder (self : Self) (fields : list pyval) : res (list pyval) :=
  for_each (fun idx => py_subscript fields idx) (mapping self).

Definition process_header (self : Self) (headers : list pyval)
    (c : context.Context) : res context.Context :=
  row ← reorder self headers; Ok (context.output c row).

Definition process_record (self : Self) (record : list pyval)
    (c : context.Context) : res context.Context :=
  row ← reorder self record; Ok (context.output c row).

Definition process (c : context.Context) : res context.Context :=
  Convertor.process preproc headers process_header
    (fun _ => Convertor.check_record) process_record c.
End ReorderColsConvertor.

(** *** [insert_col.py] *)
Module InsertColConvertor.
Definition cls : convertor_class.Class :=
  {| convertor_class.Meta_key := "insert_col";
     convertor_class.Meta_params :=
       [ {| params.name := "output_col_name"; params.required := true;
            params.default_value := VNone; params.kind := params.PlainParam |};
         output_col_idx_param;
         {| params.name := "value"; params.required := false;
            params.default_value := VStr ""; params.kind := params.PlainParam |} ];
     convertor_class.base := convertor_class.Convertor |}.

Record Self := {
  headers : list pyval;
  num_of_columns : Z;
  output_col_name : pyval;
  output_col_idx : pyval;
  value : pyval
}.

Definition preproc (c : context.Context) : res (pyval * Self * context.Context) :=
  '(base, c) ← Convertor.preproc c;
  output_col_name ← context.get_param c "output_col_name";
  output_col_idx ← context.get_param c "output_col_idx";
  value ← context.get_param c "value";
  Ok (VNone,
      {| headers := Convertor.headers base;
         num_of_columns := Convertor.num_of_columns base;
         output_col_name := output_col_name;
         output_col_idx :=
           if is_None output_col_idx then VInt (len (Convertor.headers base))
           else output_col_idx;
         value := value |},
      c).

Definition process_header (self : Self) (headers : list pyval)
    (c : context.Context) : res context.Context :=
  i ← as_index (output_col_idx self);
  let headers := py_insert headers i (output_col_name self) in
  Ok (context.output (mutated_headers c headers) headers).

Definition process_record (self : Self) (record : list pyval)
    (c : context.Context) : res context.Context :=
  i ← as_index (output_col_idx self);
  let record := py_insert record i (value self) in
  Ok (context.output (mutated c record) record).

Definition process (c : context.Context) : res context.Context :=
  Convertor.process preproc headers process_header
    (fun _ => Convertor.check_record) process_record c.
End InsertColConvertor.

(** *** [select_row.py] *)
Module StringMatchSelectRowConvertor.
Definition cls : convertor_class.Class :=
  {| convertor_class.Meta_key := "select_row_match";
     convertor_class.Meta_params :=
       [ input_col_idx_param;
         {| params.name := "query"; params.required := true;
            params.default_value := VNone; params.kind := params.PlainParam |} ];
     convertor_class.base := convertor_class.Convertor |}.

Definition process_record (self : Convertor.Self) (record : list pyval)
    (c : context.Context) : res context.Context :=
  idx ← context.get_param c "input_col_idx";
  query ← context.get_param c "query";
  value ← py_subscript record idx;
  if py_eq query value then Ok (context.output c record) else Ok c.

Definition process (c : context.Context) : res context.Context :=
  Convertor.process base_preproc Convertor.headers
    (fun _ => Convertor.process_header)
    (fun _ => Convertor.check_record) process_record c.
End StringMatchSelectRowConvertor.

(** [item in container] *)
Definition py_contains (container item : pyval) : res bool :=
  match container with
  | VStr hay =>
      match item with
      | VStr needle => Ok (str_contains needle hay)
      | _ => Raise TypeError
      end
  | VList l => Ok (py_in item l)
  | _ => Raise TypeError
  end.

Module StringContainSelectRowConvertor.
Definition cls : convertor_class.Class :=
  {| convertor_class.Meta_key := "select_row_contains";
     convertor_class.Meta_params :=
       [ input_col_idx_param;
         {| params.name := "query"; params.required := true;
            params.default_value := VNone; params.kind := params.PlainParam |} ];
     convertor_class.base := convertor_class.Convertor |}.

Definition process_record (self : Convertor.Self) (record : list pyval)
    (c : context.Context) : res context.Context :=
  idx ← context.get_param c "input_col_idx";
  query ← context.get_param c "query";
  value ← py_subscript record idx;
  found ← py_contains value query;
  if (found : bool) then Ok (context.output c record) else Ok c.

Definition process (c : context.Context) : res context.Context :=
  Convertor.process base_preproc Convertor.headers
    (fun _ => Convertor.process_header)
    (fun _ => Convertor.check_record) process_record c.
End StringContainSelectRowConvertor.

(** *** [insert_col.py]: [InsertColsConvertor] *)
Module InsertColsConvertor.
Definition cls : convertor_class.Class :=
  {| convertor_class.Meta_key := "insert_cols";
     convertor_class.Meta_params :=
       [ output_col_idx_param;
         {| params.name := "output_col_names"; params.required := true;
            params.default_value := VNone; params.kind := params.PlainParam |};
         {| params.name := "values"; params.required := false;
            params.default_value := VStr ""; params.kind := params.PlainParam |} ];
     convertor_class.base := convertor_class.Convertor |}.

Record Self := {
  headers : list pyval;
  num_of_columns : Z;
  output_col_idx : pyval;
  new_names : pyval;
  new_values : pyval
}.

Definition preproc (c : context.Context) : res (pyval * Self * context.Context) :=
  '(base, c) ← Convertor.preproc c;
  output_col_idx ← context.get_param c "output_col_idx";
  new_names ← context.get_param c "output_col_names";
  new_values ← context.get_param c "values";
  new_values ←
    match new_values with
    | VStr _ =>
        n ← py_len new_names;
        Ok (VList (replicate (Z.to_nat n) new_values))
    | _ =>
        a ← py_len new_values;
        b ← py_len new_names;
        if negb (Z.eqb a b) then Raise ValueError else Ok new_values
    end;
  Ok (VNone,
      {| headers := Convertor.headers base;
         num_of_columns := Convertor.num_of_columns base;
         output_col_idx := output_col_idx;
         new_names := new_names;
         new_values := new_values |},
      c).

(** [l[0:i]] and [l[i:]]; a bound that is [None] leaves the slice
    open. *)
Definition slice_to (l : list pyval) (i : pyval) : res (list pyval) :=
  match i with
  | VNone => Ok l
  | _ => z ← as_index i; Ok (py_slice_to l z)
  end.

Definition slice_from (l : list pyval) (i : pyval) : res (list pyval) :=
  match i with
  | VNone => Ok l
  | _ => z ← as_index i; Ok (py_slice_from l z)
  end.

(** [target_list[0:i] + value_list + target_list[i:]]: a new list. *)
Definition insert_list (output_col_idx value_list : pyval)
    (target_list : list pyval) : res (list pyval) :=
  before ← slice_to target_list output_col_idx;
  match value_list with
  | VList l =>
      after ← slice_from target_list output_col_idx;
      Ok (before ++ l ++ after)
  | _ => Raise TypeError
  end.

Definition process_header (self : Self) (headers : list pyval)
    (c : context.Context) : res (Self * context.Context) :=
  let self :=
    if is_None (output_col_idx self)
    then {| headers := InsertColsConvertor.headers self;
            num_of_columns := num_of_columns self;
            output_col_idx := VInt (len headers);
            new_names := new_names self;
            new_values := new_values self |}
    else self in
  headers ← insert_list (output_col_idx self) (new_names self) headers;
  Ok (self, context.output c headers).

Definition process_record (self : Self) (record : list pyval)
    (c : context.Context) : res context.Context :=
  record ← insert_list (output_col_idx self) (new_values self) record;
  Ok (context.output c record).

Definition process (c : context.Context) : res context.Context :=
  process_updating preproc headers process_header
    (fun _ => Convertor.check_record) process_record c.
End InsertColsConvertor.

End basics.


(** A parameter value that gives the column [idx] of the header row
    [headers]: its name, or its number. *)
Definition denotes_column (headers : list pyval) (v : pyval) (idx : Z) : Prop :=
  (exists s, v = VStr s /\ py_list_index headers (VStr s) = Ok idx)
  \/ (v = VInt idx /\ 0 <= idx < Z.of_nat (length headers)).

(** What an optional column parameter reads as: [None] when it is not
    supplied, the number of the column it gives otherwise. *)
Definition reads_column (headers : list pyval) (supplied : option pyval)
    (read : pyval) : Prop :=
  match supplied with
  | None => read = VNone
  | Some v => exists idx, denotes_column headers v idx /\ read = VInt idx
  end.








Definition rename_all_context : context.Context :=
  context_of basics.RenameColsConvertor.cls
    {[ "column_list" := VList [VStr "x"; VStr "y"; VStr "z"] ]}
    sample_input.

(** The column a name gives, and the fields of a row at the columns of
    a list of names. *)
Definition column_of (headers : list pyval) (s : string) : nat :=
  match py_list_index headers (VStr s) with
  | Ok i => Z.to_nat i
  | Raise _ => 0%nat
  end.

Definition picked (headers : list pyval) (names : list string) (r : list pyval)
    : list pyval :=
  omap (fun s => r !! column_of headers s) names.


(** The value of a parameter that is not required. *)
Definition supplied_or (supplied : option pyval) (default_value : pyval) : pyval :=
  match supplied with
  | Some v => if is_None v then default_value else v
  | None => default_value
  end.

(** Whether the field [i] of a row is equal to [q]. *)
Definition selects (q : pyval) (i : nat) (r : list pyval) : bool :=
  match r !! i with
  | Some x => py_eq q x
  | None => false
  end.

Definition reorder_context : context.Context :=
  context_of basics.ReorderColsConvertor.cls
    {[ "column_list" := VList (VStr <$> ["c"; "a"]) ]} sample_input.


Definition select_context : context.Context :=
  context_of basics.StringMatchSelectRowConvertor.cls
    {[ "input_col_idx" := VStr "a"; "query" := VStr "4" ]} sample_input.




(** Whether the field [i] of a row is a string that contains [query]. *)
Definition contains_query (query : string) (i : nat) (r : list pyval) : bool :=
  match r !! i with
  | Some (VStr s) => str_contains query s
  | _ => false
  end.

Definition holds_text (i : nat) (r : list pyval) : Prop :=
  exists s, r !! i = Some (VStr s).

Definition select_contains_context : context.Context :=
  context_of basics.StringContainSelectRowConvertor.cls
    {[ "input_col_idx" := VStr "a"; "query" := VStr "4" ]} sample_input.

(** The row [r] with the fields [xs] put at position [p]. *)
Definition with_fields (p : nat) (xs : list pyval) (r : list pyval) : list pyval :=
  take p r ++ xs ++ drop p r.

(** The fields [insert_cols] gives the new columns in a row: the value
    of [values] for each when it is a string (the empty string when there
    is none), the elements of [values] when it is a list as long as the
    list of the names. *)
Definition new_fields (names : list pyval) (supplied : option pyval)
    : option (list pyval) :=
  match supplied_or supplied (VStr "") with
  | VStr v => Some (replicate (length names) (VStr v))
  | VList vs => if Nat.eqb (length vs) (length names) then Some vs else None
  | _ => None
  end.

Definition insert_cols_context : context.Context :=
  context_of basics.InsertColsConvertor.cls
    {[ "output_col_names" := VList [VStr "x"; VStr "y"];
       "output_col_idx" := VStr "b"; "values" := VStr "-" ]} sample_input.
(** ** More notions for [Table.convert] *)

(** The files once [convert] has given up before the run: the temporary
    file it has created by then, if it has, is there and empty. *)
Definition files_before_run (w : table.World) (output : table.output_var)
    : gmap string (list (list pyval)) :=
  if table.output_is_None output
  then <[output_path w output := []]> (table.files w)
  else table.files w.

(** [conv().process(context)] of a class whose run can raise only before
    it has written a row (while the header row is read and handled): the
    context that is left has the rows written so far. *)
Definition run_of (run : context.Context -> res context.Context)
    (c : context.Context) : context.Context * res unit :=
  match run c with
  | Ok c' => (c', Ok tt)
  | Raise e => (c, Raise e)
  end.

Definition noop_convertor : table.Convertor :=
  {| table.cls := NoopConvertor; table.process := run_of Convertor_process |}.

Definition delete_col_convertor : table.Convertor :=
  {| table.cls := basics.DeleteColConvertor.cls;
     table.process := run_of basics.DeleteColConvertor.process |}.

(** A table that is read as it is. *)
Definition cleaned_table : table.Table :=
  {| table.file := "in.csv"; table.is_tempfile := false;
     table.skip_cleaning := true |}.

(** A file whose second row is too short, and a registry. *)
Definition noop_world : table.World :=
  {| table.files :=
       {[ "in.csv" := [ [VStr "a"; VStr "b"]; [VStr "1"]; [VStr "1"; VStr "2"] ] ]};
     table.CONVERTOR_DICT :=
       {[ "noop" := noop_convertor; "delete_col" := delete_col_convertor ]};
     table.extras := {[ "unusable" := table.unusable ]} |}.

(** ** Tasks ([task.py]) *)

(** A value read from a JSON file. *)
Inductive json :=
  | JNull
  | JBool (b : bool)
  | JNum (q : Q)
  | JStr (s : string)
  | JList (l : list json)
  | JDict (d : gmap string json).

Module task.


(** [convertor_find_by(name)] where the name is any value: a list or an
    object cannot be looked up in a dictionary, and no other value than
    a string is a key of the registry. *)
Definition convertor_find_by (w : table.World) (name : json)
    : table.World * res (option table.Convertor) :=
  match name with
  | JStr s => let '(conv, w) := table.convertor_find_by w s in (w, Ok conv)
  | JList _ | JDict _ => (w, Raise TypeError)
  | _ => (table.register_extras w, Ok None)
  end.


End task.



(** * Properties *)

(** ** The result monad and the list primitives *)

Section PyListFacts.
Context {A : Type}.
Implicit Types (l : list A) (i : Z) (v : A).

Lemma py_index_Some l i k :
  py_index l i = Some k ->
  (k < length l)%nat /\
  k = Z.to_nat (if bool_decide (i < 0) then i + Z.of_nat (length l) else i).
Proof.
  unfold py_index. repeat case_bool_decide; intros [= <-]; lia.
Qed.

Lemma py_index_valid l i :
  - Z.of_nat (length l) <= i < Z.of_nat (length l) ->
  py_index l i =
    Some (Z.to_nat (if bool_decide (i < 0) then i + Z.of_nat (length l) else i)).
Proof.
  intros Hi. unfold py_index. repeat case_bool_decide; try lia; reflexivity.
Qed.

Lemma py_clamp_le l i : (py_clamp l i <= length l)%nat.
Proof. unfold py_clamp. case_bool_decide; lia. Qed.

Lemma py_insert_length l i v : length (py_insert l i v) = S (length l).
Proof.
  unfold py_insert. pose proof (py_clamp_le l i).
  rewrite length_app, length_take. simpl. rewrite length_drop. lia.
Qed.

Lemma py_insert_lookup l i v : py_insert l i v !! py_clamp l i = Some v.
Proof.
  unfold py_insert. pose proof (py_clamp_le l i).
  rewrite lookup_app_r; rewrite length_take; [|lia].
  replace (py_clamp l i - py_clamp l i `min` length l)%nat with 0%nat by lia.
  reflexivity.
Qed.
End PyListFacts.

(** ** [InputOutputConvertor.reorder] *)

Section ReorderFacts.
Import convertors.InputOutputConvertor.
Context {A : Type}.
Implicit Types (S : list A) (d : option Z) (i : Z) (v : A)
  (h : gmap loc (list A)) (r : loc).

Lemma fresh_loc_unused h : h !! fresh (dom h) = None.
Proof. apply not_elem_of_dom, is_fresh. Qed.

(** The store version is the value version run on a fresh copy. *)
Lemma reorder_heap_reorder h r S d i v :
  h !! r = Some S ->
  reorder_heap h r d i v =
    (l ← reorder S d i v; Ok (fresh (dom h), <[fresh (dom h) := l]> h)).
Proof.
  intros Hr. unfold reorder_heap, reorder, h_copy. rewrite Hr. simpl.
  destruct d as [d|]; simpl.
  - unfold h_pop. rewrite lookup_insert_eq. simpl.
    destruct (py_pop S d) as [l|e]; simpl; [|reflexivity].
    case_bool_decide; unfold h_append, h_insert;
      rewrite lookup_insert_eq; simpl; rewrite !insert_insert_eq; reflexivity.
  - case_bool_decide; unfold h_append, h_insert;
      rewrite lookup_insert_eq; simpl; rewrite insert_insert_eq; reflexivity.
Qed.

Lemma insert_at_point (R : list A) i v :
  (if bool_decide (i < 0) then py_append R v else py_insert R i v) =
  take (insertion_point R i) R ++ [v] ++ drop (insertion_point R i) R.
Proof.
  unfold insertion_point, py_append, py_insert, py_clamp.
  case_bool_decide as Hi.
  - rewrite take_ge, drop_ge by lia. reflexivity.
  - replace (Z.to_nat (Z.min i (Z.of_nat (length R))))
      with (Nat.min (Z.to_nat i) (length R)) by lia.
    reflexivity.
Qed.

Lemma reorder_is_spec S d i v :
  valid_delete S d -> reorder S d i v = Ok (reorder_spec S d i v).
Proof.
  intros Hd. unfold reorder, reorder_spec, removed, adjusted.
  destruct d as [d|]; simpl in *.
  - unfold py_pop. unfold convertors.len in *. rewrite (py_index_valid _ _ Hd). simpl.
    f_equal. apply insert_at_point.
  - f_equal. apply insert_at_point.
Qed.

Lemma insertion_point_le (R : list A) i : (insertion_point R i <= length R)%nat.
Proof. unfold insertion_point. case_bool_decide; lia. Qed.

Lemma removed_length S d :
  valid_delete S d ->
  Z.of_nat (length (removed S d)) =
    Z.of_nat (length S) - (match d with Some _ => 1 | None => 0 end).
Proof.
  destruct d as [d|]; unfold valid_delete, removed, convertors.len;
    intros Hd; [|lia].
  rewrite length_delete; [lia|].
  apply lookup_lt_is_Some. case_bool_decide; lia.
Qed.

Lemma reorder_spec_length S d i v :
  valid_delete S d ->
  Z.of_nat (length (reorder_spec S d i v)) =
    Z.of_nat (length S) - (match d with Some _ => 1 | None => 0 end) + 1.
Proof.
  intros Hd. unfold reorder_spec.
  pose proof (insertion_point_le (removed S d) (adjusted d i)).
  rewrite !length_app, length_take, length_drop. simpl.
  rewrite <- (removed_length S d Hd). lia.
Qed.

Lemma reorder_spec_lookup S d i v :
  reorder_spec S d i v !! insertion_point (removed S d) (adjusted d i) = Some v.
Proof.
  unfold reorder_spec.
  pose proof (insertion_point_le (removed S d) (adjusted d i)).
  rewrite lookup_app_r; rewrite length_take; [|lia].
  match goal with |- _ !! ?k = _ => replace k with 0%nat by lia end.
  reflexivity.
Qed.

(** C1. For a list [S] held at [r], a delete index that is [None] or a
    valid subscript of [S], an insert index [i] and a value [v],
    [reorder] succeeds and returns a list at a new location, the
    caller's list and every other list of the store are left as they were,
    the result is [S] with the element at [d] removed and [v] inserted at
    the adjusted position (at the end when that position is negative or
    past the end), its length is [len(S) - (1 if d is not None else 0) + 1],
    and reading it at the insertion point gives [v]. *)
Theorem reorder_new_list_correct h r S d i v :
  h !! r = Some S ->
  valid_delete S d ->
  exists r' h',
    reorder_heap h r d i v = Ok (r', h') /\
    r' <> r /\ h !! r' = None /\
    h' !! r = Some S /\
    (forall q, q <> r' -> h' !! q = h !! q) /\
    h' !! r' = Some (reorder_spec S d i v) /\
    reorder S d i v = Ok (reorder_spec S d i v) /\
    Z.of_nat (length (reorder_spec S d i v)) =
      Z.of_nat (length S) - (match d with Some _ => 1 | None => 0 end) + 1 /\
    reorder_spec S d i v !! insertion_point (removed S d) (adjusted d i) = Some v.
Proof.
  intros Hr Hd.
  exists (fresh (dom h)), (<[fresh (dom h) := reorder_spec S d i v]> h).
  pose proof (fresh_loc_unused h) as Hfresh.
  assert (fresh (dom h) <> r) as Hne by (intros E; rewrite E in Hfresh; congruence).
  rewrite (reorder_heap_reorder _ _ _ _ _ _ Hr), (reorder_is_spec _ _ _ _ Hd).
  repeat split; auto.
  - rewrite lookup_insert_ne; auto.
  - intros q Hq. rewrite lookup_insert_ne; auto.
  - apply lookup_insert_eq.
  - apply reorder_spec_length, Hd.
  - apply reorder_spec_lookup.
Qed.

End ReorderFacts.

(** A run of C1: deleting column 0 and inserting at position 2. *)
Lemma reorder_new_list_correct_witness :
  exists r' h',
    convertors.InputOutputConvertor.reorder_heap {[ 1%positive := ["a"; "b"; "c"] ]} 1%positive (Some 0) 2 "x"
      = Ok (r', h') /\
    r' <> 1%positive /\
    ({[ 1%positive := ["a"; "b"; "c"] ]} : gmap loc (list string)) !! r' = None /\
    h' !! 1%positive = Some ["a"; "b"; "c"] /\
    (forall q, q <> r' -> h' !! q =
       ({[ 1%positive := ["a"; "b"; "c"] ]} : gmap loc (list string)) !! q) /\
    h' !! r' = Some (convertors.InputOutputConvertor.reorder_spec ["a"; "b"; "c"] (Some 0) 2 "x") /\
    convertors.InputOutputConvertor.reorder ["a"; "b"; "c"] (Some 0) 2 "x"
      = Ok (convertors.InputOutputConvertor.reorder_spec ["a"; "b"; "c"] (Some 0) 2 "x") /\
    Z.of_nat (length (convertors.InputOutputConvertor.reorder_spec ["a"; "b"; "c"] (Some 0) 2 "x")) =
      Z.of_nat (length ["a"; "b"; "c"]) - 1 + 1 /\
    convertors.InputOutputConvertor.reorder_spec ["a"; "b"; "c"] (Some 0) 2 "x"
      !! convertors.InputOutputConvertor.insertion_point (convertors.InputOutputConvertor.removed ["a"; "b"; "c"] (Some 0)) (convertors.InputOutputConvertor.adjusted (Some 0) 2)
      = Some "x".
Proof.
  apply (reorder_new_list_correct {[ 1%positive := ["a"; "b"; "c"] ]} 1%positive
           ["a"; "b"; "c"] (Some 0) 2 "x").
  - reflexivity.
  - simpl. unfold convertors.len. simpl. lia.
Defined.

(** ** Parameter sets and the context *)

Section ParamSetFacts.
Implicit Types (ps : params.ParamSet) (l : list params.Param).

Lemma ParamSet_wf_empty : ParamSet_wf params.empty.
Proof.
  split; simpl.
  - intros p [].
  - intros n p H. rewrite lookup_empty in H. discriminate.
Qed.

Lemma ParamSet_wf_append ps p ps' :
  ParamSet_wf ps -> params.append ps p = Ok ps' -> ParamSet_wf ps'.
Proof.
  intros [Hl Hd]. unfold params.append.
  destruct (params._dist ps !! params.name p) eqn:E; [discriminate|].
  intros [= <-]. split; simpl.
  - intros q Hq. apply in_app_or in Hq as [Hq|[<-|[]]].
    + destruct (decide (params.name p = params.name q)) as [Heq|Hne].
      * rewrite Heq, (Hl q Hq) in E. discriminate.
      * rewrite lookup_insert_ne; auto.
    + apply lookup_insert_eq.
  - intros n q. destruct (decide (params.name p = n)) as [<-|Hne].
    + rewrite lookup_insert_eq. intros [= <-]. split; auto.
      apply in_or_app. right. left. reflexivity.
    + rewrite lookup_insert_ne; auto. intros H. destruct (Hd _ _ H).
      split; auto. apply in_or_app. left. assumption.
Qed.

Lemma ParamSet_wf_add l : forall ps ps',
  ParamSet_wf ps -> params.add ps l = Ok ps' -> ParamSet_wf ps'.
Proof.
  induction l as [|p l IH]; simpl; intros ps ps' Hwf.
  - intros [= <-]. assumption.
  - destruct (params.append ps p) as [ps1|e] eqn:E; simpl; [|discriminate].
    apply IH. eapply ParamSet_wf_append; eauto.
Qed.

Lemma ParamSet_wf_new l ps : params.new l = Ok ps -> ParamSet_wf ps.
Proof. apply ParamSet_wf_add, ParamSet_wf_empty. Qed.

Lemma meta_wf cls m :
  convertor_class.meta cls = Ok m -> ParamSet_wf (convertor_class.params m).
Proof.
  unfold convertor_class.meta.
  destruct (params.new _) as [ps|e] eqn:E; simpl; [|discriminate].
  intros [= <-]. simpl. eapply ParamSet_wf_new; eauto.
Qed.

Lemma contains_In ps n :
  params.contains ps n = true <->
  exists p, In p (params._list ps) /\ params.name p = n.
Proof.
  unfold params.contains.
  destruct (List.filter _ _) as [|q r] eqn:E.
  - split; [discriminate|]. intros (p & Hp & Hn).
    assert (In p (List.filter (fun param => String.eqb (params.name param) n)
                    (params._list ps))) as Hin.
    { apply filter_In. split; auto. apply String.eqb_eq; auto. }
    rewrite E in Hin. destruct Hin.
  - split; [|reflexivity]. intros _.
    assert (In q (List.filter (fun param => String.eqb (params.name param) n)
                    (params._list ps))) as Hin by (rewrite E; left; reflexivity).
    apply filter_In in Hin as [Hin Hq]. apply String.eqb_eq in Hq. eauto.
Qed.

(** On a well-formed set, [in], the subscript and [keys] agree. *)
Lemma contains_getitem ps n :
  ParamSet_wf ps ->
  params.contains ps n = true <-> is_Some (params.getitem ps n).
Proof.
  intros [Hl Hd]. rewrite contains_In. unfold params.getitem. split.
  - intros (p & Hp & <-). rewrite (Hl p Hp). eauto.
  - intros [p Hp]. destruct (Hd _ _ Hp). eauto.
Qed.

Lemma keys_getitem ps n :
  ParamSet_wf ps -> In n (params.keys ps) -> is_Some (params.getitem ps n).
Proof.
  intros [Hl Hd] Hin. unfold params.keys in Hin.
  apply in_map_iff in Hin as (p & <- & Hp).
  unfold params.getitem, params.key. rewrite (Hl p Hp). eauto.
Qed.

Lemma getitem_keys ps n p :
  ParamSet_wf ps -> params.getitem ps n = Some p ->
  In n (params.keys ps) /\ params.name p = n.
Proof.
  intros [Hl Hd] H. destruct (Hd _ _ H) as [Hn Hin]. split; auto.
  unfold params.keys. apply in_map_iff. exists p. split; auto.
Qed.
End ParamSetFacts.

Section ContextFacts.
Implicit Types (cls : convertor_class.Class) (cp : gmap string pyval)
  (i : input.ArrayInputCollection) (o : list (list pyval)).

Lemma check_required_missing ps key cp names n :
  (forall k, In k names -> is_Some (params.getitem ps k)) ->
  In n names -> missing_required ps cp n ->
  exists log, context.check_required ps key cp names = (log, Raise ValueError).
Proof.
  induction names as [|k names IH]; simpl; intros Hall Hin Hmiss; [destruct Hin|].
  destruct (Hall k (or_introl eq_refl)) as [q Hq]. rewrite Hq.
  destruct (params.required q && negb (bool_decide (is_Some (cp !! k)))) eqn:E;
    [eauto|].
  destruct Hin as [->|Hin].
  - destruct Hmiss as (p & Hp & Hreq & Hnone). rewrite Hq in Hp. injection Hp as ->.
    rewrite Hreq, Hnone in E. discriminate E.
  - apply IH; auto.
Qed.

Lemma check_required_present ps key cp names :
  (forall k, In k names -> is_Some (params.getitem ps k)) ->
  (forall k, In k names -> ~ missing_required ps cp k) ->
  context.check_required ps key cp names = ([], Ok tt).
Proof.
  induction names as [|k names IH]; simpl; intros Hall Hpres; [reflexivity|].
  destruct (Hall k (or_introl eq_refl)) as [q Hq]. rewrite Hq.
  destruct (params.required q && negb (bool_decide (is_Some (cp !! k)))) eqn:E.
  - exfalso. apply (Hpres k (or_introl eq_refl)). exists q.
    apply andb_true_iff in E as [Hreq Hn]. repeat split; auto.
    apply negb_true_iff, bool_decide_eq_false in Hn.
    destruct (cp !! k); auto. exfalso. apply Hn. eauto.
  - apply IH; auto.
Qed.

Lemma init_input cls cp i o :
  fst (fst (context.init cls cp i o)) = i.
Proof.
  unfold context.init. destruct (convertor_class.meta cls); [|reflexivity].
  destruct (context.check_required _ _ _ _). reflexivity.
Qed.

Lemma init_Ok_inv cls cp i o i' log c :
  context.init cls cp i o = (i', log, Ok c) ->
  context._convertor c = cls /\ context._convertor_params c = cp /\
  exists m, convertor_class.meta cls = Ok m /\
    forall n, In n (params.keys (convertor_class.params m)) ->
      ~ missing_required (convertor_class.params m) cp n.
Proof.
  unfold context.init. destruct (convertor_class.meta cls) as [m|e] eqn:Em; [|discriminate].
  destruct (context.check_required _ _ _ _) as [errors checked] eqn:Ec.
  destruct checked as [[]|e]; simpl; [|discriminate].
  intros [= _ _ <-]. simpl. repeat split; auto. exists m. split; auto.
  intros n Hin Hmiss.
  destruct (check_required_missing _ (convertor_class.key m) cp _ n
              (fun k Hk => keys_getitem _ _ (meta_wf _ _ Em) Hk) Hin Hmiss) as [log' Hl].
  rewrite Hl in Ec. discriminate.
Qed.
End ContextFacts.

Section ParameterContract.
Implicit Types (cls : convertor_class.Class) (cp : gmap string pyval)
  (i : input.ArrayInputCollection) (o : list (list pyval)).

Lemma init_missing_required cls m cp i o n :
  convertor_class.meta cls = Ok m ->
  missing_required (convertor_class.params m) cp n ->
  exists log, context.init cls cp i o = (i, log, Raise ValueError).
Proof.
  intros Hm Hmiss. unfold context.init. rewrite Hm.
  pose proof (meta_wf _ _ Hm) as Hwf.
  destruct Hmiss as (p & Hp & Hreq & Hnone).
  destruct (check_required_missing (convertor_class.params m)
              (convertor_class.key m) cp
              (params.keys (convertor_class.params m)) n) as [log Hlog].
  - intros k Hk. apply keys_getitem; auto.
  - apply (getitem_keys _ _ _ Hwf Hp).
  - exists p. auto.
  - rewrite Hlog. simpl. eauto.
Qed.

Lemma init_no_missing cls m cp i o :
  convertor_class.meta cls = Ok m ->
  (forall n, ~ missing_required (convertor_class.params m) cp n) ->
  exists c log,
    context.init cls cp i o = (i, log, Ok c) /\
    (forall r, In r log -> fst r = context.WARNING) /\
    (forall k, is_Some (cp !! k) ->
       params.contains (convertor_class.params m) k = false ->
       In (context.WARNING,
           context.unknown_param_message (convertor_class.key m) k) log).
Proof.
  intros Hm Hpres. unfold context.init. rewrite Hm.
  pose proof (meta_wf _ _ Hm) as Hwf.
  rewrite check_required_present.
  - simpl. eexists _, _. split; [reflexivity|]. rewrite app_nil_r. split.
    + intros r Hr. apply in_map_iff in Hr as (k & <- & _). reflexivity.
    + intros k [v Hk] Hnot. apply in_map_iff. exists k. split; auto.
      apply filter_In. split; [|rewrite Hnot; reflexivity].
      apply in_map_iff. exists (k, v). split; auto.
      apply list_elem_of_In, elem_of_map_to_list. assumption.
  - intros k Hk. apply keys_getitem; auto.
  - intros k _. apply Hpres.
Qed.

Lemma get_param_undeclared (c : context.Context) m n :
  convertor_class.meta (context._convertor c) = Ok m ->
  params.contains (convertor_class.params m) n = false ->
  context.get_param c n = Raise ValueError.
Proof.
  intros Hm Hn. unfold context.get_param. rewrite Hm. simpl. rewrite Hn. reflexivity.
Qed.

Lemma get_param_absent_default cls m cp i o i' log c n p :
  convertor_class.meta cls = Ok m ->
  context.init cls cp i o = (i', log, Ok c) ->
  params.getitem (convertor_class.params m) n = Some p ->
  params.kind p <> params.CollectionParam ->
  cp !! n = None ->
  context.get_param c n = Ok (params.default_value p).
Proof.
  intros Hm Hinit Hp Hkind Hnone.
  destruct (init_Ok_inv _ _ _ _ _ _ _ Hinit) as (Hcls & Hcp & m' & Hm' & Hpres).
  rewrite Hm in Hm'. injection Hm' as <-.
  pose proof (meta_wf _ _ Hm) as Hwf.
  unfold context.get_param. rewrite Hcls, Hm. simpl.
  assert (params.contains (convertor_class.params m) n = true) as ->
    by (apply contains_getitem; eauto).
  simpl. rewrite Hp, Hcp, Hnone.
  destruct (params.required p) eqn:Hreq.
  - exfalso. apply (Hpres n); [apply (getitem_keys _ _ _ Hwf Hp)|].
    exists p. auto.
  - simpl. unfold context.get_value.
    destruct (params.kind p); try reflexivity. congruence.
Qed.

(** C5, as the code has it.  For a convertor class with metadata [m]:
    constructing a context whose parameter map lacks a declared required
    parameter raises [ValueError] and leaves the input collection as it
    was; when no required parameter is missing the construction
    succeeds, every log record it writes is a warning, and there is one
    for each supplied key that is not declared; [get_param] raises for
    every name that is not declared, whatever the parameter map holds;
    and for a declared name that is absent from the map of a constructed
    context, [get_param] returns the default value of the declaration,
    unless the declaration is a [CollectionParam]. *)
Theorem context_parameter_contract cls m cp i o :
  convertor_class.meta cls = Ok m ->
  (forall n, missing_required (convertor_class.params m) cp n ->
     exists log, context.init cls cp i o = (i, log, Raise ValueError)) /\
  ((forall n, ~ missing_required (convertor_class.params m) cp n) ->
     exists c log,
       context.init cls cp i o = (i, log, Ok c) /\
       (forall r, In r log -> fst r = context.WARNING) /\
       (forall k, is_Some (cp !! k) ->
          params.contains (convertor_class.params m) k = false ->
          In (context.WARNING,
              context.unknown_param_message (convertor_class.key m) k) log)) /\
  (forall (c : context.Context) n,
     context._convertor c = cls ->
     params.contains (convertor_class.params m) n = false ->
     context.get_param c n = Raise ValueError) /\
  (forall i' log c n p,
     context.init cls cp i o = (i', log, Ok c) ->
     params.getitem (convertor_class.params m) n = Some p ->
     params.kind p <> params.CollectionParam ->
     cp !! n = None ->
     context.get_param c n = Ok (params.default_value p)).
Proof.
  intros Hm. repeat split.
  - intros n. apply init_missing_required; assumption.
  - apply init_no_missing; assumption.
  - intros c n Hc. apply get_param_undeclared. rewrite Hc. assumption.
  - intros i' log c n p. apply (get_param_absent_default cls m cp i o); assumption.
Qed.
End ParameterContract.

(** The contract of C5 on [AttrCopyConvertor], with a parameter map that
    gives the required input column and a key that is not declared. *)
Lemma context_parameter_contract_witness :
  convertor_class.meta AttrCopyConvertor = Ok AttrCopyConvertor_meta /\
  (forall (c : context.Context) n,
     context._convertor c = AttrCopyConvertor ->
     params.contains (convertor_class.params AttrCopyConvertor_meta) n = false ->
     context.get_param c n = Raise ValueError).
Proof.
  split; [vm_compute; reflexivity|].
  apply (context_parameter_contract AttrCopyConvertor AttrCopyConvertor_meta
           {[ "input_col_idx" := VInt 0; "colour" := VStr "red" ]} sample_input []).
  vm_compute; reflexivity.
Defined.

(** The last part of C5 as it is stated fails for a declaration that is a
    [CollectionParam]: the context is constructed, the name is declared and
    absent from the map, and [get_param] raises instead of returning the
    default value. *)
Lemma get_param_collection_counterexample :
  exists c m,
    context.init CollectionConvertor ∅ sample_input [] = (sample_input, [], Ok c) /\
    convertor_class.meta CollectionConvertor = Ok m /\
    params.getitem (convertor_class.params m) "source" = Some source_param /\
    (∅ : gmap string pyval) !! "source" = None /\
    context.get_param c "source" = Raise AttributeError /\
    context.get_param c "source" <> Ok (params.default_value source_param).
Proof.
  eexists _, _. repeat split; try reflexivity. discriminate.
Qed.

(** ** [InputOutputConvertor]: [preproc] and [process_record] *)

Section PyValFacts.
Lemma py_eq_refl : forall x, py_eq x x = true.
Proof.
  fix IH 1. intros [|b|z|s|l]; simpl.
  - reflexivity.
  - destruct b; reflexivity.
  - apply Z.eqb_refl.
  - apply String.eqb_refl.
  - induction l as [|a l IHl]; [reflexivity|].
    rewrite IH, IHl. reflexivity.
Qed.

Lemma py_list_index_in l x idx :
  py_list_index l x = Ok idx -> py_in x l = true.
Proof.
  revert idx. induction l as [|y l IH]; simpl; intros idx; [discriminate|].
  destruct (py_eq y x); [reflexivity|]. simpl.
  destruct (py_list_index l x) as [k|e]; simpl; [|discriminate].
  intros _. eapply IH. reflexivity.
Qed.

Lemma py_list_index_raises l x e :
  py_list_index l x = Raise e -> e = ValueError /\ py_in x l = false.
Proof.
  induction l as [|y l IH]; simpl.
  - intros [= <-]. auto.
  - destruct (py_eq y x); [discriminate|]. simpl.
    destruct (py_list_index l x) as [k|e']; simpl; [discriminate|].
    intros [= <-]. apply IH. reflexivity.
Qed.

Lemma py_getitem_in (l : list pyval) i x :
  py_getitem l i = Ok x -> py_in x l = true.
Proof.
  unfold py_getitem. destruct (py_index l i) as [k|]; [|discriminate].
  destruct (l !! k) as [y|] eqn:E; [|discriminate]. intros [= ->].
  unfold py_in. apply existsb_exists. exists x. split.
  - apply list_elem_of_In, list_elem_of_lookup. eauto.
  - apply py_eq_refl.
Qed.

Lemma py_subscript_in (l : list pyval) i x :
  py_subscript l i = Ok x -> py_in x l = true /\ exists z, as_int i = Some z.
Proof.
  unfold py_subscript. destruct (as_int i) as [z|]; [|discriminate].
  intros H. split; [eapply py_getitem_in; eauto|eauto].
Qed.
End PyValFacts.

(** One step through a chain of binds in a hypothesis. *)
Ltac bind_step H :=
  match type of H with
  | context [mbind _ ?m] =>
      let E := fresh "E" in
      destruct m eqn:E; simpl in H; [|discriminate H]
  | context [match ?m with Ok _ => _ | Raise _ => _ end] =>
      let E := fresh "E" in
      destruct m eqn:E; simpl in H; [|discriminate H]
  end.

Section SingleOutput.
Import convertors.InputOutputConvertor.
Implicit Types (c : context.Context) (self : Self) (rows : list pyval).

(** What [preproc] leaves in the attributes. *)
Lemma preproc_attributes c ret self c' :
  preproc c = Ok (ret, self, c') ->
  (py_in (output_col_name self) (headers self) = true /\
   exists d, as_int (del_col self) = Some d) \/
  (py_in (output_col_name self) (headers self) = false /\
   del_col self = VNone /\ overwrite self = VBool true).
Proof.
  unfold preproc. intros H.
  destruct (convertors.Convertor.preproc c) as [[base c0]|e]; simpl in H;
    [|discriminate].
  destruct (context.get_param c0 "input_col_idx") as [ici|]; simpl in H; [|discriminate].
  destruct (context.get_param c0 "output_col_name") as [ocn|]; simpl in H; [|discriminate].
  destruct (context.get_param c0 "output_col_idx") as [oci|]; simpl in H; [|discriminate].
  destruct (context.get_param c0 "overwrite") as [ow|]; simpl in H; [|discriminate].
  destruct (is_None ocn).
  - destruct (py_subscript (convertors.Convertor.headers base) ici) as [name|] eqn:E;
      simpl in H; [|discriminate].
    injection H as _ <- _. simpl. left.
    apply py_subscript_in in E as [Hin [z Hz]]. eauto.
  - destruct (py_list_index (convertors.Convertor.headers base) ocn) as [idx|e] eqn:E;
      simpl in H.
    + injection H as _ <- _. simpl. left. split; [|eauto].
      eapply py_list_index_in; eauto.
    + apply py_list_index_raises in E as [-> Hnot]. simpl in H.
      injection H as _ <- _. simpl. right. auto.
Qed.

Lemma need_value_keep self rows d x :
  truthy (overwrite self) = false ->
  as_int (del_col self) = Some d ->
  py_getitem rows d = Ok x ->
  need_value self rows = Ok (is_empty_str x).
Proof.
  intros How Hd Hx. unfold need_value, convertors.as_index. rewrite How, Hd. simpl.
  case_bool_decide as Hge.
  - exfalso. unfold py_getitem in Hx.
    destruct (py_index rows d) as [k|] eqn:Ek; [|discriminate].
    unfold py_index, convertors.len in *. repeat case_bool_decide; try discriminate; lia.
  - rewrite Hx. reflexivity.
Qed.

(** C3, as the code has it.  After [preproc], when the output column name
    does not occur among the headers, no column is recorded for deletion
    and the overwrite flag is forced to [True]; and for a row, when the
    flag is false and the destination column holds a value that is not
    the empty string, the row is output with that value at the output
    position, whatever [process_convertor] would compute. *)
Theorem single_output_overwrite c ret self c' :
  preproc c = Ok (ret, self, c') ->
  (py_in (output_col_name self) (headers self) = false ->
     del_col self = VNone /\ overwrite self = VBool true) /\
  (forall process_convertor rows c2 d x,
     truthy (overwrite self) = false ->
     as_int (del_col self) = Some d ->
     py_getitem rows d = Ok x ->
     is_empty_str x = false ->
     process_record process_convertor self rows c2 =
       (rows' ← reorder_attrs self rows x; Ok (context.output c2 rows'))).
Proof.
  intros Hpre. split.
  - intros Hnew. destruct (preproc_attributes _ _ _ _ Hpre) as [[Hin _]|[_ H]]; auto.
    rewrite Hin in Hnew. discriminate.
  - intros pc rows c2 d x How Hd Hx Hne. unfold process_record.
    rewrite (need_value_keep _ _ _ _ How Hd Hx), Hne. simpl.
    unfold py_subscript. rewrite Hd, Hx. reflexivity.
Qed.

(** C10.  When [preproc] returns, [del_col] is [None] only if the
    overwrite flag is [True]; so with a flag that is false [del_col] is an
    integer, and the test of the destination column in [process_record]
    does not fail on [None]. *)
Theorem preproc_del_col_invariant c ret self c' :
  preproc c = Ok (ret, self, c') ->
  (del_col self = VNone -> overwrite self = VBool true) /\
  (truthy (overwrite self) = false ->
     del_col self <> VNone /\
     exists d, convertors.as_index (del_col self) = Ok d /\
       forall rows,
         need_value self rows =
           (if bool_decide (d >= convertors.len rows) then Ok true
            else x ← py_getitem rows d; Ok (is_empty_str x)) /\
         need_value self rows <> Raise TypeError).
Proof.
  intros Hpre.
  destruct (preproc_attributes _ _ _ _ Hpre) as [[_ [d Hd]]|(_ & Hdel & How)].
  - split.
    + intros Hnone. rewrite Hnone in Hd. discriminate.
    + intros Hflag. split; [intros Hnone; rewrite Hnone in Hd; discriminate|].
      exists d. unfold convertors.as_index. rewrite Hd. split; [reflexivity|].
      intros rows. unfold need_value, convertors.as_index. rewrite Hflag, Hd. simpl.
      split; [reflexivity|].
      case_bool_decide; [discriminate|].
      unfold py_getitem. destruct (py_index rows d) as [k|]; [|discriminate].
      destruct (rows !! k); simpl; discriminate.
  - split; [auto|]. rewrite How. discriminate.
Qed.
End SingleOutput.

(** C3 on [acopy] from [a] into the existing column [b] with the flag
    false: the row whose [b] holds ["5"] keeps it. *)
Lemma single_output_overwrite_witness :
  exists c',
    convertors.InputOutputConvertor.preproc keep_context
      = Ok (VBool true, keep_self, c') /\
    forall process_convertor c2,
      convertors.InputOutputConvertor.process_record process_convertor keep_self
        [VStr "4"; VStr "5"; VStr "6"] c2
      = Ok (context.output c2 [VStr "4"; VStr "6"; VStr "5"]).
Proof.
  eexists. split; [vm_compute; reflexivity|].
  intros pc c2.
  refine (proj2 (single_output_overwrite keep_context (VBool true) keep_self _ _)
            pc [VStr "4"; VStr "5"; VStr "6"] c2 1 (VStr "5") _ _ _ _);
    vm_compute; reflexivity.
Defined.

(** C3 as it is stated fails: for the new column name [z], requested with
    the overwrite flag false, [preproc] leaves the flag [True], so the
    overwrite semantics are on, not off. *)
Lemma single_output_overwrite_counterexample :
  exists c',
    context._convertor_params new_column_context !! "overwrite" = Some (VBool false) /\
    convertors.InputOutputConvertor.preproc new_column_context
      = Ok (VBool true, new_column_self, c') /\
    py_in (convertors.InputOutputConvertor.output_col_name new_column_self)
      (convertors.InputOutputConvertor.headers new_column_self) = false /\
    truthy (convertors.InputOutputConvertor.overwrite new_column_self) = true /\
    truthy (convertors.InputOutputConvertor.overwrite new_column_self) <> false.
Proof.
  eexists. split; [reflexivity|]. split; [vm_compute; reflexivity|].
  split; [reflexivity|]. split; [reflexivity|discriminate].
Qed.

(** C10 on the two runs of [acopy]: with the flag false [del_col] is the
    integer 1, and for the new column [del_col] is [None] with the flag
    [True]. *)
Lemma preproc_del_col_invariant_witness :
  exists c',
    convertors.InputOutputConvertor.preproc new_column_context
      = Ok (VBool true, new_column_self, c') /\
    (convertors.InputOutputConvertor.del_col new_column_self = VNone ->
     convertors.InputOutputConvertor.overwrite new_column_self = VBool true).
Proof.
  eexists. split; [vm_compute; reflexivity|].
  refine (proj1 (preproc_del_col_invariant new_column_context (VBool true)
                   new_column_self _ _)).
  vm_compute; reflexivity.
Defined.

(** ** [InputOutputsConvertor]: [process_record] *)

Section MultiOutputRecord.
Import convertors.InputOutputsConvertor.
Variable process_convertor : Self -> list pyval -> context.Context -> res pyval.
Implicit Types (self : Self) (rows : list pyval) (c : context.Context).

Lemma py_item_not_None v i x : py_item v i = Ok x -> is_None v = false.
Proof. destruct v; simpl; intros; try discriminate; reflexivity. Qed.

(** The number of invocations in the loop: one more when no vector has
    been computed yet and some slot from here on is empty. *)
Lemma fill_values_calls self rows c old_values :
  forall i values calls acc,
    fst (fill_values process_convertor self rows c i old_values values calls acc) =
      if is_None values && existsb is_empty_str old_values
      then S calls else calls.
Proof.
  induction old_values as [|old_value old_values IH]; intros i values calls acc;
    simpl.
  - rewrite andb_false_r. reflexivity.
  - destruct (is_empty_str old_value); simpl.
    + rewrite andb_true_r. destruct (is_None values) eqn:En.
      * destruct (process_convertor self rows c) as [v|e]; [|reflexivity].
        destruct (py_item v i) as [x|e] eqn:Ex; [|reflexivity].
        rewrite IH, (py_item_not_None _ _ _ Ex). reflexivity.
      * destruct (py_item values i) as [x|e] eqn:Ex; [|reflexivity].
        rewrite IH, En. reflexivity.
    + apply IH.
Qed.

(** The values of the loop once the vector [vs] is at hand. *)
Lemma fill_values_computed self rows c old_values vs :
  forall k calls acc,
    (k + length old_values <= length vs)%nat ->
    snd (fill_values process_convertor self rows c (Z.of_nat k) old_values
           (VList vs) calls acc) =
      Ok (acc ++ merged_values old_values (drop k vs)).
Proof.
  induction old_values as [|old_value old_values IH]; intros k calls acc Hlen;
    simpl in *.
  - rewrite app_nil_r. reflexivity.
  - destruct (lookup_lt_is_Some_2 vs k ltac:(lia)) as [x Hx].
    rewrite (drop_S _ _ _ Hx). simpl. unfold merged_values in *. simpl.
    replace (Z.of_nat k + 1) with (Z.of_nat (S k)) by lia.
    destruct (is_empty_str old_value); simpl.
    + unfold py_getitem, py_index.
      rewrite bool_decide_eq_true_2 by (apply lookup_lt_Some in Hx; lia).
      rewrite Nat2Z.id, Hx. rewrite IH by lia.
      rewrite <- app_assoc. reflexivity.
    + rewrite IH by lia. rewrite <- app_assoc. reflexivity.
Qed.

Lemma fill_values_first self rows c old_values vs :
  process_convertor self rows c = Ok (VList vs) ->
  (length old_values <= length vs)%nat ->
  snd (fill_values process_convertor self rows c 0 old_values VNone O []) =
    Ok (merged_values old_values vs).
Proof.
  intros Hpc. revert vs Hpc.
  assert (forall old_values k acc vs,
    process_convertor self rows c = Ok (VList vs) ->
    (k + length old_values <= length vs)%nat ->
    snd (fill_values process_convertor self rows c (Z.of_nat k) old_values
           VNone O acc) = Ok (acc ++ merged_values old_values (drop k vs))) as H.
  { clear old_values. induction old_values as [|old_value old_values IH];
      intros k acc vs Hpc Hlen; simpl in *.
    - rewrite app_nil_r. reflexivity.
    - destruct (lookup_lt_is_Some_2 vs k ltac:(lia)) as [x Hx].
      rewrite (drop_S _ _ _ Hx). unfold merged_values in *. simpl.
      replace (Z.of_nat k + 1) with (Z.of_nat (S k)) by lia.
      destruct (is_empty_str old_value); simpl.
      + rewrite Hpc. simpl. unfold py_getitem, py_index.
        rewrite bool_decide_eq_true_2 by (apply lookup_lt_Some in Hx; lia).
        rewrite Nat2Z.id, Hx.
        pose proof (fill_values_computed self rows c old_values vs (S k) 1%nat
                      (acc ++ [x]) ltac:(lia)) as Hc.
        unfold merged_values in Hc. rewrite Hc, <- app_assoc. reflexivity.
      + rewrite (IH (S k) _ vs Hpc) by lia. rewrite <- app_assoc. reflexivity. }
  intros vs Hpc Hlen. apply (H old_values 0%nat [] vs Hpc). simpl. lia.
Qed.

Lemma fill_values_none_empty self rows c old_values :
  forall i values calls acc,
    existsb is_empty_str old_values = false ->
    snd (fill_values process_convertor self rows c i old_values values calls acc) =
      Ok (acc ++ old_values).
Proof.
  induction old_values as [|old_value old_values IH]; intros i values calls acc;
    simpl.
  - rewrite app_nil_r. reflexivity.
  - intros H. apply orb_false_iff in H as [-> H]. rewrite IH by assumption.
    rewrite <- app_assoc. reflexivity.
Qed.

(** C4.  For a row processed with the overwrite parameter false, where
    [old_values] are the values of the destination slots: when some slot
    holds the empty string [process_convertor] is invoked exactly once,
    and the vector it returns gives the values of the empty slots while
    every other slot keeps its old value; when no slot is empty it is
    not invoked and all old values are kept.  The row that is output is
    the reorder of the row with these values. *)
Theorem multi_output_recompute self rows c flag old_values :
  old_values_of rows (old_col_indexes self) = Ok old_values ->
  context.get_param c "overwrite" = Ok flag ->
  truthy flag = false ->
  (existsb is_empty_str old_values = true ->
     fst (process_record process_convertor self rows c) = 1%nat /\
     forall vs,
       process_convertor self rows c = Ok (VList vs) ->
       (length old_values <= length vs)%nat ->
       snd (new_values_of process_convertor self rows c)
         = Ok (merged_values old_values vs) /\
       (forall j old_value v,
          old_values !! j = Some old_value -> vs !! j = Some v ->
          merged_values old_values vs !! j
            = Some (if is_empty_str old_value then v else old_value)) /\
       snd (process_record process_convertor self rows c) =
         (new_rows ← reorder rows (del_col_indexes self) (output_col_idx self)
                       (merged_values old_values vs);
          Ok (context.output c new_rows))) /\
  (existsb is_empty_str old_values = false ->
     fst (process_record process_convertor self rows c) = O /\
     snd (new_values_of process_convertor self rows c) = Ok old_values /\
     snd (process_record process_convertor self rows c) =
       (new_rows ← reorder rows (del_col_indexes self) (output_col_idx self)
                     old_values;
        Ok (context.output c new_rows))).
Proof.
  intros Hold Hflag Hfalse.
  assert (new_values_of process_convertor self rows c =
          fill_values process_convertor self rows c 0 old_values VNone O []) as Hnv.
  { unfold new_values_of. rewrite Hold, Hflag, Hfalse. reflexivity. }
  assert (forall r : nat * res (list pyval),
            new_values_of process_convertor self rows c = r ->
            process_record process_convertor self rows c =
              (fst r,
               new_values ← snd r;
               new_rows ← reorder rows (del_col_indexes self) (output_col_idx self)
                             new_values;
               Ok (context.output c new_rows))) as Hpr.
  { intros [calls nv] Hr. unfold process_record. rewrite Hr. reflexivity. }
  split; intros Hempty.
  - split.
    + rewrite (Hpr _ eq_refl). simpl. rewrite Hnv, fill_values_calls, Hempty.
      reflexivity.
    + intros vs Hpc Hlen.
      assert (snd (new_values_of process_convertor self rows c)
              = Ok (merged_values old_values vs)) as Hs
        by (rewrite Hnv; apply fill_values_first; assumption).
      split; [exact Hs|]. split.
      * intros j old_value v Ho Hv. unfold merged_values.
        rewrite lookup_zip_with, Ho. simpl. rewrite Hv. reflexivity.
      * rewrite (Hpr _ eq_refl). simpl. rewrite Hs. reflexivity.
  - assert (snd (new_values_of process_convertor self rows c) = Ok old_values) as Hs
      by (rewrite Hnv, fill_values_none_empty by assumption; reflexivity).
    split; [|split].
    + rewrite (Hpr _ eq_refl). simpl. rewrite Hnv, fill_values_calls, Hempty.
      reflexivity.
    + exact Hs.
    + rewrite (Hpr _ eq_refl). simpl. rewrite Hs. reflexivity.
Qed.
End MultiOutputRecord.

(** C4 on a convertor with the output columns [b] and [n]: the row holds
    ["5"] in [b], the new column [n] counts as empty, and one invocation
    gives the value of [n] only. *)
Lemma multi_output_recompute_witness :
  convertors.InputOutputsConvertor.preproc two_outputs_context
    = Ok (VBool true, two_outputs_self, two_outputs_context_after) /\
  fst (convertors.InputOutputsConvertor.process_record two_values two_outputs_self
         [VStr "4"; VStr "5"; VStr "6"] two_outputs_context_after) = 1%nat /\
  snd (convertors.InputOutputsConvertor.new_values_of two_values two_outputs_self
         [VStr "4"; VStr "5"; VStr "6"] two_outputs_context_after)
    = Ok [VStr "5"; VStr "y"].
Proof.
  split; [vm_compute; reflexivity|].
  destruct (multi_output_recompute two_values two_outputs_self
              [VStr "4"; VStr "5"; VStr "6"] two_outputs_context_after
              (VBool false) [VStr "5"; VStr ""]) as [H _];
    [reflexivity | vm_compute; reflexivity | reflexivity |].
  destruct (H eq_refl) as [Hcalls Hvalues].
  split; [exact Hcalls|].
  apply (Hvalues [VStr "x"; VStr "y"] eq_refl). simpl. lia.
Defined.

(** ** [InputOutputsConvertor]: the adjusted delete indexes *)

Section AdjustFacts.
Import convertors.InputOutputsConvertor.
Implicit Types (l r : list (option Z)) (d e x out : Z).

Lemma adjust_later_fmap d l : adjust_later d l = (fun o : option Z => shift d <$> o) <$> l.
Proof.
  unfold adjust_later. induction l as [|[y|] l IH]; simpl; [reflexivity| |];
    rewrite IH; unfold shift; [case_bool_decide|]; reflexivity.
Qed.

Lemma adjust_later_cons_Some d e l :
  adjust_later d (Some e :: l) = Some (shift d e) :: adjust_later d l.
Proof. unfold adjust_later, shift. simpl. case_bool_decide; reflexivity. Qed.

Lemma adjust_later_cons_None d l :
  adjust_later d (None :: l) = None :: adjust_later d l.
Proof. reflexivity. Qed.

Lemma adjust_later_length d l : length (adjust_later d l) = length l.
Proof. unfold adjust_later. apply length_map. Qed.

Lemma adjust_later_lookup_Some d l i e :
  l !! i = Some (Some e) -> adjust_later d l !! i = Some (Some (shift d e)).
Proof. intros H. rewrite adjust_later_fmap, list_lookup_fmap, H. reflexivity. Qed.

Lemma adjust_later_lookup_None d l i :
  l !! i = Some None -> adjust_later d l !! i = Some None.
Proof. intros H. rewrite adjust_later_fmap, list_lookup_fmap, H. reflexivity. Qed.

Lemma adjust_later_take d l i : take i (adjust_later d l) = adjust_later d (take i l).
Proof. rewrite !adjust_later_fmap, fmap_take. reflexivity. Qed.

Lemma elem_of_adjust_later d l p :
  Some p ∈ adjust_later d l <-> exists e, Some e ∈ l /\ shift d e = p.
Proof.
  rewrite adjust_later_fmap, list_elem_of_fmap. split.
  - intros ([e|] & Heq & Hin); simpl in Heq; [|discriminate].
    injection Heq as ->. eauto.
  - intros (e & Hin & <-). exists (Some e). auto.
Qed.

(** Shifting keeps the order of indexes other than the deleted one. *)
Lemma shift_lt d e x : e <> d -> (shift d e < shift d x <-> e < x).
Proof. unfold shift. repeat case_bool_decide; lia. Qed.

Lemma shift_inj d e e' : e <> d -> e' <> d -> shift d e = shift d e' -> e = e'.
Proof. unfold shift. repeat case_bool_decide; lia. Qed.

Lemma count_smaller_cons_Some e l x :
  count_smaller (Some e :: l) x = (if bool_decide (e < x) then 1 else 0) + count_smaller l x.
Proof. unfold count_smaller. simpl. case_bool_decide; simpl; lia. Qed.

Lemma count_smaller_cons_None l x : count_smaller (None :: l) x = count_smaller l x.
Proof. reflexivity. Qed.

Lemma count_smaller_shift d l x :
  Some d ∉ l -> count_smaller (adjust_later d l) (shift d x) = count_smaller l x.
Proof.
  induction l as [|[e|] l IH]; intros Hd; [reflexivity| |].
  - rewrite adjust_later_cons_Some, !count_smaller_cons_Some.
    rewrite IH by (intros H; apply Hd; right; exact H).
    assert (e <> d) as He by (intros ->; apply Hd; left).
    pose proof (shift_lt d e x He). unfold shift in *.
    repeat case_bool_decide; lia.
  - rewrite adjust_later_cons_None, !count_smaller_cons_None.
    apply IH. intros H; apply Hd; right; exact H.
Qed.

Lemma count_smaller_Permutation l l' x :
  l ≡ₚ l' -> count_smaller l x = count_smaller l' x.
Proof.
  induction 1 as [|o l l' _ IH|o1 o2 l|l1 l2 l3 _ IH1 _ IH2].
  - reflexivity.
  - destruct o as [e|]; rewrite ?count_smaller_cons_Some, ?count_smaller_cons_None;
      rewrite IH; reflexivity.
  - destruct o1, o2;
      repeat (rewrite count_smaller_cons_Some || rewrite count_smaller_cons_None);
    repeat case_bool_decide; lia.
  - congruence.
Qed.

Lemma elem_of_indexes l e : e ∈ indexes l <-> Some e ∈ l.
Proof.
  unfold indexes. rewrite list_elem_of_omap. split.
  - intros (o & Hin & Ho). simpl in Ho. subst o. exact Hin.
  - intros H. exists (Some e). auto.
Qed.

Lemma indexes_cons_Some e l : indexes (Some e :: l) = e :: indexes l.
Proof. reflexivity. Qed.

Lemma indexes_cons_None l : indexes (None :: l) = indexes l.
Proof. reflexivity. Qed.

Lemma indexes_adjust_later d l : indexes (adjust_later d l) = shift d <$> indexes l.
Proof.
  induction l as [|[e|] l IH]; [reflexivity| |].
  - rewrite adjust_later_cons_Some, !indexes_cons_Some, IH. reflexivity.
  - rewrite adjust_later_cons_None, !indexes_cons_None. exact IH.
Qed.

Lemma NoDup_indexes_adjust_later d l :
  NoDup (indexes (Some d :: l)) -> NoDup (indexes (adjust_later d l)).
Proof.
  rewrite indexes_cons_Some. intros Hnd.
  apply NoDup_cons in Hnd as [Hd Hnd].
  rewrite indexes_adjust_later. apply NoDup_fmap_2_strong; [|exact Hnd].
  intros e e' He He' Heq. apply (shift_inj d); auto; intros ->; auto.
Qed.

(** The loop of [preproc] is the recursion on the list. *)
Lemma adjust_loop_rec steps : forall i l out,
  (length l <= i + steps)%nat ->
  adjust_loop steps i l out =
    (take i l ++ fst (adjust_rec steps (drop i l) out),
     snd (adjust_rec steps (drop i l) out)).
Proof.
  induction steps as [|steps IH]; intros i l out Hlen; simpl.
  - rewrite take_drop. reflexivity.
  - destruct (l !! i) as [[d|]|] eqn:Ei.
    + rewrite (drop_S _ _ _ Ei).
      destruct (adjust_rec steps (adjust_later d (drop (S i) l)) (shift d out))
        as [later' out'] eqn:Er.
      assert (length (take (S i) l) = S i) as Htake
        by (apply lookup_lt_Some in Ei; rewrite length_take; lia).
      rewrite IH by (rewrite length_app, adjust_later_length, length_take, length_drop; lia).
      rewrite take_app_length' by (symmetry; exact Htake).
      rewrite drop_app_length' by (symmetry; exact Htake).
      fold (shift d out). rewrite Er. simpl.
      rewrite (take_S_r _ _ _ Ei), <- app_assoc. reflexivity.
    + rewrite (drop_S _ _ _ Ei).
      destruct (adjust_rec steps (drop (S i) l) out) as [later' out'] eqn:Er.
      rewrite IH by lia. rewrite Er. simpl.
      rewrite (take_S_r _ _ _ Ei), <- app_assoc. reflexivity.
    + apply lookup_ge_None in Ei.
      rewrite IH by lia.
      rewrite !drop_ge by lia. rewrite !take_ge by lia.
      destruct steps; reflexivity.
Qed.

Lemma adjust_loop_all l out :
  adjust_loop (length l) 0 l out = adjust_rec (length l) l out.
Proof.
  rewrite adjust_loop_rec by lia. rewrite drop_0. simpl.
  destruct (adjust_rec (length l) l out). reflexivity.
Qed.

(** The insertion position: the requested one less the number of
    deleted columns before it. *)
Lemma adjust_rec_output steps : forall l out,
  (length l <= steps)%nat -> NoDup (indexes l) ->
  snd (adjust_rec steps l out) = out - count_smaller l out.
Proof.
  induction steps as [|steps IH]; intros l out Hlen Hnd.
  - destruct l; [|simpl in Hlen; lia]. simpl. unfold count_smaller. simpl. lia.
  - destruct l as [|[d|] l]; simpl in *.
    + unfold count_smaller. simpl. lia.
    + destruct (adjust_rec steps (adjust_later d l) (shift d out))
        as [later' out'] eqn:Er. simpl.
      change out' with (snd (later', out')). rewrite <- Er.
      rewrite IH; [|rewrite adjust_later_length; lia
                   |apply NoDup_indexes_adjust_later; exact Hnd].
      rewrite count_smaller_shift, count_smaller_cons_Some.
      * unfold shift. case_bool_decide; lia.
      * intros Hin. apply elem_of_indexes in Hin.
        apply NoDup_cons in Hnd as [Hd _]. apply Hd, Hin.
    + destruct (adjust_rec steps l out) as [later' out'] eqn:Er. simpl.
      change out' with (snd (later', out')). rewrite <- Er.
      rewrite IH by (auto; lia). rewrite count_smaller_cons_None. reflexivity.
Qed.

(** The adjusted index of a slot: the original one less the number of
    earlier slots with a smaller original index. *)
Lemma adjust_rec_lookup steps : forall l out i old,
  (length l <= steps)%nat -> NoDup (indexes l) ->
  l !! i = Some (Some old) ->
  fst (adjust_rec steps l out) !! i
    = Some (Some (old - count_smaller (take i l) old)).
Proof.
  induction steps as [|steps IH]; intros l out i old Hlen Hnd Hi.
  - destruct l; [discriminate|simpl in Hlen; lia].
  - destruct l as [|[d|] l]; simpl in *; [discriminate| |].
    + destruct (adjust_rec steps (adjust_later d l) (shift d out))
        as [later' out'] eqn:Er. simpl.
      destruct i as [|i]; simpl in *.
      * injection Hi as ->. unfold count_smaller. simpl. f_equal. f_equal. lia.
      * change later' with (fst (later', out')). rewrite <- Er.
        rewrite (IH _ _ i (shift d old));
          [|rewrite adjust_later_length; lia
           |apply NoDup_indexes_adjust_later; exact Hnd
           |apply adjust_later_lookup_Some; exact Hi].
        rewrite adjust_later_take, count_smaller_shift, count_smaller_cons_Some.
        -- unfold shift. case_bool_decide; do 2 f_equal; lia.
        -- intros Hin. apply elem_of_take in Hin as (i0 & Hi0 & _).
           apply list_elem_of_lookup_2, elem_of_indexes in Hi0.
           apply NoDup_cons in Hnd as [Hd _]. apply Hd, Hi0.
    + destruct (adjust_rec steps l out) as [later' out'] eqn:Er. simpl.
      destruct i as [|i]; simpl in *; [discriminate|].
      change later' with (fst (later', out')). rewrite <- Er.
      rewrite (IH _ _ i old) by (auto; lia).
      rewrite count_smaller_cons_None. reflexivity.
Qed.
End AdjustFacts.

Section DeleteFacts.
Import convertors.InputOutputsConvertor.
Context {A : Type}.
Implicit Types (l r : list (option Z)) (row : list A) (d k : Z).

Lemma keep_from_ext l l' row : forall k,
  (forall p, Some p ∈ l <-> Some p ∈ l') ->
  keep_from k l row = keep_from k l' row.
Proof.
  induction row as [|x row IH]; intros k Hext; simpl; [reflexivity|].
  rewrite (IH (k + 1) Hext).
  destruct (decide (Some k ∈ l)) as [Hin|Hout].
  - rewrite !bool_decide_eq_true_2; auto. apply Hext, Hin.
  - rewrite !bool_decide_eq_false_2; auto. intros H. apply Hout, Hext, H.
Qed.

(** Past the deleted column every position has moved down by one. *)
Lemma keep_from_after d r row : forall k,
  Some d ∉ r -> d < k ->
  keep_from (k - 1) (adjust_later d r) row = keep_from k (Some d :: r) row.
Proof.
  induction row as [|x row IH]; intros k Hd Hk; simpl; [reflexivity|].
  replace (k - 1 + 1) with (k + 1 - 1) by lia. rewrite IH by (auto; lia).
  assert (Some (k - 1) ∈ adjust_later d r <-> Some k ∈ Some d :: r) as Hiff.
  { rewrite elem_of_adjust_later, elem_of_cons. split.
    - intros (e & He & Hs). right.
      assert (e <> d) by (intros ->; auto).
      unfold shift in Hs. case_bool_decide; [|lia].
      replace k with e by lia. exact He.
    - intros [Heq|Hin]; [injection Heq; lia|].
      exists k. split; auto. unfold shift. case_bool_decide; lia. }
  destruct (decide (Some (k - 1) ∈ adjust_later d r)) as [Hin|Hout].
  - rewrite !bool_decide_eq_true_2; auto. apply Hiff, Hin.
  - rewrite !bool_decide_eq_false_2; auto. intros H. apply Hout, Hiff, H.
Qed.

(** Deleting the column [d] and then the shifted columns leaves what
    deleting all of them leaves. *)
Lemma keep_from_delete d r row : forall k,
  Some d ∉ r -> k <= d < k + convertors.len row ->
  keep_from k (adjust_later d r) (delete (Z.to_nat (d - k)) row)
    = keep_from k (Some d :: r) row.
Proof.
  unfold convertors.len.
  induction row as [|x row IH]; intros k Hd Hk; simpl in Hk; [lia|].
  destruct (decide (d = k)) as [->|Hne].
  - replace (Z.to_nat (k - k)) with O by lia. simpl.
    rewrite bool_decide_eq_true_2 by left.
    rewrite <- keep_from_after by (auto; lia).
    f_equal. lia.
  - replace (Z.to_nat (d - k)) with (S (Z.to_nat (d - (k + 1)))) by lia. simpl.
    rewrite IH by (auto; lia).
    assert (Some k ∈ adjust_later d r <-> Some k ∈ Some d :: r) as Hiff.
    { rewrite elem_of_adjust_later, elem_of_cons. split.
      - intros (e & He & Hs). right.
        assert (e <> d) by (intros ->; auto).
        unfold shift in Hs. case_bool_decide; [lia|].
        subst e. exact He.
      - intros [Heq|Hin]; [injection Heq; lia|].
        exists k. split; auto. unfold shift. case_bool_decide; lia. }
    destruct (decide (Some k ∈ adjust_later d r)) as [Hin|Hout].
    + rewrite !bool_decide_eq_true_2; auto. apply Hiff, Hin.
    + rewrite !bool_decide_eq_false_2; auto. intros H. apply Hout, Hiff, H.
Qed.

Lemma keep_from_nil row : forall k, keep_from k [] row = row.
Proof.
  induction row as [|x row IH]; intros k; [reflexivity|].
  cbn [keep_from]. destruct (bool_decide (Some k ∈ [])) eqn:E.
  - apply bool_decide_eq_true in E. apply not_elem_of_nil in E. destruct E.
  - f_equal. apply IH.
Qed.

Lemma py_pop_valid row d :
  0 <= d < convertors.len row -> py_pop row d = Ok (delete (Z.to_nat d) row).
Proof.
  unfold convertors.len. intros Hd. unfold py_pop, py_index.
  rewrite bool_decide_eq_true_2 by lia. reflexivity.
Qed.

(** The deletions of [reorder] with the adjusted indexes remove exactly
    the columns at the original indexes. *)
Lemma delete_all_adjusted steps : forall l out row,
  (length l <= steps)%nat -> NoDup (indexes l) ->
  (forall d, Some d ∈ l -> 0 <= d < convertors.len row) ->
  delete_all row (fst (adjust_rec steps l out)) = Ok (keep_from 0 l row).
Proof.
  induction steps as [|steps IH]; intros l out row Hlen Hnd Hvalid.
  - destruct l; [|simpl in Hlen; lia]. simpl. rewrite keep_from_nil. reflexivity.
  - destruct l as [|[d|] l].
    + simpl. rewrite keep_from_nil. reflexivity.
    + simpl in Hlen. simpl adjust_rec.
      destruct (adjust_rec steps (adjust_later d l) (shift d out))
        as [later' out'] eqn:Er. simpl.
      assert (Some d ∉ l) as Hd.
      { intros Hin. apply elem_of_indexes in Hin.
        rewrite indexes_cons_Some in Hnd. apply NoDup_cons in Hnd as [Hn _]. auto. }
      pose proof (Hvalid d ltac:(left)) as Hdv.
      rewrite (py_pop_valid _ _ Hdv). simpl.
      change later' with (fst (later', out')). rewrite <- Er.
      rewrite IH.
      * f_equal. rewrite <- (keep_from_delete d l row 0) by (auto; lia).
        do 2 f_equal. lia.
      * rewrite adjust_later_length. lia.
      * apply NoDup_indexes_adjust_later, Hnd.
      * intros p Hp. apply elem_of_adjust_later in Hp as (e & He & <-).
        assert (e <> d) by (intros ->; auto).
        pose proof (Hvalid e ltac:(right; exact He)) as Hev.
        unfold convertors.len in *.
        rewrite length_delete by (apply lookup_lt_is_Some; lia).
        unfold shift. case_bool_decide; lia.
    + simpl in Hlen. simpl adjust_rec.
      destruct (adjust_rec steps l out) as [later' out'] eqn:Er. simpl.
      change later' with (fst (later', out')). rewrite <- Er.
      rewrite IH.
      * f_equal. apply keep_from_ext. intros p. rewrite elem_of_cons.
        split; [auto|]. intros [Heq|H]; [discriminate|exact H].
      * lia.
      * exact Hnd.
      * intros e He. apply Hvalid. right. exact He.
Qed.

Lemma keep_from_Permutation l l' row k :
  l ≡ₚ l' -> keep_from k l row = keep_from k l' row.
Proof.
  intros Hp. apply keep_from_ext. intros p. rewrite Hp. reflexivity.
Qed.
End DeleteFacts.

Section PlanFacts.
Import convertors.InputOutputsConvertor.
Implicit Types (names outs : list string) (s : string).

Lemma name_index_Some names s : forall idx,
  name_index names s = Some idx ->
  0 <= idx < convertors.len names /\ names !! Z.to_nat idx = Some s.
Proof.
  unfold name_index, convertors.len.
  induction names as [|y names IH]; intros idx; [discriminate|].
  rewrite fmap_cons. cbn [py_list_index py_eq].
  destruct (String.eqb y s) eqn:E.
  - intros [= <-]. apply String.eqb_eq in E as ->. simpl. split; [lia|reflexivity].
  - destruct (py_list_index (VStr <$> names) (VStr s)) as [k|e]; cbn;
      [|discriminate].
    intros [= <-]. destruct (IH k eq_refl) as [Hk Hl]. split; [lia|].
    replace (Z.to_nat (k + 1)) with (S (Z.to_nat k)) by lia. exact Hl.
Qed.

Lemma name_index_elem names s : s ∈ names -> is_Some (name_index names s).
Proof.
  unfold name_index. induction names as [|y names IH]; intros Hin.
  - apply elem_of_nil in Hin. destruct Hin.
  - rewrite fmap_cons. cbn [py_list_index py_eq].
    destruct (String.eqb y s) eqn:E; [eauto|].
    apply elem_of_cons in Hin as [->|Hin]; [rewrite String.eqb_refl in E; discriminate|].
    destruct (IH Hin) as [k Hk].
    destruct (py_list_index (VStr <$> names) (VStr s)); [|discriminate]. cbn. eauto.
Qed.

Lemma check_existing_names names outs :
  check_existing (VStr <$> names) (VStr <$> outs) = name_index names <$> outs.
Proof.
  unfold check_existing, name_index.
  induction outs as [|s outs IH]; simpl; [reflexivity|]. f_equal; [|exact IH].
  destruct (py_list_index _ (VStr s)) as [k|e] eqn:E.
  - rewrite (py_list_index_in _ _ _ E). reflexivity.
  - destruct (py_in (VStr s) _); reflexivity.
Qed.

Lemma name_indexes_elem names outs idx :
  Some idx ∈ name_index names <$> outs ->
  exists s, s ∈ outs /\ name_index names s = Some idx.
Proof.
  intros H. apply list_elem_of_fmap in H as (s & Hs & Hin). eauto.
Qed.

Lemma name_indexes_NoDup names outs :
  NoDup outs -> outs ⊆ names -> NoDup (indexes (name_index names <$> outs)).
Proof.
  induction outs as [|s outs IH]; intros Hnd Hsub; [constructor|].
  apply NoDup_cons in Hnd as [Hs Hnd].
  assert (outs ⊆ names) as Hsub' by (intros x Hx; apply Hsub; right; exact Hx).
  destruct (name_index_elem names s (Hsub s ltac:(left))) as [idx Hidx].
  rewrite fmap_cons, Hidx, indexes_cons_Some. apply NoDup_cons. split; [|auto].
  intros Hin. apply elem_of_indexes, name_indexes_elem in Hin as (s' & Hs' & Hidx').
  apply name_index_Some in Hidx as [_ H1]. apply name_index_Some in Hidx' as [_ H2].
  rewrite H1 in H2. injection H2 as <-. auto.
Qed.

Lemma name_indexes_valid names outs d :
  Some d ∈ name_index names <$> outs -> 0 <= d < convertors.len names.
Proof.
  intros H. apply name_indexes_elem in H as (s & _ & Hs).
  apply (name_index_Some _ _ _ Hs).
Qed.

Lemma plan_unfold headers output_col_names output_col_idx :
  plan headers output_col_names output_col_idx =
    (out ← requested_position headers output_col_idx;
     let olds := check_existing headers output_col_names in
     Ok (olds, fst (adjust_rec (length olds) olds out),
         snd (adjust_rec (length olds) olds out))).
Proof.
  unfold plan, requested_position.
  destruct (is_None output_col_idx); simpl.
  - rewrite adjust_loop_all.
    destruct (adjust_rec _ _ _); reflexivity.
  - destruct (convertors.as_index output_col_idx); simpl; [|reflexivity].
    rewrite adjust_loop_all. destruct (adjust_rec _ _ _); reflexivity.
Qed.

(** C2, as the code has it.  For headers with distinct names and distinct
    output names taken among them: the delete index [plan] computes for a
    slot is the header index of its name less the number of earlier slots
    with a smaller header index; and with the same names listed in
    another order, the insertion position is the same and the deletions
    leave the same columns of every row, so that the header and the rows
    that are output have the same columns before and after the inserted
    block, and the block itself holds the values in the order of the
    list. *)
Theorem multi_output_order names outs outs' output_col_idx olds dels idx :
  NoDup names -> NoDup outs -> outs ⊆ names -> outs' ≡ₚ outs ->
  plan (VStr <$> names) (VStr <$> outs) output_col_idx = Ok (olds, dels, idx) ->
  (forall i s, outs !! i = Some s ->
     exists old,
       olds !! i = Some (Some old) /\ names !! Z.to_nat old = Some s /\
       dels !! i = Some (Some (old - count_smaller (take i olds) old))) /\
  exists olds' dels',
    plan (VStr <$> names) (VStr <$> outs') output_col_idx = Ok (olds', dels', idx) /\
    forall (A : Type) (row : list A),
      length row = length names ->
      exists rest,
        delete_all row dels = Ok rest /\
        delete_all row dels' = Ok rest /\
        forall vals vals',
          reorder row dels idx vals
            = Ok (py_slice_to rest idx ++ vals ++ py_slice_from rest idx) /\
          reorder row dels' idx vals'
            = Ok (py_slice_to rest idx ++ vals' ++ py_slice_from rest idx).
Proof.
  intros Hnames Houts Hsub Hperm. rewrite !plan_unfold.
  destruct (requested_position (VStr <$> names) output_col_idx) as [out|e];
    simpl; [|discriminate].
  rewrite !check_existing_names. intros [= <- <- <-].
  assert (NoDup (indexes (name_index names <$> outs))) as Hnd
    by (apply name_indexes_NoDup; assumption).
  assert (outs' ⊆ names) as Hsub'
    by (intros x Hx; apply Hsub; rewrite <- Hperm; exact Hx).
  assert (NoDup (indexes (name_index names <$> outs'))) as Hnd'
    by (apply name_indexes_NoDup; [rewrite Hperm|]; assumption).
  assert (name_index names <$> outs' ≡ₚ name_index names <$> outs) as Hp
    by (rewrite Hperm; reflexivity).
  split.
  - intros i s Hi.
    destruct (name_index_elem names s) as [old Hold];
      [apply Hsub, list_elem_of_lookup; eauto|].
    assert ((name_index names <$> outs) !! i = Some (Some old)) as Hl
      by (rewrite list_lookup_fmap, Hi; simpl; rewrite Hold; reflexivity).
    exists old. split; [exact Hl|]. split; [apply (name_index_Some _ _ _ Hold)|].
    apply adjust_rec_lookup; auto.
  - eexists _, _. split.
    + rewrite !adjust_rec_output by (auto; lia).
      rewrite (count_smaller_Permutation _ _ _ Hp). reflexivity.
    + intros A row Hrow. exists (keep_from 0 (name_index names <$> outs) row).
      assert (forall d, Some d ∈ name_index names <$> outs ->
                0 <= d < convertors.len row) as Hvalid.
      { intros d Hd. apply name_indexes_valid in Hd.
        unfold convertors.len in *. lia. }
      assert (forall d, Some d ∈ name_index names <$> outs' ->
                0 <= d < convertors.len row) as Hvalid'
        by (intros d Hd; apply Hvalid; rewrite <- Hp; exact Hd).
      assert (delete_all row
                (fst (adjust_rec (length (name_index names <$> outs))
                        (name_index names <$> outs) out))
              = Ok (keep_from 0 (name_index names <$> outs) row)) as H1
        by (apply delete_all_adjusted; auto).
      assert (delete_all row
                (fst (adjust_rec (length (name_index names <$> outs'))
                        (name_index names <$> outs') out))
              = Ok (keep_from 0 (name_index names <$> outs) row)) as H2.
      { rewrite delete_all_adjusted by auto.
        rewrite (keep_from_Permutation _ _ _ _ Hp). reflexivity. }
      split; [exact H1|]. split; [exact H2|].
      intros vals vals'. unfold reorder. rewrite H1, H2. split; reflexivity.
Qed.
End PlanFacts.

(** C2 on the headers [a], [b], [c] with the output columns [a], [b],
    listed also as [b], [a]. *)
Lemma multi_output_order_witness :
  convertors.InputOutputsConvertor.plan (VStr <$> ["a"; "b"; "c"])
    (VStr <$> ["a"; "b"]) VNone = Ok ([Some 0; Some 1], [Some 0; Some 0], 1) /\
  exists olds' dels',
    convertors.InputOutputsConvertor.plan (VStr <$> ["a"; "b"; "c"])
      (VStr <$> ["b"; "a"]) VNone = Ok (olds', dels', 1) /\
    forall (A : Type) (row : list A),
      length row = length ["a"; "b"; "c"] ->
      exists rest,
        convertors.InputOutputsConvertor.delete_all row [Some 0; Some 0] = Ok rest /\
        convertors.InputOutputsConvertor.delete_all row dels' = Ok rest /\
        forall vals vals',
          convertors.InputOutputsConvertor.reorder row [Some 0; Some 0] 1 vals
            = Ok (py_slice_to rest 1 ++ vals ++ py_slice_from rest 1) /\
          convertors.InputOutputsConvertor.reorder row dels' 1 vals'
            = Ok (py_slice_to rest 1 ++ vals' ++ py_slice_from rest 1).
Proof.
  split; [reflexivity|].
  refine (proj2 (multi_output_order ["a"; "b"; "c"] ["a"; "b"] ["b"; "a"] VNone
                   [Some 0; Some 1] [Some 0; Some 0] 1 _ _ _ _ _)).
  - apply (bool_decide_unpack _). vm_compute. reflexivity.
  - apply (bool_decide_unpack _). vm_compute. reflexivity.
  - apply (bool_decide_unpack _). vm_compute. reflexivity.
  - apply Permutation_swap.
  - reflexivity.
Defined.

(** The consequence C2 draws fails as it is stated: the same convertor run
    with the output columns listed as [a], [b] and as [b], [a] writes
    different header rows and different data rows, because the inserted
    block follows the order of the list. *)
Lemma multi_output_order_counterexample :
  ["b"; "a"] ≡ₚ ["a"; "b"] /\
  output_of (convertors.InputOutputsConvertor.process renew_values
               (renew_context ["a"; "b"]))
    = Some [ [VStr "c"; VStr "a"; VStr "b"];
             [VStr "3"; VStr "new a"; VStr "new b"];
             [VStr "6"; VStr "new a"; VStr "new b"] ] /\
  output_of (convertors.InputOutputsConvertor.process renew_values
               (renew_context ["b"; "a"]))
    = Some [ [VStr "c"; VStr "b"; VStr "a"];
             [VStr "3"; VStr "new b"; VStr "new a"];
             [VStr "6"; VStr "new b"; VStr "new a"] ] /\
  output_of (convertors.InputOutputsConvertor.process renew_values
               (renew_context ["a"; "b"]))
    <> output_of (convertors.InputOutputsConvertor.process renew_values
                    (renew_context ["b"; "a"])).
Proof.
  split; [apply Permutation_swap|].
  split; [vm_compute; reflexivity|].
  split; [vm_compute; reflexivity|].
  vm_compute. discriminate.
Qed.

(** ** [Table.convert] *)

Section ConvertFacts.
Import table.
Implicit Types (w : World) (self : Table) (conv : Convertor).

Lemma temporary_file_is_new w : files w !! output_path w OutputNone = None.
Proof. apply not_elem_of_dom, is_fresh. Qed.

(** C9, as the code runs.  When the step raises [RuntimeError],
    [convert] raises it again and the output file is left with the rows
    written so far, whether the caller named the output file or
    [convert] created a temporary one: the variable [output] holds the
    output collection when the handler tests it against [None]. *)
Theorem convert_runtime_error_keeps_file w self convertor params output conv
    rows i log c c' :
  files w !! file self = Some rows ->
  CONVERTOR_DICT w !! convertor = Some conv ->
  context.init (cls conv) params {| input._array := rows; input._current := 0 |} []
    = (i, log, Ok c) ->
  process conv c = (c', Raise RuntimeError) ->
  snd (convert w self convertor params output) = Raise RuntimeError /\
  files (fst (convert w self convertor params output)) !! output_path w output
    = Some (context._output c').
Proof.
  intros Hfile Hconv Hinit Hrun. unfold convert. rewrite Hfile.
  assert (forall w0 : World,
            CONVERTOR_DICT w0 = CONVERTOR_DICT w ->
            convertor_find_by w0 convertor = (Some conv, w0)) as Hfind
    by (intros w0 Hw0; unfold convertor_find_by; rewrite Hw0, Hconv; reflexivity).
  destruct output as [|path|path]; simpl.
  - rewrite Hfind by reflexivity. rewrite Hinit, Hrun. simpl. split; [reflexivity|].
    unfold close_output. simpl. rewrite lookup_insert_eq. simpl.
    apply lookup_insert_eq.
  - rewrite Hfind by reflexivity. rewrite Hinit, Hrun. simpl. split; [reflexivity|].
    unfold close_output. simpl. rewrite lookup_insert_eq. simpl.
    apply lookup_insert_eq.
  - rewrite Hfind by reflexivity. rewrite Hinit, Hrun. simpl. split; [reflexivity|].
    unfold close_output. simpl. rewrite lookup_insert_eq. simpl.
    apply lookup_insert_eq.
Qed.
End ConvertFacts.

(** C9 on a convertor that cannot be used, called without an output
    file: the error is raised and the temporary file, which did not
    exist before, is still there. *)
Lemma convert_runtime_error_keeps_file_witness :
  table.files table.sample_world !! output_path table.sample_world table.OutputNone
    = None /\
  snd (table.convert table.sample_world table.sample_table "unusable" ∅
         table.OutputNone) = Raise RuntimeError /\
  exists partial,
    table.files
      (fst (table.convert table.sample_world table.sample_table "unusable" ∅
              table.OutputNone))
      !! output_path table.sample_world table.OutputNone = Some partial.
Proof.
  split; [apply temporary_file_is_new|].
  destruct (convert_runtime_error_keeps_file table.sample_world table.sample_table
              "unusable" ∅ table.OutputNone table.unusable
              [ [VStr "a"; VStr "b"]; [VStr "1"; VStr "2"] ]
              {| input._array := [ [VStr "a"; VStr "b"]; [VStr "1"; VStr "2"] ];
                 input._current := 0 |}
              []
              (context_of (table.cls table.unusable) ∅
                 {| input._array := [ [VStr "a"; VStr "b"]; [VStr "1"; VStr "2"] ];
                    input._current := 0 |})
              (context_of (table.cls table.unusable) ∅
                 {| input._array := [ [VStr "a"; VStr "b"]; [VStr "1"; VStr "2"] ];
                    input._current := 0 |}))
    as [Hr Hf]; try (vm_compute; reflexivity).
  split; [exact Hr|]. eexists. exact Hf.
Defined.

(** ** The header mapper *)

Section MappingFacts.
Import mapping.
Variable vector : Type.
Variable item2vec : string -> res vector.
Variable cos_sim : vector -> vector -> Q.
Variable Munkres_compute : list (list Q) -> list (nat * nat).

(** On a square matrix the solver returns a complete assignment: every
    row and every column once. *)
Hypothesis Munkres_assignment : forall mx dim,
  length mx = dim -> Forall (fun row => length row = dim) mx ->
  List.map fst (Munkres_compute mx) ≡ₚ seq 0 dim /\
  List.map snd (Munkres_compute mx) ≡ₚ seq 0 dim.

Implicit Types (A B : list string).

Lemma items_of_length A : length (items_of A) = length A.
Proof. unfold items_of. apply length_map. Qed.

Lemma items_of_nonempty A x : In x (items_of A) -> x <> "".
Proof.
  unfold items_of. intros H. apply in_map_iff in H as (y & <- & _).
  destruct (String.eqb y "") eqn:E; simpl; [discriminate|].
  intros ->. rewrite String.eqb_refl in E. discriminate.
Qed.

Lemma chars_nonempty s : s <> "" -> chars s <> [].
Proof. destruct s; [congruence|]. intros _. unfold chars. simpl. discriminate. Qed.

Lemma strsim_nonempty a b : a <> "" -> b <> "" -> exists q, strsim a b = Ok q.
Proof.
  intros Ha Hb. unfold strsim, bigrams.
  destruct (chars a) eqn:Ea; [apply chars_nonempty in Ea; tauto|].
  destruct (chars b) eqn:Eb; [apply chars_nonempty in Eb; tauto|].
  simpl. eauto.
Qed.

Lemma all_ok_map {X Y} (f : X -> res Y) (l : list X) :
  (forall x, In x l -> exists y, f x = Ok y) ->
  exists ys, all_ok (List.map f l) = Ok ys.
Proof.
  induction l as [|x l IH]; intros H; simpl; [eauto|].
  destruct (H x (or_introl eq_refl)) as [y ->]. simpl.
  destruct IH as [ys ->]; [intros; apply H; right; assumption|]. simpl. eauto.
Qed.

Lemma all_ok_length {X} (l : list (res X)) : forall xs,
  all_ok l = Ok xs -> length xs = length l.
Proof.
  induction l as [|r l IH]; intros xs H; simpl in H.
  - now injection H as <-.
  - destruct r as [x|]; simpl in H; [|discriminate].
    destruct (all_ok l) as [xs'|]; simpl in H; [|discriminate].
    injection H as <-. simpl. now rewrite (IH xs' eq_refl).
Qed.

Lemma mxed_entry_ok A B i j :
  exists q, mxed_entry (items_of A) (items_of B) i j = Ok q.
Proof.
  unfold mxed_entry.
  destruct (items_of A !! i) as [a|] eqn:Ea; [|eauto].
  destruct (items_of B !! j) as [b|] eqn:Eb; [|eauto].
  destruct (strsim_nonempty a b) as [q ->]; simpl; eauto;
    eapply items_of_nonempty, list_elem_of_In, list_elem_of_lookup_2; eauto.
Qed.

Lemma get_weighted_matrix_ok A B (vec0 vec1 : list vector) :
  all_ok (List.map item2vec (items_of A)) = Ok vec0 ->
  all_ok (List.map item2vec (items_of B)) = Ok vec1 ->
  exists mxed,
    get_weighted_matrix vector item2vec cos_sim (items_of A) (items_of B)
      = Ok (mxsim_of cos_sim (Nat.max (length A) (length B)) vec0 vec1, mxed).
Proof.
  intros H0 H1. unfold get_weighted_matrix. rewrite H0, H1. cbn [mbind res_bind].
  rewrite !items_of_length.
  destruct (all_ok_map
              (fun i => all_ok (List.map (fun j => mxed_entry (items_of A) (items_of B) i j)
                          (seq 0 (Nat.max (length A) (length B)))))
              (seq 0 (Nat.max (length A) (length B))))
    as [mxed Hmxed].
  - intros i _. apply all_ok_map. intros j _. apply mxed_entry_ok.
  - rewrite Hmxed. simpl. eauto.
Qed.

Lemma mxsim_of_square dim (vec0 vec1 : list vector) :
  length (mxsim_of cos_sim dim vec0 vec1) = dim /\
  Forall (fun row => length row = dim) (mxsim_of cos_sim dim vec0 vec1).
Proof.
  unfold mxsim_of. split.
  - rewrite length_map, length_seq. reflexivity.
  - apply Forall_forall. intros row Hrow.
    apply list_elem_of_In, in_map_iff in Hrow as (i & <- & _).
    rewrite length_map, length_seq. reflexivity.
Qed.

Lemma mx_get_mxsim dim (vec0 vec1 : list vector) i j :
  (i < dim)%nat -> (j < dim)%nat ->
  mx_get (mxsim_of cos_sim dim vec0 vec1) i j
  = Ok (mxsim_entry vector cos_sim vec0 vec1 i j).
Proof.
  intros Hi Hj. unfold mx_get, mxsim_of.
  rewrite (list_lookup_fmap _ (seq 0 _) i : (List.map _ _) !! i = _).
  rewrite lookup_seq_lt by exact Hi. simpl.
  rewrite (list_lookup_fmap _ (seq 0 _) j : (List.map _ _) !! j = _).
  rewrite lookup_seq_lt by exact Hj. reflexivity.
Qed.

(** A score between two items: their similarity, cut at 0. *)
Lemma score_inside (vec0 vec1 : list vector) i j a b :
  vec0 !! i = Some a -> vec1 !! j = Some b ->
  (- mxsim_entry vector cos_sim vec0 vec1 i j == cut_at_0 (cos_sim a b))%Q.
Proof.
  intros Ha Hb. unfold mxsim_entry, cut_at_0. rewrite Ha, Hb.
  destruct (Qlt_le_dec (cos_sim a b) 0); ring.
Qed.

Lemma score_outside (vec0 vec1 : list vector) i j :
  (length vec0 <= i)%nat \/ (length vec1 <= j)%nat ->
  (- mxsim_entry vector cos_sim vec0 vec1 i j)%Q = 0%Q.
Proof.
  unfold mxsim_entry. intros [H|H].
  - rewrite (lookup_ge_None_2 _ _ H). reflexivity.
  - rewrite (lookup_ge_None_2 _ _ H). destruct (vec0 !! i); reflexivity.
Qed.

Lemma results_of_ok (items0 items1 : list string) dim (vec0 vec1 : list vector) pairs :
  (forall i j, In (i, j) pairs -> (i < dim)%nat /\ (j < dim)%nat) ->
  results_of items0 items1 (mxsim_of cos_sim dim vec0 vec1) pairs =
    Ok (List.map
          (fun '(i, j) =>
             (items0 !! i, items1 !! j,
              (- mxsim_entry vector cos_sim vec0 vec1 i j)%Q))
          pairs).
Proof.
  induction pairs as [|[i j] pairs IH]; intros Hin; simpl; [reflexivity|].
  destruct (Hin i j (or_introl eq_refl)) as [Hi Hj].
  rewrite mx_get_mxsim by assumption. simpl.
  rewrite IH by (intros; apply Hin; right; assumption). reflexivity.
Qed.

(** X28: [ItemsPair(A, B).mapping()] when [item2vec] gives a vector for
    every item and the solver returns a complete assignment of the
    square matrix: there are [max(len(A), len(B))] results, one for each
    pair of the assignment and in its order; a pair whose index is not
    below the length of its list has no partner on that side and the
    score 0; the score of two items is their cosine similarity, cut at 0
    from below (and not from above). *)
Theorem mapping_follows_assignment A B (vec0 vec1 : list vector) :
  let items0 := items_of A in
  let items1 := items_of B in
  let dim := Nat.max (length A) (length B) in
  let pairs := Munkres_compute (mxsim_of cos_sim dim vec0 vec1) in
  all_ok (List.map item2vec items0) = Ok vec0 ->
  all_ok (List.map item2vec items1) = Ok vec1 ->
  exists results,
    mapping vector item2vec cos_sim Munkres_compute items0 items1 = Ok results /\
    length results = dim /\
    forall k i j,
      pairs !! k = Some (i, j) ->
      exists score,
        results !! k = Some (items0 !! i, items1 !! j, score) /\
        ((length A <= i)%nat -> items0 !! i = None /\ score = 0%Q) /\
        ((length B <= j)%nat -> items1 !! j = None /\ score = 0%Q) /\
        (forall a b, vec0 !! i = Some a -> vec1 !! j = Some b ->
           (score == cut_at_0 (cos_sim a b))%Q).
Proof.
  cbv zeta. intros H0 H1.
  set (dim := Nat.max (length A) (length B)).
  set (pairs := Munkres_compute (mxsim_of cos_sim dim vec0 vec1)).
  destruct (get_weighted_matrix_ok A B vec0 vec1 H0 H1) as [mxed Hmx].
  fold dim in Hmx.
  destruct (mxsim_of_square dim vec0 vec1) as [Hlen Hrows].
  destruct (Munkres_assignment _ _ Hlen Hrows) as [Hfst Hsnd].
  fold pairs in Hfst, Hsnd.
  assert (forall i j, In (i, j) pairs -> (i < dim)%nat /\ (j < dim)%nat) as Hrange.
  { intros i j Hin. split.
    - assert (i ∈ List.map fst pairs) as Hi
        by (apply list_elem_of_In, in_map_iff; exists (i, j); auto).
      rewrite Hfst in Hi. apply elem_of_seq in Hi. lia.
    - assert (j ∈ List.map snd pairs) as Hj
        by (apply list_elem_of_In, in_map_iff; exists (i, j); auto).
      rewrite Hsnd in Hj. apply elem_of_seq in Hj. lia. }
  apply all_ok_length in H0, H1. rewrite length_map, items_of_length in H0, H1.
  eexists. split; [|split].
  - unfold mapping, match_. rewrite Hmx. simpl.
    fold pairs. apply results_of_ok, Hrange.
  - rewrite length_map.
    rewrite <- (length_map fst pairs), Hfst, length_seq. reflexivity.
  - intros k i j Hk. eexists. split; [|split; [|split]].
    + rewrite (list_lookup_fmap _ pairs k : (List.map _ pairs) !! k = _), Hk.
      reflexivity.
    + intros Hi. split.
      * apply lookup_ge_None_2. rewrite items_of_length. exact Hi.
      * apply score_outside. left. lia.
    + intros Hj. split.
      * apply lookup_ge_None_2. rewrite items_of_length. exact Hj.
      * apply score_outside. right. lia.
    + intros a b Ha Hb. now apply score_inside.
Qed.
End MappingFacts.

Lemma diagonal_assignment_complete mx dim :
  length mx = dim -> Forall (fun row : list Q => length row = dim) mx ->
  List.map fst (diagonal_assignment mx) ≡ₚ seq 0 dim /\
  List.map snd (diagonal_assignment mx) ≡ₚ seq 0 dim.
Proof.
  intros <- _. unfold diagonal_assignment. rewrite !map_map. simpl.
  rewrite map_id. split; reflexivity.
Qed.

Lemma mapping_follows_assignment_witness :
  exists results,
    mapping.mapping string item_itself half_similar diagonal_assignment
      (mapping.items_of ["所在地"; "緯度"]) (mapping.items_of ["名称"]) = Ok results /\
    length results = Nat.max (length ["所在地"; "緯度"]) (length ["名称"]) /\
    forall k i j,
      diagonal_assignment
        (mxsim_of half_similar (Nat.max (length ["所在地"; "緯度"]) (length ["名称"]))
           ["所在地"; "緯度"] ["名称"]) !! k = Some (i, j) ->
      exists score,
        results !! k
          = Some (mapping.items_of ["所在地"; "緯度"] !! i,
                  mapping.items_of ["名称"] !! j, score) /\
        ((length ["所在地"; "緯度"] <= i)%nat ->
           mapping.items_of ["所在地"; "緯度"] !! i = None /\ score = 0%Q) /\
        ((length ["名称"] <= j)%nat ->
           mapping.items_of ["名称"] !! j = None /\ score = 0%Q) /\
        (forall a b, ["所在地"; "緯度"] !! i = Some a -> ["名称"] !! j = Some b ->
           (score == cut_at_0 (half_similar a b))%Q).
Proof.
  exact (mapping_follows_assignment string item_itself half_similar
           diagonal_assignment diagonal_assignment_complete
           ["所在地"; "緯度"] ["名称"] ["所在地"; "緯度"] ["名称"] eq_refl eq_refl).
Defined.
(** ** The exact mapper and the similarity of strings *)

Section MappingMore.
Import mapping.
Implicit Types (A B : list string).



(** *** [strsim] *)

Lemma count_matches_bounds m : forall fuel i j k,
  (k <= count_matches fuel m i j k <= k + Z.of_nat (Nat.min i j))%Z.
Proof.
  induction fuel as [|fuel IH]; intros i j k; cbn [count_matches]; [lia|].
  destruct i as [|i]; [lia|]. destruct j as [|j]; [lia|].
  destruct (_ && _).
  - case_bool_decide.
    + specialize (IH i j (k + 1)%Z). lia.
    + specialize (IH i j k). lia.
  - case_bool_decide.
    + specialize (IH i (S j) k). lia.
    + specialize (IH (S i) j k). lia.
Qed.

Lemma bigrams_from_length nlist : forall previous,
  length (bigrams_from previous nlist) = S (length nlist).
Proof.
  induction nlist as [|c nlist IH]; intros previous; cbn; [reflexivity|].
  now rewrite IH.
Qed.

Lemma chars_empty s : chars s = [] -> s = "".
Proof. destruct s; [reflexivity|]. unfold chars. cbn. discriminate. Qed.

(** X23: [strsim] of two strings that are not empty is a number from 0
    to 1; with an empty string for one of them it raises
    [IndexError]. *)
Theorem strsim_range (term1 term2 : string) :
  (term1 = "" \/ term2 = "" -> strsim term1 term2 = Raise IndexError)
  /\ (term1 <> "" -> term2 <> "" ->
      exists q, strsim term1 term2 = Ok q /\ (0 <= q)%Q /\ (q <= 1)%Q).
Proof.
  unfold strsim, bigrams. split.
  - intros [-> | ->]; [reflexivity|].
    destruct (chars term1); reflexivity.
  - intros H1 H2.
    destruct (chars term1) as [|c1 l1] eqn:E1; [apply chars_empty in E1; contradiction|].
    destruct (chars term2) as [|c2 l2] eqn:E2; [apply chars_empty in E2; contradiction|].
    cbn [mbind res_bind]. eexists. split; [reflexivity|].
    unfold _match_str.
    set (u1 := bigrams_from "^" (c1 :: l1)). set (u2 := bigrams_from "^" (c2 :: l2)).
    pose proof (count_matches_bounds (matrix u1 u2) (length u1 + length u2)
                  (length u1) (length u2) 0) as Hb.
    set (matched := count_matches _ _ _ _ _) in *.
    assert (0 < length u1)%nat as Hpos
      by (subst u1; rewrite bigrams_from_length; lia).
    clearbody matched u1 u2.
    assert (0 < Z.of_nat (length u1 + length u2))%Z as Hn by lia.
    assert (2 * matched <= Z.of_nat (length u1 + length u2))%Z as Hm by lia.
    assert (0 <= matched)%Z as Hm0 by lia.
    generalize dependent (Z.of_nat (length u1 + length u2)). intros n Hn Hm.
    split.
    + apply Qle_shift_div_l.
      * unfold Qlt. cbn [Qnum Qden]. lia.
      * unfold Qle, Qmult. cbn [Qnum Qden]. lia.
    + apply Qle_shift_div_r.
      * unfold Qlt. cbn [Qnum Qden]. lia.
      * unfold Qle, Qmult. cbn [Qnum Qden]. lia.
Qed.

(** The matrix of a list against itself: the entry of row [j] and
    column [i] is the distance of [i] and [j]. *)
Lemma fill_row_same y (j : Z) : forall (l1 : list string) (i : nat),
  (forall x, l1 !! (Z.to_nat (j - 1) - i)%nat = Some x ->
             (Z.of_nat i + 1 <= j)%Z -> x = y) ->
  fill_row (Z.abs (Z.of_nat i - (j - 1)))
    (List.map (fun c => Z.abs (Z.of_nat c - (j - 1))) (seq (S i) (length l1)))
    (Z.abs (Z.of_nat i - j)) l1 y
  = List.map (fun c => Z.abs (Z.of_nat c - j)) (seq (S i) (length l1)).
Proof.
  induction l1 as [|x l1 IH]; intros i Hy; [reflexivity|].
  cbn [length seq List.map fill_row]. unfold _delcost, _inscost, _subcost.
  assert (Z.min (Z.abs (Z.of_nat i - j) + 1)
            (Z.min (Z.abs (Z.of_nat (S i) - (j - 1)) + 1)
               (if String.eqb x y then Z.abs (Z.of_nat i - (j - 1))
                else Z.abs (Z.of_nat i - (j - 1)) + 10))
          = Z.abs (Z.of_nat (S i) - j))%Z as ->.
  { destruct (String.eqb_spec x y) as [->|Hne]; [lia|].
    destruct (decide (Z.of_nat i + 1 = j)%Z) as [Heq|Hd]; [|lia].
    exfalso. apply Hne, Hy; [|lia].
    replace (Z.to_nat (j - 1) - i)%nat with 0%nat by lia. reflexivity. }
  f_equal. apply IH. intros x' Hx' Hle. apply Hy; [|lia].
  replace (Z.to_nat (j - 1) - i)%nat with (S (Z.to_nat (j - 1) - S i)) by lia.
  exact Hx'.
Qed.

Lemma fill_rows_same (l : list string) : forall (l2 : list string) (j : nat),
  (0 < j)%nat ->
  (forall k y, l2 !! k = Some y -> l !! (j - 1 + k)%nat = Some y) ->
  fill_rows (Z.of_nat j)
    (List.map (fun c => Z.abs (Z.of_nat c - (Z.of_nat j - 1))) (seq 0 (S (length l))))
    l l2
  = List.map (fun r => List.map (fun c => Z.abs (Z.of_nat c - Z.of_nat r))
                         (seq 0 (S (length l))))
      (seq j (length l2)).
Proof.
  induction l2 as [|y l2 IH]; intros j Hj Hl2; [reflexivity|].
  cbn [fill_rows length seq List.map]. unfold _inscost.
  assert (Z.of_nat j * 1
            :: fill_row (Z.abs (Z.of_nat 0 - (Z.of_nat j - 1)))
                 (List.map (fun c => Z.abs (Z.of_nat c - (Z.of_nat j - 1)))
                    (seq 1 (length l)))
                 (Z.of_nat j * 1) l y
          = Z.abs (Z.of_nat 0 - Z.of_nat j)
            :: List.map (fun c => Z.abs (Z.of_nat c - Z.of_nat j)) (seq 1 (length l)))%Z
    as ->.
  { f_equal; [lia|].
    replace (Z.of_nat j * 1)%Z with (Z.abs (Z.of_nat 0 - Z.of_nat j)) by lia.
    apply fill_row_same. intros x Hx _.
    specialize (Hl2 0%nat y eq_refl).
    replace (Z.to_nat (Z.of_nat j - 1) - 0)%nat with (j - 1 + 0)%nat in Hx by lia.
    congruence. }
  f_equal.
  specialize (IH (S j)).
  replace (Z.of_nat (S j) - 1)%Z with (Z.of_nat j) in IH by lia.
  replace (Z.of_nat j + 1)%Z with (Z.of_nat (S j)) by lia.
  apply IH; [lia|].
  intros k y' Hk. specialize (Hl2 (S k) y' Hk).
  replace (S j - 1 + k)%nat with (j - 1 + S k)%nat by lia. exact Hl2.
Qed.

Lemma matrix_same (l : list string) :
  matrix l l
  = List.map (fun r => List.map (fun c => Z.abs (Z.of_nat c - Z.of_nat r))
                         (seq 0 (S (length l))))
      (seq 0 (S (length l))).
Proof.
  unfold matrix, _delcost.
  assert (List.map (fun i => (Z.of_nat i * 1)%Z) (seq 0 (S (length l)))
          = List.map (fun c => Z.abs (Z.of_nat c - (Z.of_nat 1 - 1)))
              (seq 0 (S (length l)))) as ->
    by (apply map_ext; intros; lia).
  change 1%Z with (Z.of_nat 1) at 2.
  rewrite fill_rows_same; [|lia|intros k y Hk; exact Hk].
  cbn [seq List.map]. reflexivity.
Qed.

Lemma lookup_List_map {X Y} (f : X -> Y) (l : list X) : forall i,
  List.map f l !! i = f <$> (l !! i).
Proof.
  induction l as [|x l IH]; intros [|i]; cbn; try reflexivity. apply IH.
Qed.

Lemma at_same (l : list string) (j i : nat) :
  (j <= length l)%nat -> (i <= length l)%nat ->
  at_ (matrix l l) j i = Z.abs (Z.of_nat i - Z.of_nat j).
Proof.
  intros Hj Hi. unfold at_. rewrite matrix_same.
  rewrite lookup_List_map, lookup_seq_lt by lia.
  cbn [fmap option_fmap option_map default]. unfold id.
  rewrite lookup_List_map, lookup_seq_lt by lia. reflexivity.
Qed.

Lemma count_matches_same (l : list string) : forall fuel i k,
  (i <= fuel)%nat -> (i <= length l)%nat ->
  count_matches fuel (matrix l l) i i k = (k + Z.of_nat i)%Z.
Proof.
  induction fuel as [|fuel IH]; intros i k Hf Hi.
  - replace i with 0%nat by lia. cbn. lia.
  - destruct i as [|i]; [cbn; lia|].
    cbn [count_matches].
    rewrite !at_same by lia.
    rewrite !bool_decide_eq_true_2 by lia. cbn [andb].
    rewrite IH by lia. lia.
Qed.

(** X24: a string that is not empty is as similar to itself as can be:
    [strsim] gives 1. *)
Theorem strsim_identical (term : string) :
  term <> "" -> exists q, strsim term term = Ok q /\ (q == 1)%Q.
Proof.
  intros Hne. unfold strsim, bigrams.
  destruct (chars term) as [|c l] eqn:E; [apply chars_empty in E; contradiction|].
  cbn [mbind res_bind]. eexists. split; [reflexivity|].
  unfold _match_str.
  set (u := bigrams_from "^" (c :: l)).
  rewrite count_matches_same by lia.
  assert (0 < length u)%nat as Hpos
    by (subst u; rewrite bigrams_from_length; lia).
  clearbody u. unfold Qeq, Qdiv, Qmult, Qinv. cbn [Qnum Qden].
  destruct (Z.of_nat (length u + length u)) as [|p|p] eqn:Ep; [lia| |lia].
  cbn [Qnum Qden]. lia.
Qed.
End MappingMore.

Lemma strsim_range_witness :
  exists q, mapping.strsim "名称" "名称_カナ" = Ok q /\ (0 <= q)%Q /\ (q <= 1)%Q.
Proof.
  apply (proj2 (strsim_range "名称" "名称_カナ")); discriminate.
Defined.

Lemma strsim_identical_witness :
  exists q, mapping.strsim "名称" "名称" = Ok q /\ (q == 1)%Q.
Proof. apply (strsim_identical "名称"). discriminate. Defined.

(** ** The matcher and the language of a pattern *)

Section StringFacts.

Lemma append_cons (x : ascii) (a b : string) :
  String x a +:+ b = String x (a +:+ b).
Proof. reflexivity. Qed.

Lemma append_nil_l (a : string) : "" +:+ a = a.
Proof. reflexivity. Qed.

Lemma append_assoc (a b c : string) : (a +:+ b) +:+ c = a +:+ (b +:+ c).
Proof.
  induction a as [|x a IH]; [reflexivity|].
  rewrite !append_cons. f_equal. exact IH.
Qed.

Lemma append_nil_r (a : string) : a +:+ "" = a.
Proof.
  induction a as [|x a IH]; [reflexivity|].
  rewrite append_cons. f_equal. exact IH.
Qed.

Lemma startswith_split (t s : string) :
  startswith t s = true -> s = t +:+ string_drop (String.length t) s.
Proof.
  unfold startswith. revert s.
  induction t as [|x t IH]; intros s H.
  - now destruct s.
  - destruct s as [|y s]; simpl in H; [discriminate|].
    destruct (ascii_dec x y) as [->|]; [|discriminate].
    rewrite append_cons. simpl. f_equal. now apply IH.
Qed.

Lemma startswith_append (t s : string) : startswith t (t +:+ s) = true.
Proof.
  unfold startswith. induction t as [|x t IH].
  - rewrite append_nil_l. now destruct s.
  - rewrite append_cons. simpl. destruct (ascii_dec x x); [exact IH | congruence].
Qed.

Lemma str_contains_append (needle a b : string) :
  str_contains needle (a +:+ needle +:+ b) = true.
Proof.
  induction a as [|x a IH].
  - rewrite append_nil_l.
    pose proof (startswith_append needle b) as Hs.
    destruct (needle +:+ b); cbn [str_contains]; rewrite Hs; reflexivity.
  - rewrite append_cons. cbn [str_contains]. rewrite IH. apply orb_true_r.
Qed.

Lemma all_digits_append (a b : string) :
  all_digits (a +:+ b) = all_digits a && all_digits b.
Proof.
  induction a as [|x a IH]; [reflexivity|].
  rewrite append_cons. simpl. rewrite <- andb_assoc. f_equal. exact IH.
Qed.

Lemma leading_digits_all (a : string) : all_digits a = true -> leading_digits a = a.
Proof.
  induction a as [|x a IH]; simpl; [reflexivity|].
  intros [Hx Ha]%andb_true_iff. rewrite Hx. f_equal. now apply IH.
Qed.

Lemma leading_digits_point (a b : string) :
  all_digits a = true -> leading_digits (a +:+ "." +:+ b) = a.
Proof.
  induction a as [|x a IH]; [reflexivity|].
  rewrite append_cons. simpl.
  intros [Hx Ha]%andb_true_iff. rewrite Hx. f_equal. now apply IH.
Qed.

End StringFacts.

Section MatcherFacts.
Import re.

(** What the matcher hands to its continuation is what is left of the
    text after a word of the pattern's language. *)
Lemma rmatch_sound (R : Type) (r : regex) :
  forall (s : string) (caps : captures) (k : string -> captures -> option R) (x : R),
    rmatch r s caps k = Some x ->
    exists w s' caps', s = w +:+ s' /\ lang r w /\ k s' caps' = Some x.
Proof.
  induction r as [|t|p|l|a IHa b IHb|a IHa b IHb|a IHa|a IHa|name a IHa|name|a IHa];
    intros s caps k x H; cbn [rmatch] in H.
  - exists "", s, caps. now repeat split.
  - destruct (startswith t s) eqn:E; [|discriminate].
    exists t, (string_drop (String.length t) s), caps.
    repeat split; [now apply startswith_split | exact H].
  - destruct s as [|c s']; [discriminate|].
    destruct (p c) eqn:E; [|discriminate].
    exists (String c ""), s', caps. repeat split; [|exact H].
    exists c. now split.
  - destruct (find (fun w => startswith w s) l) as [w|] eqn:E; [|discriminate].
    apply find_some in E as [Hin Hw].
    exists w, (string_drop (String.length w) s), caps.
    repeat split; [now apply startswith_split | exact Hin | exact H].
  - apply IHa in H as (u & s1 & caps1 & -> & Hu & H).
    apply IHb in H as (v & s2 & caps2 & -> & Hv & H).
    exists (u +:+ v), s2, caps2. repeat split; [now rewrite append_assoc| |exact H].
    now exists u, v.
  - destruct (rmatch a s caps k) as [x'|] eqn:E.
    + injection H as ->. apply IHa in E as (w & s' & caps' & -> & Hw & E).
      exists w, s', caps'. repeat split; [now left | exact E].
    + apply IHb in H as (w & s' & caps' & -> & Hw & H).
      exists w, s', caps'. repeat split; [now right | exact H].
  - destruct (rmatch a s caps k) as [x'|] eqn:E.
    + injection H as ->. apply IHa in E as (w & s' & caps' & -> & Hw & E).
      exists w, s', caps'. repeat split; [now right | exact E].
    + exists "", s, caps. repeat split; [now left | exact H].
  - remember (String.length s) as fuel eqn:Hfuel. clear Hfuel.
    revert s caps H. induction fuel as [|fuel IH]; intros s caps H.
    + exists "", s, caps. repeat split; [|exact H]. now exists [].
    + match type of H with
      | match ?m with _ => _ end = _ => destruct m as [x'|] eqn:E
      end.
      * injection H as ->.
        apply IHa in E as (u & s1 & caps1 & -> & Hu & E).
        destruct (String.length s1 <? String.length (u +:+ s1))%nat; [|discriminate].
        apply IH in E as (v & s2 & caps2 & -> & (ws & -> & Hws) & E).
        exists (u +:+ concat_strings ws), s2, caps2.
        repeat split; [now rewrite append_assoc| |exact E].
        exists (u :: ws). split; [reflexivity | now constructor].
      * exists "", s, caps. repeat split; [|exact H]. now exists [].
  - apply IHa in H as (w & s' & caps' & -> & Hw & H).
    exists w, s', ((name, consumed (w +:+ s') s') :: caps'). now repeat split.
  - destruct (group_of name caps) as [t|]; [|discriminate].
    destruct (startswith t s) eqn:E; [|discriminate].
    exists t, (string_drop (String.length t) s), caps.
    repeat split; [now apply startswith_split | exact H].
  - destruct (rmatch a s caps (fun _ _ => Some tt)); [discriminate|].
    exists "", s, caps. now repeat split.
Qed.

(** A text the pattern matches in full is a word of its language. *)
Lemma fullmatch_lang (r : regex) (s : string) : fullmatch r s = true -> lang r s.
Proof.
  unfold fullmatch.
  destruct (rmatch r s [] _) as [[]|] eqn:E; [intros _ | discriminate].
  apply rmatch_sound in E as (w & s' & caps' & -> & Hw & E).
  destruct (String.eqb_spec s' ""); [subst s' | discriminate].
  now rewrite append_nil_r.
Qed.

Lemma all_ascii_complete (c : ascii) : In c all_ascii.
Proof.
  unfold all_ascii. rewrite <- (ascii_nat_embedding c).
  apply in_map, in_seq. pose proof (nat_ascii_bounded c). lia.
Qed.

(** The enumeration lists every word of a pattern without repetition. *)
Lemma enumerate_complete (r : regex) :
  star_free r = true -> forall w, lang r w -> In w (enumerate r).
Proof.
  induction r as [|t|p|l|a IHa b IHb|a IHa b IHb|a IHa|a IHa|name a IHa|name|a IHa];
    cbn [star_free lang enumerate]; intros Hsf w Hw; try discriminate.
  - now left.
  - now left.
  - destruct Hw as (c & -> & Hc).
    apply (in_map (fun c => String c "")), filter_In. split; [apply all_ascii_complete | exact Hc].
  - exact Hw.
  - apply andb_true_iff in Hsf as [Ha Hb].
    destruct Hw as (u & v & -> & Hu & Hv).
    apply in_flat_map. exists u. split; [now apply IHa|].
    apply (in_map (fun v => u +:+ v)). now apply IHb.
  - apply andb_true_iff in Hsf as [Ha Hb].
    apply in_or_app. destruct Hw; [left; now apply IHa | right; now apply IHb].
  - destruct Hw as [->|Hw]; [now left | right; now apply IHa].
  - now apply IHa.
Qed.

End MatcherFacts.

(** ** Strings of decimal digits *)

Section DecimalFacts.
Local Open Scope Z_scope.

Lemma string_drop_append (a b : string) : string_drop (String.length a) (a +:+ b) = b.
Proof.
  induction a as [|x a IH]; [now destruct b|].
  rewrite append_cons. exact IH.
Qed.

Lemma length_append (a b : string) :
  String.length (a +:+ b) = (String.length a + String.length b)%nat.
Proof.
  induction a as [|x a IH]; [reflexivity|].
  rewrite append_cons. cbn [String.length]. now rewrite IH.
Qed.

Lemma differ_startswith (a b rest : string) :
  differ a b = true -> startswith a (b +:+ rest) = false.
Proof.
  unfold startswith. revert b.
  induction a as [|x a IH]; intros [|y b] H; try discriminate.
  rewrite append_cons. cbn [differ] in H. cbn [String.prefix].
  destruct (ascii_dec x y) as [->|]; [|reflexivity].
  rewrite Ascii.eqb_refl in H. apply IH. exact H.
Qed.

Lemma wide_digits_ok : forallb wide_digit_ok wide_digits = true.
Proof. vm_compute. reflexivity. Qed.

Lemma wide_digit_spec (d : string) (v : Z) :
  In (d, v) wide_digits ->
  (exists c d', d = String c d' /\ (128 <= nat_of_ascii c)%nat)
  /\ 0 <= v <= 9
  /\ forall d' v', In (d', v') wide_digits ->
       (d', v') = (d, v) \/ differ d' d = true.
Proof.
  intros Hin.
  pose proof (proj1 (forallb_forall _ _) wide_digits_ok _ Hin) as H.
  unfold wide_digit_ok in H. cbn [fst snd] in H.
  apply andb_true_iff in H as [H Hall]. apply andb_true_iff in H as [H H9].
  apply andb_true_iff in H as [Hc H0].
  apply Z.leb_le in H0, H9. split; [|split; [lia|]].
  - destruct d as [|c d']; [discriminate|]. apply Nat.leb_le in Hc. eauto.
  - intros d' v' Hin'.
    pose proof (proj1 (forallb_forall _ _) Hall _ Hin') as H. cbn [fst snd] in H.
    apply orb_true_iff in H as [H|H]; [left | now right].
    apply andb_true_iff in H as [H1 H2].
    apply String.eqb_eq in H1. apply Z.eqb_eq in H2. now subst.
Qed.

Lemma is_digit_ascii (c : ascii) : is_digit c = true -> (nat_of_ascii c < 128)%nat.
Proof.
  unfold is_digit. intros [_ H]%andb_true_iff. apply Nat.leb_le in H. lia.
Qed.

Lemma find_first {A} (P : A -> bool) (x : A) (l : list A) :
  In x l -> P x = true -> (forall y, In y l -> y = x \/ P y = false) ->
  List.find P l = Some x.
Proof.
  induction l as [|y l IH]; intros Hin Hx Hall; [destruct Hin|].
  cbn [List.find]. destruct (Hall y (or_introl eq_refl)) as [->|Hy].
  - now rewrite Hx.
  - rewrite Hy. destruct Hin as [->|Hin]; [congruence|].
    apply IH; [exact Hin | exact Hx |]. intros z Hz. apply Hall. now right.
Qed.

Lemma decimal_char_bounds (d : string) (v : Z) :
  decimal_char d v -> (1 <= String.length d)%nat /\ 0 <= v <= 9.
Proof.
  intros [(c & -> & Hc & ->) | Hin].
  - split; [cbn; lia|]. unfold is_digit in Hc. unfold digit_value.
    apply andb_true_iff in Hc as [H1 H2]. apply Nat.leb_le in H1, H2. lia.
  - destruct (wide_digit_spec _ _ Hin) as ((c & d' & -> & _) & Hv & _).
    split; [cbn; lia | exact Hv].
Qed.

(** A decimal digit is read at the start of whatever it begins. *)
Lemma leading_decimal_char (d : string) (v : Z) (rest : string) :
  decimal_char d v -> leading_decimal (d +:+ rest) = Some (d, v).
Proof.
  intros [(c & -> & Hc & ->) | Hin].
  - rewrite append_cons. cbn [leading_decimal]. now rewrite Hc.
  - destruct (wide_digit_spec _ _ Hin) as ((c & d' & -> & Hc) & _ & Hfree).
    rewrite append_cons. cbn [leading_decimal].
    destruct (is_digit c) eqn:Ed; [apply is_digit_ascii in Ed; lia|].
    rewrite <- append_cons. apply find_first.
    + exact Hin.
    + cbn [fst]. apply startswith_append.
    + intros [d1 v1] H1. destruct (Hfree _ _ H1) as [E|E]; [now left | right].
      cbn [fst]. now apply differ_startswith.
Qed.

Lemma leading_decimal_spec (s d : string) (v : Z) :
  leading_decimal s = Some (d, v) ->
  decimal_char d v /\ s = d +:+ string_drop (String.length d) s.
Proof.
  destruct s as [|c s]; [discriminate|]. cbn [leading_decimal].
  destruct (is_digit c) eqn:Ec.
  - intros [= <- <-]. split; [left; eauto | reflexivity].
  - intros H. apply find_some in H as [Hin Hp]. cbn [fst] in Hp.
    split; [now right | now apply startswith_split].
Qed.

Lemma decimal_digits_from_fuel (fuel1 : nat) : forall fuel2 s,
  (String.length s <= fuel1)%nat -> (String.length s <= fuel2)%nat ->
  decimal_digits_from fuel1 s = decimal_digits_from fuel2 s.
Proof.
  induction fuel1 as [|fuel1 IH]; intros fuel2 s H1 H2.
  - destruct s; [now destruct fuel2 | cbn in H1; lia].
  - destruct s as [|c s]; [now destruct fuel2|].
    destruct fuel2 as [|fuel2]; [cbn in H2; lia|].
    cbn [decimal_digits_from].
    destruct (leading_decimal (String c s)) as [[d v]|] eqn:E; [|reflexivity].
    apply leading_decimal_spec in E as [Hd Hs].
    apply decimal_char_bounds in Hd as [Hlen _].
    assert (String.length (string_drop (String.length d) (String c s))
            < String.length (String c s))%nat as Hlt.
    { rewrite Hs at 2. rewrite length_append. lia. }
    f_equal. apply IH; lia.
Qed.

Lemma decimal_digits_nil : decimal_digits "" = Some [].
Proof. reflexivity. Qed.

Lemma decimal_digits_cons (d : string) (v : Z) (rest : string) :
  decimal_char d v ->
  decimal_digits (d +:+ rest) = option_map (cons v) (decimal_digits rest).
Proof.
  intros Hd. pose proof (decimal_char_bounds _ _ Hd) as [Hlen _].
  unfold decimal_digits at 1.
  destruct (d +:+ rest) as [|c s] eqn:E.
  { apply (f_equal String.length) in E. rewrite length_append in E. cbn in E. lia. }
  cbn [String.length decimal_digits_from]. rewrite <- E.
  rewrite (leading_decimal_char _ _ _ Hd), string_drop_append.
  f_equal. apply decimal_digits_from_fuel; [|lia].
  apply (f_equal String.length) in E. rewrite length_append in E. cbn in E. lia.
Qed.

Lemma decimal_digits_inv (s : string) (ds : list Z) :
  decimal_digits s = Some ds ->
  (s = "" /\ ds = [])
  \/ exists d v rest ds',
       s = d +:+ rest /\ decimal_char d v /\ ds = v :: ds'
       /\ decimal_digits rest = Some ds'.
Proof.
  destruct s as [|c s]; [intros [= <-]; now left|]. intros H. right.
  destruct (leading_decimal (String c s)) as [[d v]|] eqn:E.
  - apply leading_decimal_spec in E as [Hd Hs].
    rewrite Hs, (decimal_digits_cons _ _ _ Hd) in H.
    destruct (decimal_digits (string_drop _ _)) as [ds'|] eqn:E'; [|discriminate].
    injection H as <-. exists d, v, (string_drop (String.length d) (String c s)), ds'.
    auto.
  - unfold decimal_digits in H. cbn [String.length decimal_digits_from] in H.
    rewrite E in H. discriminate.
Qed.

Lemma decimal_digits_shorter (s : string) (ds : list Z) :
  decimal_digits s = Some ds -> (length ds <= String.length s)%nat.
Proof.
  remember (String.length s) as n eqn:En. revert s ds En.
  induction n as [n IH] using lt_wf_ind. intros s ds -> H.
  apply decimal_digits_inv in H
    as [[-> ->] | (d & v & rest & ds' & -> & Hd & -> & H)]; [cbn; lia|].
  apply decimal_char_bounds in Hd as [Hlen _].
  rewrite length_append. cbn [length].
  specialize (IH (String.length rest)). rewrite length_append in IH.
  specialize (IH ltac:(lia) rest ds' eq_refl H). lia.
Qed.

Lemma decimal_digits_range (s : string) (ds : list Z) :
  decimal_digits s = Some ds -> Forall (fun d => 0 <= d <= 9) ds.
Proof.
  remember (String.length s) as n eqn:En. revert s ds En.
  induction n as [n IH] using lt_wf_ind. intros s ds -> H.
  apply decimal_digits_inv in H
    as [[-> ->] | (d & v & rest & ds' & -> & Hd & -> & H)]; [constructor|].
  apply decimal_char_bounds in Hd as [Hlen Hv].
  constructor; [exact Hv|].
  apply (IH (String.length rest)) with (s := rest); [|reflexivity|exact H].
  rewrite length_append. lia.
Qed.

Lemma number_of_from (ds : list Z) : forall acc,
  0 <= acc -> Forall (fun d => 0 <= d <= 9) ds ->
  acc <= fold_left (fun acc d => 10 * acc + d) ds acc.
Proof.
  induction ds as [|d ds IH]; intros acc Hacc H; [cbn; lia|].
  inversion H as [|? ? Hd Hds]; subst. cbn [fold_left].
  specialize (IH (10 * acc + d) ltac:(lia) Hds). lia.
Qed.

Lemma number_of_nonneg (ds : list Z) :
  Forall (fun d => 0 <= d <= 9) ds -> 0 <= number_of ds.
Proof. intros H. now apply (number_of_from ds 0). Qed.

(** The digits a text starts with, when something that is no digit
    follows them. *)
Lemma leading_decimals_from_digits (fuel : nat) : forall fuel' ip ds tail,
  decimal_digits_from fuel ip = Some ds ->
  (String.length ip <= fuel)%nat ->
  leading_decimal tail = None -> (fuel <= fuel')%nat ->
  leading_decimals_from fuel' (ip +:+ tail) = ds.
Proof.
  induction fuel as [|fuel IH]; intros fuel' ip ds tail H Hlen Ht Hf.
  - destruct ip; [|cbn in Hlen; lia]. injection H as <-. rewrite append_nil_l.
    destruct fuel'; [reflexivity|]. cbn [leading_decimals_from]. now rewrite Ht.
  - destruct ip as [|c ip].
    + injection H as <-. rewrite append_nil_l.
      destruct fuel'; [reflexivity|]. cbn [leading_decimals_from]. now rewrite Ht.
    + cbn [decimal_digits_from] in H.
      destruct (leading_decimal (String c ip)) as [[d v]|] eqn:E; [|discriminate].
      apply leading_decimal_spec in E as [Hd Hs].
      pose proof (decimal_char_bounds _ _ Hd) as [Hdl _].
      set (rest := string_drop (String.length d) (String c ip)) in *.
      destruct (decimal_digits_from fuel rest) as [ds'|] eqn:E'; [|discriminate].
      injection H as <-.
      destruct fuel' as [|fuel']; [lia|]. cbn [leading_decimals_from].
      rewrite Hs, append_assoc, (leading_decimal_char _ _ _ Hd), string_drop_append.
      f_equal. apply (IH _ _ _ _ E'); [|exact Ht|lia].
      rewrite Hs, length_append in Hlen. lia.
Qed.

Lemma leading_decimal_point (fs : string) : leading_decimal ("." +:+ fs) = None.
Proof.
  rewrite append_cons, append_nil_l. cbn [leading_decimal].
  change (is_digit ".") with false. cbv iota.
  destruct (List.find _ wide_digits) as [[d v]|] eqn:E; [|reflexivity].
  apply find_some in E as [Hin Hp]. cbn [fst] in Hp.
  destruct (wide_digit_spec _ _ Hin) as ((c & d' & -> & Hc) & _).
  unfold startswith in Hp. cbn [String.prefix] in Hp.
  destruct (ascii_dec c ".");
    [subst c; change (nat_of_ascii ".") with 46%nat in Hc; lia | discriminate].
Qed.

Lemma leading_decimals_all (ip : string) (ds : list Z) :
  decimal_digits ip = Some ds -> leading_decimals ip = ds.
Proof.
  intros H. unfold leading_decimals. rewrite <- (append_nil_r ip) at 2.
  apply (leading_decimals_from_digits _ _ _ _ _ H); [lia | reflexivity | lia].
Qed.

Lemma leading_decimals_point (ip fs : string) (ds : list Z) :
  decimal_digits ip = Some ds -> leading_decimals (ip +:+ "." +:+ fs) = ds.
Proof.
  intros H. unfold leading_decimals.
  apply (leading_decimals_from_digits _ _ _ _ _ H);
    [lia | apply leading_decimal_point | rewrite length_append; lia].
Qed.
End DecimalFacts.
(** ** Excel serial dates *)

Section CalendarFacts.
Import date_extractor.
Local Open Scope Z_scope.

Lemma ordinal_dates_ok_spec (count : nat) :
  forall n k, ordinal_dates_ok count n = true ->
    n <= k < n + Z.of_nat count -> ordinal_date_ok k = true.
Proof.
  induction count as [|count IH]; intros n k H Hk; [lia|].
  cbn [ordinal_dates_ok] in H. apply andb_true_iff in H as [Hn H].
  destruct (Z.eq_dec k n) as [->|]; [exact Hn|].
  apply (IH (n + 1)); [exact H | lia].
Qed.

Lemma serial_ordinals_ok : ordinal_dates_ok (Z.to_nat 20002) 723594 = true.
Proof. vm_compute. reflexivity. Qed.

(** From 1982-02-18 to 2036-11-21 [ord2ymd] inverts [ymd2ord]. *)
Lemma ord2ymd_serial (n y m d : Z) :
  723594 <= n <= 743594 -> ord2ymd n = (y, m, d) ->
  ymd2ord y m d = n /\ 1 <= m <= 12 /\ 1 <= d <= days_in_month y m.
Proof.
  intros Hn E.
  pose proof (ordinal_dates_ok_spec _ _ n serial_ordinals_ok) as H.
  rewrite Z2Nat.id in H by lia. specialize (H ltac:(lia)).
  unfold ordinal_date_ok in H. rewrite E in H.
  repeat (apply andb_true_iff in H as [H ?]).
  apply Z.eqb_eq in H. repeat split; try apply Z.leb_le; assumption.
Qed.

Lemma digit_value_bounds (c : ascii) : is_digit c = true -> 0 <= digit_value c <= 9.
Proof.
  unfold is_digit, digit_value.
  intros [H1 H2]%andb_true_iff. apply Nat.leb_le in H1, H2. lia.
Qed.

Lemma lang_decimal (w : string) : lang re.decimal w -> exists v, decimal_char w v.
Proof.
  intros [(c & -> & Hc) | Hin].
  - exists (digit_value c). left. eauto.
  - apply in_map_iff in Hin as ([d v] & <- & Hin). exists v. now right.
Qed.

Lemma lang_decimals (ws : list string) :
  Forall (lang re.decimal) ws ->
  exists ds, decimal_digits (concat_strings ws) = Some ds.
Proof.
  induction 1 as [|w ws Hw _ [ds IH]]; [now exists []|].
  apply lang_decimal in Hw as [v Hv]. exists (v :: ds).
  cbn [concat_strings]. now rewrite (decimal_digits_cons _ _ _ Hv), IH.
Qed.

(** A text of the pattern [excel_date]: five digits, the first a 3 or a
    4, then nothing or a point and digits. *)
Lemma excel_date_lang (text : string) :
  lang excel_date text ->
  exists ip fr ds,
    text = ip +:+ fr /\ decimal_digits ip = Some ds /\ length ds = 5%nat
    /\ 30000 <= number_of ds <= 49999
    /\ (fr = "" \/ exists fs fds, fr = "." +:+ fs /\ decimal_digits fs = Some fds).
Proof.
  intros (u & v & -> & Hu & v1 & fr & -> & Hd & Hfr).
  destruct Hd as (d1 & w & -> & H1 & d2 & w' & -> & H2 & d3 & d4 & -> & H3 & H4).
  apply lang_decimal in H1 as [n1 H1], H2 as [n2 H2], H3 as [n3 H3], H4 as [n4 H4].
  assert (exists n0, decimal_char u n0 /\ 3 <= n0 <= 4) as (n0 & H0 & Hn0).
  { change (In u ["3"; "4"]) in Hu. destruct Hu as [<-|[<-|[]]].
    - exists 3. split; [left; exists "3"%char; auto | lia].
    - exists 4. split; [left; exists "4"%char; auto | lia]. }
  exists (u +:+ d1 +:+ d2 +:+ d3 +:+ d4), fr, [n0; n1; n2; n3; n4].
  split; [now rewrite !append_assoc|].
  split.
  { rewrite <- (append_nil_r d4).
    rewrite (decimal_digits_cons _ _ _ H0), (decimal_digits_cons _ _ _ H1),
      (decimal_digits_cons _ _ _ H2), (decimal_digits_cons _ _ _ H3),
      (decimal_digits_cons _ _ _ H4).
    reflexivity. }
  split; [reflexivity|].
  apply decimal_char_bounds in H1 as [_ H1], H2 as [_ H2], H3 as [_ H3], H4 as [_ H4].
  split; [unfold number_of; cbn [fold_left]; lia|].
  destruct Hfr as [-> | (p & q & -> & Hp & ws & -> & Hws)]; [now left | right].
  cbn [lang] in Hp. subst p.
  destruct (lang_decimals _ Hws) as [fds Hfds]. eauto.
Qed.

End CalendarFacts.

Section ExcelSerial.
Import date_extractor.
Local Open Scope Z_scope.

Variable pyfloat : Type.
Variable py_float : string -> res pyfloat.
Variable timedelta_days : pyfloat -> timedelta.

(** What the statement takes from Python's [float] and [timedelta] for
    the serial numbers: five decimal digits are read as that whole number
    of days; with a fraction, the days are that number or, after
    rounding, the next one, and the rest is a time of the day. *)
Hypothesis float_whole :
  forall ip ds, decimal_digits ip = Some ds -> length ds = 5%nat ->
    exists num, py_float ip = Ok num
      /\ timedelta_days num
         = {| days := number_of ds; seconds := 0; microseconds := 0 |}.
Hypothesis float_fraction :
  forall ip fs ds fds, decimal_digits ip = Some ds -> length ds = 5%nat ->
    decimal_digits fs = Some fds ->
    exists num, py_float (ip +:+ "." +:+ fs) = Ok num
      /\ number_of ds <= days (timedelta_days num) <= number_of ds + 1
      /\ 0 <= seconds (timedelta_days num) < 86400
      /\ 0 <= microseconds (timedelta_days num) < 1000000.

Lemma convert_excel_date_serial (num : pyfloat) :
  30000 <= days (timedelta_days num) <= 50000 ->
  0 <= seconds (timedelta_days num) < 86400 ->
  0 <= microseconds (timedelta_days num) < 1000000 ->
  exists y m d H M S us,
    convert_excel_date pyfloat timedelta_days num
    = Ok {| dt_year := y; dt_month := m; dt_day := d;
            dt_hour := H; dt_minute := M; dt_second := S; dt_microsecond := us |}
    /\ ymd2ord y m d = ymd2ord 1899 12 30 + days (timedelta_days num)
    /\ 1 <= m <= 12 /\ 1 <= d <= days_in_month y m
    /\ H * 3600 + M * 60 + S = seconds (timedelta_days num)
    /\ 0 <= H < 24 /\ 0 <= M < 60 /\ 0 <= S < 60.
Proof.
  intros Hd Hs Hus.
  unfold convert_excel_date, datetime_add.
  cbn [dt_year dt_month dt_day dt_hour dt_minute dt_second dt_microsecond].
  change (ymd2ord 1899 12 30) with 693594.
  destruct (timedelta_days num) as [dd ss us]. cbn [days seconds microseconds] in *.
  replace ((0 + us) / 1000000) with 0 by (symmetry; apply Z.div_small; lia).
  replace (0 * 3600 + 0 * 60 + 0 + ss + 0) with ss by lia.
  replace (ss / 86400) with 0 by (symmetry; apply Z.div_small; lia).
  rewrite (Z.mod_small ss 86400) by lia.
  replace (693594 + dd + 0) with (693594 + dd) by lia.
  replace ((0 <? 693594 + dd) && (693594 + dd <=? MAXORDINAL)) with true.
  2:{ symmetry. apply andb_true_iff. split; [apply Z.ltb_lt; lia|].
      apply Z.leb_le. unfold MAXORDINAL. lia. }
  destruct (ord2ymd (693594 + dd)) as [[y m] d] eqn:E.
  apply ord2ymd_serial in E as (E1 & E2 & E3); [|lia].
  exists y, m, d, (ss / 3600), (ss mod 3600 / 60), ((ss mod 3600) mod 60),
    ((0 + us) mod 1000000).
  split; [reflexivity|]. split; [exact E1|]. split; [exact E2|]. split; [exact E3|].
  pose proof (Z.div_mod ss 3600 ltac:(lia)).
  pose proof (Z.div_mod (ss mod 3600) 60 ltac:(lia)).
  pose proof (Z.mod_pos_bound ss 3600 ltac:(lia)).
  pose proof (Z.mod_pos_bound (ss mod 3600) 60 ltac:(lia)).
  assert (0 <= ss / 3600 < 24)
    by (split; [apply Z.div_pos; lia | apply Z.div_lt_upper_bound; lia]).
  assert (0 <= ss mod 3600 / 60 < 60)
    by (split; [apply Z.div_pos; lia | apply Z.div_lt_upper_bound; lia]).
  repeat split; lia.
Qed.

(** C7: a text that, once normalised, matches [excel_date] in full (a 3
    or a 4, four decimal digits and then, optionally, a point and
    decimal digits) is classified EXCEL_DATE with one candidate: the date
    1899-12-30 plus the days of [timedelta(days=float(text))], and the
    time of the day of that duration; without a fractional part the days
    are the number the text writes and hour, minute and second are 0. *)
Theorem excel_serial_date (datestr : string) :
  re.fullmatch excel_date (normalized datestr) = true ->
  exists num y m d H M S,
    py_float (normalized datestr) = Ok num
    /\ get_datetime pyfloat py_float timedelta_days datestr
       = Ok {| ex_datetime := [[VInt y; VInt m; VInt d; VInt H; VInt M; VInt S]];
               ex_text := normalized datestr;
               ex_format := EXCEL_DATE |}
    /\ ymd2ord y m d = ymd2ord 1899 12 30 + days (timedelta_days num)
    /\ 1 <= m <= 12 /\ 1 <= d <= days_in_month y m
    /\ H * 3600 + M * 60 + S = seconds (timedelta_days num)
    /\ 0 <= H < 24 /\ 0 <= M < 60 /\ 0 <= S < 60
    /\ (str_contains "." (normalized datestr) = false ->
        decimal_value (normalized datestr) = Some (days (timedelta_days num))
        /\ H = 0 /\ M = 0 /\ S = 0).
Proof.
  intros Hfull. unfold get_datetime. cbv zeta. rewrite Hfull.
  apply fullmatch_lang, excel_date_lang in Hfull
    as (ip & fr & ds & Htext & Hip & Hlen & Hrange & Hfr).
  rewrite Htext. clear Htext.
  destruct Hfr as [-> | (fs & fds & -> & Hfs)].
  - rewrite append_nil_r.
    destruct (float_whole ip ds Hip Hlen) as (num & Hnum & Htd).
    destruct (convert_excel_date_serial num) as (y & m & d & H & M & S & us & Hc & R);
      try (rewrite Htd; cbn [days seconds microseconds]; lia).
    exists num, y, m, d, H, M, S. split; [exact Hnum|].
    rewrite Hnum. cbn [mbind res_bind]. rewrite Hc. cbn [mbind res_bind].
    cbn [dt_year dt_month dt_day dt_hour dt_minute dt_second].
    split; [reflexivity|].
    destruct R as (R1 & R2 & R3 & R4 & R5 & R6 & R7).
    repeat (split; [assumption|]).
    intros _. rewrite Htd in *. cbn [days seconds microseconds] in *.
    split; [|repeat split; lia].
    unfold decimal_value. rewrite Hip.
    destruct ds as [|d0 ds]; [discriminate | reflexivity].
  - destruct (float_fraction ip fs ds fds Hip Hlen Hfs) as (num & Hnum & Hd & Hs & Hus).
    destruct (convert_excel_date_serial num) as (y & m & d & H & M & S & us & Hc & R);
      try lia.
    exists num, y, m, d, H, M, S. split; [exact Hnum|].
    rewrite Hnum. cbn [mbind res_bind]. rewrite Hc. cbn [mbind res_bind].
    cbn [dt_year dt_month dt_day dt_hour dt_minute dt_second].
    split; [reflexivity|].
    destruct R as (R1 & R2 & R3 & R4 & R5 & R6 & R7).
    repeat (split; [assumption|]).
    intros Hno. rewrite str_contains_append in Hno. discriminate.
Qed.

End ExcelSerial.

Lemma integer_part_whole (ip : string) (ds : list Z) :
  decimal_digits ip = Some ds -> length ds = 5%nat ->
  exists num, integer_part ip = Ok num
    /\ whole_days num
       = {| date_extractor.days := number_of ds; date_extractor.seconds := 0;
            date_extractor.microseconds := 0 |}.
Proof.
  intros H _. exists (number_of ds). unfold integer_part.
  now rewrite (leading_decimals_all _ _ H).
Qed.

Lemma integer_part_fraction (ip fs : string) (ds fds : list Z) :
  decimal_digits ip = Some ds -> length ds = 5%nat -> decimal_digits fs = Some fds ->
  exists num, integer_part (ip +:+ "." +:+ fs) = Ok num
    /\ number_of ds <= date_extractor.days (whole_days num) <= number_of ds + 1
    /\ 0 <= date_extractor.seconds (whole_days num) < 86400
    /\ 0 <= date_extractor.microseconds (whole_days num) < 1000000.
Proof.
  intros H _ _. exists (number_of ds). unfold integer_part.
  rewrite (leading_decimals_point _ _ _ H). cbn. repeat split; lia.
Qed.

Lemma excel_serial_date_witness :
  exists num y m d H M S,
    integer_part (date_extractor.normalized "44927") = Ok num
    /\ date_extractor.get_datetime Z integer_part whole_days "44927"
       = Ok {| date_extractor.ex_datetime :=
                 [[VInt y; VInt m; VInt d; VInt H; VInt M; VInt S]];
               date_extractor.ex_text := date_extractor.normalized "44927";
               date_extractor.ex_format := date_extractor.EXCEL_DATE |}
    /\ date_extractor.ymd2ord y m d
       = date_extractor.ymd2ord 1899 12 30 + date_extractor.days (whole_days num)
    /\ 1 <= m <= 12 /\ 1 <= d <= date_extractor.days_in_month y m
    /\ H * 3600 + M * 60 + S = date_extractor.seconds (whole_days num)
    /\ 0 <= H < 24 /\ 0 <= M < 60 /\ 0 <= S < 60
    /\ (str_contains "." (date_extractor.normalized "44927") = false ->
        decimal_value (date_extractor.normalized "44927")
        = Some (date_extractor.days (whole_days num))
        /\ H = 0 /\ M = 0 /\ S = 0).
Proof.
  apply (excel_serial_date Z integer_part whole_days
           integer_part_whole integer_part_fraction "44927").
  vm_compute. reflexivity.
Defined.
(** ** Era years *)

Section EraFacts.
Import date_extractor.
Local Open Scope Z_scope.

Lemma era_years_convert : forallb era_year_converts (enumerate era_year) = true.
Proof. vm_compute. reflexivity. Qed.

Lemma era_year_converts_spec (y : string) :
  era_year_converts y = true ->
  exists e after,
    era_of y = Some (e, after)
    /\ convert_year y = Ok (VInt (era_base_year e + relative_year after)).
Proof.
  unfold era_year_converts.
  destruct (era_of y) as [[e after]|]; [|discriminate].
  destruct (convert_year y) as [[| | g | |]|]; try discriminate.
  intros ->%Z.eqb_eq. now exists e, after.
Qed.

End EraFacts.

(** C8: for every year string of the era patterns ([year_era], alone or
    with 年 or 年度, and [year_era_first]) [convert_year] gives the base
    year of the era (令和 2018, 平成 1988, 昭和 1925, 大正 1911, 明治 1867)
    plus the year within the era, 元 counting as 1; and the year of
    "平成3年6月3日" is 1988 + 3 = 1991. *)
Theorem era_year_conversion :
  (forall y, lang era_year y ->
     exists e after,
       era_of y = Some (e, after)
       /\ date_extractor.convert_year y
          = Ok (VInt (era_base_year e + relative_year after)))
  /\ (forall (pyfloat : Type) (py_float : string -> res pyfloat)
        (timedelta_days : pyfloat -> date_extractor.timedelta),
        date_extractor.get_datetime pyfloat py_float timedelta_days "平成3年6月3日"
        = Ok {| date_extractor.ex_datetime :=
                  [[VInt (1988 + 3); VInt 6; VInt 3; VStr ""; VStr ""; VNone]];
                date_extractor.ex_text := "H3年6月3日";
                date_extractor.ex_format := date_extractor.DATETIME |}).
Proof.
  split.
  - intros y Hy. apply era_year_converts_spec.
    pose proof era_years_convert as H. rewrite forallb_forall in H.
    apply H, enumerate_complete; [reflexivity | exact Hy].
  - intros. vm_compute. reflexivity.
Qed.

Lemma era_year_conversion_witness :
  exists e after,
    era_of "H3年" = Some (e, after)
    /\ date_extractor.convert_year "H3年"
       = Ok (VInt (era_base_year e + relative_year after)).
Proof.
  apply (proj1 era_year_conversion "H3年").
  left. exists "H3", "年". split; [reflexivity|]. split.
  - exists "H", "3". split; [reflexivity|]. split.
    + vm_compute. tauto.
    + right. exists "3", "". split; [reflexivity|]. split.
      * exists "3"%char. now split.
      * now left.
  - right. exists "年", "". split; [reflexivity|]. split; [reflexivity | now left].
Defined.

(** A year and month with 頃 between them: the group of the year takes the
    頃, and [convert_year] hands "3頃" to [int]. *)
Lemma era_year_about_raises :
  date_extractor.convert_year "H3年頃" = Raise ValueError
  /\ date_extractor.get_datetime Z integer_part whole_days "平成3年頃5月"
     = Raise ValueError.
Proof. split; vm_compute; reflexivity. Qed.

(** ** Hours and minutes *)

Section ClockFacts.
Import date_extractor.
Local Open Scope Z_scope.

Lemma hours_convert : forallb hour_converts (enumerate hour_jp) = true.
Proof. vm_compute. reflexivity. Qed.

Lemma minutes_convert : forallb minute_converts (enumerate minute_jp) = true.
Proof. vm_compute. reflexivity. Qed.

Lemma gives_int_spec r n : gives_int r n = true -> r = Ok (VInt n).
Proof.
  destruct r as [[| | g | |]|]; try discriminate.
  cbn. intros ->%Z.eqb_eq. reflexivity.
Qed.
End ClockFacts.

(** X21: for every text of the pattern [hour_jp] (an hour from 0 to 19
    with or without 午前 or 午後 before it, or from 20 to 24, and 時)
    [convert_hour] gives an integer: the number written, and 12 more when
    the text begins with 午後, so that 午後 with an hour from 13 to 19
    gives an hour from 25 to 31.  For every text of [minute_jp]
    [convert_minute] gives the number written, from 0 to 60, and 30 for
    半. *)
Theorem clock_texts_convert :
  (forall h, lang date_extractor.hour_jp h ->
     date_extractor.convert_hour h = Ok (VInt (clock_hour h))
     /\ 0 <= clock_hour h <= 31)
  /\ (forall m, lang date_extractor.minute_jp m ->
        date_extractor.convert_minute m = Ok (VInt (clock_minute m))
        /\ 0 <= clock_minute m <= 60)
  /\ date_extractor.convert_hour "午後19時" = Ok (VInt 31).
Proof.
  split; [|split].
  - intros h Hh. pose proof hours_convert as H. rewrite forallb_forall in H.
    specialize (H h (enumerate_complete date_extractor.hour_jp eq_refl h Hh)).
    unfold hour_converts in H. apply andb_prop in H as [H H2].
    apply andb_prop in H as [H H1].
    split; [apply gives_int_spec, H | lia].
  - intros m Hm. pose proof minutes_convert as H. rewrite forallb_forall in H.
    specialize (H m (enumerate_complete date_extractor.minute_jp eq_refl m Hm)).
    unfold minute_converts in H. apply andb_prop in H as [H H2].
    apply andb_prop in H as [H H1].
    split; [apply gives_int_spec, H | lia].
  - vm_compute. reflexivity.
Qed.

Lemma clock_texts_convert_witness :
  date_extractor.convert_hour "午後3時" = Ok (VInt (clock_hour "午後3時"))
  /\ 0 <= clock_hour "午後3時" <= 31.
Proof.
  apply (proj1 clock_texts_convert "午後3時").
  apply fullmatch_lang. vm_compute. reflexivity.
Defined.

(** ** Strings: reversal, [strip] and [int] on digits *)

Section RevFacts.

Lemma string_rev_app_spec (s acc : string) :
  string_rev_app s acc = string_rev s +:+ acc.
Proof.
  unfold string_rev. revert acc.
  induction s as [|c s IH]; intros acc; [reflexivity|].
  simpl. rewrite (IH (String c acc)), (IH (String c "")), append_assoc.
  reflexivity.
Qed.

Lemma string_rev_cons (c : ascii) (s : string) :
  string_rev (String c s) = string_rev s +:+ String c "".
Proof. unfold string_rev at 1. simpl. apply string_rev_app_spec. Qed.

Lemma string_rev_append (a b : string) :
  string_rev (a +:+ b) = string_rev b +:+ string_rev a.
Proof.
  induction a as [|c a IH].
  - rewrite append_nil_l. symmetry. apply append_nil_r.
  - rewrite append_cons, !string_rev_cons, IH, append_assoc. reflexivity.
Qed.

Lemma string_rev_involutive (s : string) : string_rev (string_rev s) = s.
Proof.
  induction s as [|c s IH]; [reflexivity|].
  rewrite string_rev_cons, string_rev_append, IH. reflexivity.
Qed.

Lemma all_digits_rev (s : string) : all_digits (string_rev s) = all_digits s.
Proof.
  induction s as [|c s IH]; [reflexivity|].
  rewrite string_rev_cons, all_digits_append, IH. simpl.
  rewrite andb_true_r. apply andb_comm.
Qed.

Lemma string_rev_length (s : string) : String.length (string_rev s) = String.length s.
Proof.
  induction s as [|c s IH]; [reflexivity|].
  rewrite string_rev_cons. simpl. rewrite <- IH.
  generalize (string_rev s). intros t.
  induction t as [|x t IHt]; [reflexivity|].
  rewrite append_cons. simpl. now rewrite IHt.
Qed.

End RevFacts.

Section StripFacts.

Lemma leading_of_digit (ws : list string) (c : ascii) (s : string) :
  no_digit_first ws = true -> is_digit c = true ->
  leading_of ws (String c s) = None.
Proof.
  intros Hws Hc. unfold leading_of.
  destruct (find _ ws) as [w|] eqn:E; [|reflexivity].
  apply find_some in E as [Hin Hw].
  unfold no_digit_first in Hws. rewrite forallb_forall in Hws.
  specialize (Hws w Hin). destruct w as [|a w]; [discriminate|].
  unfold startswith in Hw. simpl in Hw.
  destruct (ascii_dec a c) as [->|]; [|discriminate].
  rewrite Hc in Hws. discriminate.
Qed.

Lemma lstrip_with_digit (ws : list string) (fuel : nat) (c : ascii) (s : string) :
  no_digit_first ws = true -> is_digit c = true ->
  lstrip_with ws fuel (String c s) = String c s.
Proof.
  intros Hws Hc. destruct fuel; [reflexivity|].
  simpl. now rewrite leading_of_digit.
Qed.

Lemma lstrip_with_digits (ws : list string) (fuel : nat) (s : string) :
  no_digit_first ws = true -> all_digits s = true ->
  lstrip_with ws fuel s = s.
Proof.
  intros Hws Hs. destruct s as [|c s].
  - destruct fuel; [reflexivity|]. simpl.
    unfold leading_of. destruct (find _ ws) as [w|] eqn:E; [|reflexivity].
    apply find_some in E as [Hin Hw].
    unfold no_digit_first in Hws. rewrite forallb_forall in Hws.
    specialize (Hws w Hin). destruct w; [discriminate|]. discriminate.
  - simpl in Hs. apply andb_true_iff in Hs as [Hc _].
    now apply lstrip_with_digit.
Qed.

Lemma whitespace_no_digit :
  no_digit_first whitespace = true
  /\ no_digit_first (List.map string_rev whitespace) = true.
Proof. split; vm_compute; reflexivity. Qed.

Lemma strip_digits (s : string) : all_digits s = true -> strip s = s.
Proof.
  intros Hs. destruct whitespace_no_digit as [H1 H2].
  unfold strip, lstrip, rstrip.
  rewrite (lstrip_with_digits _ _ s H1 Hs).
  rewrite lstrip_with_digits; [apply string_rev_involutive | exact H2 |].
  now rewrite all_digits_rev.
Qed.

Lemma leading_of_newline (r : string) :
  leading_of (List.map string_rev whitespace) (String (ascii_of_nat 10) r)
  = Some (chr 10).
Proof.
  unfold leading_of, startswith.
  set (ws := List.map string_rev whitespace). vm_compute in ws. subst ws.
  cbn [find]. simpl. destruct r; reflexivity.
Qed.

(** A line end after the digits is stripped. *)
Lemma strip_digits_newline (s : string) :
  s <> "" -> all_digits s = true -> strip (s +:+ chr 10) = s.
Proof.
  intros Hne Hs. destruct whitespace_no_digit as [H1 H2].
  unfold strip, lstrip, rstrip.
  destruct s as [|c s]; [congruence|].
  pose proof Hs as Hs'. simpl in Hs'. apply andb_true_iff in Hs' as [Hc _].
  rewrite append_cons, (lstrip_with_digit _ _ c _ H1 Hc), <- append_cons.
  rewrite string_rev_append.
  change (string_rev (chr 10)) with (chr 10).
  destruct (String.length (String c s +:+ chr 10)) as [|fuel] eqn:El.
  { rewrite append_cons in El. discriminate. }
  unfold chr at 1. rewrite append_cons, append_nil_l.
  cbn [lstrip_with]. rewrite leading_of_newline.
  cbn [String.length chr string_drop].
  rewrite lstrip_with_digits;
    [apply string_rev_involutive | exact H2 | now rewrite all_digits_rev].
Qed.

Lemma digits_underscore_digits (s : string) : forall acc b,
  all_digits s = true ->
  digits_underscore acc b s
  = match s with
    | "" => if b then Some acc else None
    | _ => Some (digits_value_from acc s)
    end.
Proof.
  induction s as [|c s IH]; intros acc b Hs; [reflexivity|].
  simpl in Hs. apply andb_true_iff in Hs as [Hc Hs].
  cbn [digits_underscore digits_value_from]. rewrite Hc.
  rewrite (IH _ true Hs). destruct s; reflexivity.
Qed.

(** [int] of a string of digits is the number they write. *)
Lemma py_int_str_digits (s : string) :
  s <> "" -> all_digits s = true -> py_int_str s = Ok (digits_value s).
Proof.
  intros Hne Hs. unfold py_int_str. rewrite (strip_digits s Hs).
  destruct s as [|c s]; [congruence|].
  assert (match String c s with
          | String "-" r => (true, r)
          | String "+" r => (false, r)
          | _ => (false, String c s)
          end = (false, String c s)) as ->.
  { simpl in Hs. apply andb_true_iff in Hs as [Hc _].
    destruct c as [[] [] [] [] [] [] [] []]; try reflexivity; discriminate. }
  rewrite digits_underscore_digits by exact Hs. reflexivity.
Qed.

Lemma py_int_str_digits_newline (s : string) :
  s <> "" -> all_digits s = true -> py_int_str (s +:+ chr 10) = Ok (digits_value s).
Proof.
  intros Hne Hs. pose proof (py_int_str_digits s Hne Hs) as H.
  unfold py_int_str in *. rewrite (strip_digits s Hs) in H.
  rewrite (strip_digits_newline s Hne Hs). exact H.
Qed.

Lemma digits_value_from_nonneg (s : string) : forall acc,
  all_digits s = true -> 0 <= acc -> 0 <= digits_value_from acc s.
Proof.
  induction s as [|c s IH]; intros acc Hs Hacc; [exact Hacc|].
  simpl in Hs. apply andb_true_iff in Hs as [Hc Hs].
  cbn [digits_value_from]. apply IH; [exact Hs|].
  pose proof (digit_value_bounds c Hc). lia.
Qed.

Lemma digits_value_nonneg (s : string) : all_digits s = true -> 0 <= digits_value s.
Proof. intros H. apply digits_value_from_nonneg; [exact H | lia]. Qed.

End StripFacts.

(** ** [Convertor.process] *)

Section ProcessFacts.
Import convertors.
Implicit Types (c : context.Context) (rows : list (list pyval)).

Lemma check_record_width r c n :
  context._data c !! "num_of_columns" = Some (VInt n) ->
  Convertor.check_record r c = Ok (Z.eqb n (len r)).
Proof.
  intros H. unfold Convertor.check_record, context.get_data. rewrite H. reflexivity.
Qed.

Lemma py_join_text sep (l : list pyval) :
  forallb is_str l = true -> exists s, py_join sep l = Ok s.
Proof.
  induction l as [|x l IH]; [cbn; eauto|].
  cbn [forallb]. intros [Hx Hl]%andb_prop. destruct x; try discriminate.
  cbn [py_join]. destruct l as [|y l]; [eauto|].
  destruct (IH Hl) as [rest ->]. cbn. eauto.
Qed.

Lemma skipped_rows_cons headers r rows :
  skipped_rows_are_text headers (r :: rows) = true ->
  (length r <> length headers -> exists s, py_join "," r = Ok s)
  /\ skipped_rows_are_text headers rows = true.
Proof.
  unfold skipped_rows_are_text. cbn [forallb]. intros [Hr Hrows]%andb_prop.
  split; [|exact Hrows]. intros Hne. apply py_join_text.
  destruct (Nat.eqb_spec (length r) (length headers)); [contradiction|exact Hr].
Qed.

(** The loop of [process] with the hooks of [Convertor]: the rows of the
    right width are appended, in their order. *)
Lemma process_rows_base (self : Convertor.Self) headers rows : forall c,
  context._data c !! "num_of_columns" = Some (VInt (len headers)) ->
  skipped_rows_are_text headers rows = true ->
  exists c',
    Convertor.process_rows (fun _ => Convertor.check_record)
      (fun _ => Convertor.process_record) self rows c = Ok c'
    /\ context._output c' = context._output c ++ rows_of_width headers rows.
Proof.
  induction rows as [|r rows IH]; intros c Hn Hskip; cbn [Convertor.process_rows].
  - exists c. split; [reflexivity|]. cbn. now rewrite app_nil_r.
  - apply skipped_rows_cons in Hskip as [Hr Hskip].
    erewrite check_record_width by exact Hn.
    cbn [rows_of_width List.filter].
    unfold len. destruct (Nat.eqb_spec (length r) (length headers)) as [E|E].
    + rewrite E, Z.eqb_refl. cbn.
      edestruct IH as (c' & -> & Hout); [| |eexists; split; [reflexivity|]].
      * exact Hn.
      * exact Hskip.
      * rewrite Hout. cbn. now rewrite <- app_assoc.
    + replace (Z.eqb (Z.of_nat (length headers)) (Z.of_nat (length r))) with false
        by (symmetry; apply Z.eqb_neq; lia).
      destruct (Hr E) as [joined ->].
      edestruct IH as (c' & -> & Hout); [| |eexists; split; [reflexivity|]].
      * exact Hn.
      * exact Hskip.
      * exact Hout.
Qed.

Lemma py_join_not_text sep (l : list pyval) :
  forallb is_str l = false -> py_join sep l = Raise TypeError.
Proof.
  induction l as [|x l IH]; [discriminate|].
  cbn [forallb]. destruct x; try reflexivity. cbn [is_str andb]. intros Hl.
  cbn [py_join]. destruct l as [|y l]; [discriminate|].
  rewrite (IH Hl). reflexivity.
Qed.

(** The loop stops at the first row of another width that holds a field
    that is not a string. *)
Lemma process_rows_base_raises (self : Convertor.Self) headers before r after :
  forall c,
    context._data c !! "num_of_columns" = Some (VInt (len headers)) ->
    skipped_rows_are_text headers before = true ->
    length r <> length headers ->
    forallb is_str r = false ->
    Convertor.process_rows (fun _ => Convertor.check_record)
      (fun _ => Convertor.process_record) self (before ++ r :: after) c
    = Raise TypeError.
Proof.
  induction before as [|r0 before IH]; intros c Hn Hskip Hlen Hr;
    cbn [app Convertor.process_rows].
  - erewrite check_record_width by exact Hn.
    replace (Z.eqb (len headers) (len r)) with false
      by (symmetry; apply Z.eqb_neq; unfold len; lia).
    rewrite (py_join_not_text _ _ Hr). reflexivity.
  - apply skipped_rows_cons in Hskip as [Hr0 Hskip].
    erewrite check_record_width by exact Hn.
    unfold len. destruct (Nat.eqb_spec (length r0) (length headers)) as [E|E].
    + rewrite E, Z.eqb_refl. cbn. apply IH; assumption.
    + replace (Z.eqb (Z.of_nat (length headers)) (Z.of_nat (length r0))) with false
        by (symmetry; apply Z.eqb_neq; lia).
      destruct (Hr0 E) as [joined ->]. apply IH; assumption.
Qed.

(** X1: run on an input at its start, a convertor that overrides no
    method of [Convertor] (as [NoopConvertor]) writes the header row and
    then, in their order, exactly the rows that have as many fields as
    the header; the other rows are skipped, with a warning that joins
    their fields: they have to hold strings only, and the run raises
    [TypeError] at the first of them that does not. *)
Theorem noop_copies_rows_of_header_width c headers rows :
  input._array (context._input c) = headers :: rows ->
  input._current (context._input c) = 0%nat ->
  (skipped_rows_are_text headers rows = true ->
   exists c',
     Convertor_process c = Ok c'
     /\ context._output c'
        = context._output c ++ headers :: rows_of_width headers rows)
  /\ (forall before r after,
        rows = before ++ r :: after ->
        skipped_rows_are_text headers before = true ->
        length r <> length headers ->
        forallb is_str r = false ->
        Convertor_process c = Raise TypeError).
Proof.
  intros Harr Hcur.
  unfold Convertor_process, Convertor.process, Convertor.preproc,
    context.next, input.next.
  rewrite Harr, Hcur. simpl. rewrite drop_0. split.
  - intros Hskip.
    edestruct (process_rows_base
                 {| Convertor.headers := headers;
                    Convertor.num_of_columns := len headers |} headers rows)
      as (c' & -> & Hout); [| |eexists; split; [reflexivity|]].
    + simpl. apply lookup_insert_eq.
    + exact Hskip.
    + rewrite Hout. simpl. now rewrite <- app_assoc.
  - intros before r after -> Hskip Hlen Hr.
    apply (process_rows_base_raises _ headers); try assumption.
    simpl. apply lookup_insert_eq.
Qed.

End ProcessFacts.

Lemma noop_copies_rows_of_header_width_witness :
  (exists c',
     Convertor_process (context_of NoopConvertor ∅ ragged_input) = Ok c'
     /\ context._output c'
        = [] ++ [VStr "a"; VStr "b"]
             :: rows_of_width [VStr "a"; VStr "b"]
                  [ [VStr "1"]; [VStr "1"; VStr "2"] ])
  /\ Convertor_process (context_of NoopConvertor ∅ ragged_number_input)
     = Raise TypeError.
Proof.
  split.
  - apply (proj1 (noop_copies_rows_of_header_width
                    (context_of NoopConvertor ∅ ragged_input)
                    [VStr "a"; VStr "b"] [ [VStr "1"]; [VStr "1"; VStr "2"] ]
                    eq_refl eq_refl)).
    reflexivity.
  - apply (proj2 (noop_copies_rows_of_header_width
                    (context_of NoopConvertor ∅ ragged_number_input)
                    [VStr "a"; VStr "b"] [ [VStr "1"; VStr "2"]; [VInt 1] ]
                    eq_refl eq_refl)
             [ [VStr "1"; VStr "2"] ] [VInt 1] []);
      [reflexivity | reflexivity | discriminate | reflexivity].
Defined.

Section ExhaustedInput.
Import convertors.

Lemma preproc_exhausted (c : context.Context) :
  input._current (context._input c) = length (input._array (context._input c)) ->
  Convertor.preproc c = Raise StopIteration.
Proof.
  intros H. unfold Convertor.preproc, context.next, input.next.
  rewrite H, lookup_ge_None_2 by lia. reflexivity.
Qed.

(** X2: when the input has no row left to read as the header row (an
    input without rows, for one), [process] raises [StopIteration],
    for a class that overrides nothing and for the two base classes
    with any [process_convertor]. *)
Theorem process_exhausted_input (c : context.Context) :
  input._current (context._input c) = length (input._array (context._input c)) ->
  Convertor_process c = Raise StopIteration
  /\ (forall process_convertor,
        InputOutputConvertor.process process_convertor c = Raise StopIteration)
  /\ (forall process_convertor,
        InputOutputsConvertor.process process_convertor c = Raise StopIteration).
Proof.
  intros H. apply preproc_exhausted in H.
  unfold Convertor_process, InputOutputConvertor.process,
    InputOutputsConvertor.process, Convertor.process,
    InputOutputConvertor.preproc, InputOutputsConvertor.preproc.
  rewrite H. repeat split.
Qed.
End ExhaustedInput.

Lemma process_exhausted_input_witness :
  Convertor_process
    (context_of NoopConvertor ∅ {| input._array := []; input._current := 0 |})
  = Raise StopIteration.
Proof.
  apply (process_exhausted_input
           (context_of NoopConvertor ∅ {| input._array := []; input._current := 0 |})).
  reflexivity.
Defined.

Section SingleOutputWidth.
Import convertors convertors.InputOutputConvertor.
Implicit Types (c : context.Context) (self : Self) (rows : list pyval).

Lemma reorder_Ok_length {A} (S : list A) d i v l :
  reorder S d i v = Ok l ->
  length l = (length S + match d with Some _ => 0 | None => 1 end)%nat.
Proof.
  intros H. assert (valid_delete S d) as Hd.
  { destruct d as [d|]; [|exact I]. unfold reorder in H. simpl in H.
    unfold py_pop in H. destruct (py_index S d) as [k|] eqn:E; [|discriminate].
    unfold valid_delete, py_index, len in *.
    repeat case_bool_decide; try discriminate; lia. }
  rewrite reorder_is_spec in H by exact Hd. injection H as <-.
  pose proof (reorder_spec_length S d i v Hd) as Hl.
  clear Hd. destruct d; simpl in *; lia.
Qed.

Lemma reorder_attrs_length self (original : list pyval) v l :
  reorder_attrs self original v = Ok l ->
  length l = (length original + gained self)%nat.
Proof.
  unfold reorder_attrs. intros H.
  destruct (as_optional_index (del_col self)) as [d|] eqn:Ed; simpl in H;
    [|discriminate].
  destruct (as_index (output_col_idx self)) as [i|]; simpl in H; [|discriminate].
  apply reorder_Ok_length in H. rewrite H. f_equal.
  unfold gained, as_optional_index in *.
  destruct (del_col self) as [|b|z|s|l0]; cbn in Ed; try discriminate;
    injection Ed as <-; reflexivity.
Qed.

Lemma preproc_data c ret self c' :
  preproc c = Ok (ret, self, c') ->
  ret = VBool true
  /\ context._data c' !! "num_of_columns" = Some (VInt (len (headers self)))
  /\ context._output c' = context._output c.
Proof.
  unfold preproc, Convertor.preproc. intros H.
  destruct (context.next c) as [[hs c0]|] eqn:En; simpl in H; [|discriminate].
  assert (context._output c0 = context._output c) as Hout.
  { unfold context.next in En. destruct (input.next _) as [[? ?]|]; [|discriminate].
    injection En as _ <-. reflexivity. }
  match type of H with
  | context [context.get_param ?c1 _] => set (cd := c1) in *
  end.
  destruct (context.get_param cd "input_col_idx") as [ici|]; simpl in H; [|discriminate].
  destruct (context.get_param cd "output_col_name") as [ocn|]; simpl in H; [|discriminate].
  destruct (context.get_param cd "output_col_idx") as [oci|]; simpl in H; [|discriminate].
  destruct (context.get_param cd "overwrite") as [ow|]; simpl in H; [|discriminate].
  assert (context._data cd !! "num_of_columns" = Some (VInt (len hs))
          /\ context._output cd = context._output c) as [Hn Ho].
  { subst cd. simpl. rewrite lookup_insert_eq. auto. }
  destruct (is_None ocn).
  - destruct (py_subscript hs ici) as [name|]; simpl in H; [|discriminate].
    injection H as <- <- <-. simpl. auto.
  - destruct (py_list_index hs ocn) as [idx|[]]; simpl in H; try discriminate;
      injection H as <- <- <-; simpl; auto.
Qed.

Section Loop.
Variable process_convertor : Self -> list pyval -> context.Context -> res pyval.

Lemma process_record_width self rows c c' :
  process_record process_convertor self rows c = Ok c' ->
  context._data c' = context._data c
  /\ (context._output c' = context._output c
      \/ exists row, context._output c' = context._output c ++ [row]
           /\ length row = (length rows + gained self)%nat).
Proof.
  unfold process_record. intros H.
  destruct (need_value self rows) as [[|]|]; simpl in H; [| |discriminate].
  - destruct (process_convertor self rows c) as [value|]; simpl in H; [|discriminate].
    destruct (is_False value).
    + injection H as <-. auto.
    + destruct (reorder_attrs self rows value) as [row|] eqn:Er; simpl in H;
        [|discriminate].
      injection H as <-. split; [reflexivity|]. right.
      exists row. split; [reflexivity|]. eapply reorder_attrs_length; eauto.
  - destruct (py_subscript rows (del_col self)) as [value|]; simpl in H;
      [|discriminate].
    destruct (reorder_attrs self rows value) as [row|] eqn:Er; simpl in H;
      [|discriminate].
    injection H as <-. split; [reflexivity|]. right.
    exists row. split; [reflexivity|]. eapply reorder_attrs_length; eauto.
Qed.

Lemma process_rows_width self (remaining : list (list pyval)) : forall c c',
  context._data c !! "num_of_columns" = Some (VInt (len (headers self))) ->
  Convertor.process_rows (fun _ => Convertor.check_record)
    (process_record process_convertor) self remaining c = Ok c' ->
  exists new,
    context._output c' = context._output c ++ new
    /\ Forall (fun row => length row = (length (headers self) + gained self)%nat) new.
Proof.
  induction remaining as [|rows remaining IH]; intros c c' Hn H; simpl in H.
  - injection H as <-. exists []. split; [now rewrite app_nil_r | constructor].
  - erewrite check_record_width in H by exact Hn.
    destruct (Z.eqb_spec (len (headers self)) (len rows)) as [E|E].
    + match type of H with
      | match ?m with _ => _ end = _ => destruct m as [c1|] eqn:E1; [|discriminate]
      end.
      apply process_record_width in E1 as [Hd Ho].
      apply IH in H as (new & Hout & Hall); [|rewrite Hd; exact Hn].
      destruct Ho as [Ho | (row & Ho & Hrow)].
      * exists new. split; [|exact Hall]. rewrite Hout, Ho. reflexivity.
      * exists (row :: new). split.
        -- rewrite Hout, Ho, <- app_assoc. reflexivity.
        -- constructor; [|exact Hall]. rewrite Hrow. unfold len in E. simpl. lia.
    + destruct (py_join "," rows) as [joined|]; [|discriminate].
      apply IH in H as (new & Hout & Hall); [|exact Hn].
      exists new. split; [exact Hout | exact Hall].
Qed.

(** X3: whatever [process_convertor] computes, a run of an
    [InputOutputConvertor] that ends without exception has written the
    header row and rows that all have the same number of fields: the
    input header's, plus one when the output column is a new one. *)
Theorem single_output_rows_same_width c c' :
  process process_convertor c = Ok c' ->
  exists header new width,
    context._output c' = context._output c ++ header :: new
    /\ length header = width
    /\ Forall (fun row => length row = width) new.
Proof.
  unfold process, Convertor.process. intros H.
  destruct (preproc c) as [[[ret self] c0]|] eqn:Ep; simpl in H; [|discriminate].
  apply preproc_data in Ep as (-> & Hn & Hout0). simpl in H.
  destruct (context.next (context.reset c0)) as [[first c1]|] eqn:En; [|discriminate].
  assert (context._data c1 = context._data c0
          /\ context._output c1 = context._output c0) as [Hd1 Ho1].
  { unfold context.next in En. destruct (input.next _) as [[? ?]|]; [|discriminate].
    injection En as _ <-. split; reflexivity. }
  unfold process_header in H. simpl in H.
  destruct (reorder_attrs self (headers self) (output_col_name self))
    as [header|] eqn:Eh; simpl in H; [|discriminate].
  apply process_rows_width in H as (new & Hout & Hall).
  - exists header, new, (length (headers self) + gained self)%nat.
    split; [|split; [eapply reorder_attrs_length; eauto | exact Hall]].
    rewrite Hout. simpl. rewrite Ho1, Hout0, <- app_assoc. reflexivity.
  - simpl. rewrite Hd1. exact Hn.
Qed.
End Loop.
End SingleOutputWidth.

Lemma single_output_rows_same_width_witness :
  exists header new width,
    context._output keep_context_done = context._output keep_context ++ header :: new
    /\ length header = width
    /\ Forall (fun row => length row = width) new.
Proof.
  apply (single_output_rows_same_width
           convertors.InputOutputConvertor.process_convertor
           keep_context keep_context_done).
  vm_compute. reflexivity.
Defined.

(** ** Column numbers and the replacement of a column in place *)

Section ColumnNumberFacts.
Implicit Types (c : context.Context) (hs : list pyval).

Lemma add_list l : forall ps ps',
  params.add ps l = Ok ps' -> params._list ps' = params._list ps ++ l.
Proof.
  induction l as [|p l IH]; simpl; intros ps ps' H.
  - injection H as <-. now rewrite app_nil_r.
  - destruct (params.append ps p) as [ps1|] eqn:E; simpl in H; [|discriminate].
    rewrite (IH _ _ H). unfold params.append in E.
    destruct (params._dist ps !! params.name p); [discriminate|].
    injection E as <-. simpl. now rewrite <- app_assoc.
Qed.

Lemma new_list l ps : params.new l = Ok ps -> params._list ps = l.
Proof. intros H. apply add_list in H. exact H. Qed.

Lemma new_getitem l ps p :
  params.new l = Ok ps -> In p l -> params.getitem ps (params.name p) = Some p.
Proof.
  intros H Hin. destruct (ParamSet_wf_new _ _ H) as [Hl _].
  apply Hl. now rewrite (new_list _ _ H).
Qed.

(** A parameter that is declared, not required and not supplied reads
    as its default value. *)
Lemma get_param_not_supplied c m n p :
  convertor_class.meta (context._convertor c) = Ok m ->
  params.getitem (convertor_class.params m) n = Some p ->
  params.required p = false ->
  params.kind p <> params.CollectionParam ->
  context._convertor_params c !! n = None ->
  context.get_param c n = Ok (params.default_value p).
Proof.
  intros Hm Hp Hreq Hkind Hnone. unfold context.get_param. rewrite Hm. simpl.
  assert (params.contains (convertor_class.params m) n = true) as ->
    by (apply contains_getitem; [eapply meta_wf; eauto | eauto]).
  simpl. rewrite Hp, Hreq, Hnone. simpl. unfold context.get_value.
  destruct (params.kind p); try reflexivity. congruence.
Qed.

(** What [get_column_number] returns is a subscript of the header row,
    or -1. *)
Lemma get_column_number_range name value c allow hs v :
  context._data c !! "headers" = Some (VList hs) ->
  context.get_column_number name value c allow = Ok v ->
  exists z, as_int v = Some z /\ -1 <= z < Z.of_nat (length hs).
Proof.
  intros Hd. unfold context.get_column_number, context.get_data. rewrite Hd. simpl.
  replace (if match hs with [] => false | _ => true end then Ok hs else Ok [])
    with (Ok hs : res (list pyval)) by (destruct hs; reflexivity).
  simpl. intros H.
  match type of H with
  | context [mbind _ ?m] => destruct m as [v1|] eqn:E1; simpl in H; [|discriminate]
  end.
  destruct (as_int v1) as [z|] eqn:Ez; [|discriminate].
  destruct (bool_decide (z < -1) || bool_decide (z >= Z.of_nat (length hs))) eqn:Eb.
  - destruct allow; [|discriminate]. injection H as <-. exists (-1). simpl.
    split; [reflexivity|].
    apply orb_true_iff in Eb as [Eb|Eb]; apply bool_decide_eq_true in Eb; lia.
  - injection H as <-. exists z. split; [exact Ez|].
    apply orb_false_iff in Eb as [E2 E3].
    apply bool_decide_eq_false in E2, E3. lia.
Qed.
End ColumnNumberFacts.

Section ColumnNumberContract.
Implicit Types (c : context.Context) (hs : list pyval).

Lemma py_list_index_bounds hs x idx :
  py_list_index hs x = Ok idx -> 0 <= idx < Z.of_nat (length hs).
Proof.
  revert idx. induction hs as [|y hs IH]; intros idx H; simpl in H; [discriminate|].
  destruct (py_eq y x).
  - injection H as <-. simpl. lia.
  - destruct (py_list_index hs x) as [k|]; simpl in H; [|discriminate].
    injection H as <-. specialize (IH k eq_refl). simpl length. lia.
Qed.

Lemma py_list_index_absent hs x :
  py_in x hs = false -> py_list_index hs x = Raise ValueError.
Proof.
  intros H. destruct (py_list_index hs x) as [k|e] eqn:E.
  - apply py_list_index_in in E. congruence.
  - apply py_list_index_raises in E as [-> _]. reflexivity.
Qed.

Lemma get_column_number_headers name value c allow hs :
  context._data c !! "headers" = Some (VList hs) ->
  context.get_column_number name value c allow
  = (value ← match value with
             | VStr s =>
                 match py_list_index hs value with
                 | Ok idx => Ok (VInt idx)
                 | Raise _ =>
                     if context.is_number_string s
                     then n ← context.int_of_number_string s; Ok (VInt n)
                     else if allow then Ok (VInt (-1))
                     else _ ← py_join "," hs; Raise ValueError
                 end
             | _ => Ok value
             end;
     match as_int value with
     | None => Raise TypeError
     | Some z =>
         if bool_decide (z < -1) || bool_decide (z >= Z.of_nat (length hs))
         then (if allow then Ok (VInt (-1)) else Raise ValueError)
         else Ok value
     end).
Proof.
  intros Hd. unfold context.get_column_number, context.get_data. rewrite Hd.
  destruct hs; reflexivity.
Qed.

Lemma get_column_number_denotes name c hs allow v idx :
  context._data c !! "headers" = Some (VList hs) ->
  denotes_column hs v idx ->
  context.get_column_number name v c allow = Ok (VInt idx).
Proof.
  intros Hd [(s & -> & H) | [-> H]].
  - rewrite (get_column_number_headers _ _ _ _ _ Hd), H. simpl.
    apply py_list_index_bounds in H.
    repeat case_bool_decide; try lia; reflexivity.
  - rewrite (get_column_number_headers _ _ _ _ _ Hd). simpl.
    repeat case_bool_decide; try lia; reflexivity.
Qed.

(** X4: [get_column_number] with the header row stored in the context.
    A string that is a column name gives the index of its first
    occurrence, also when it is written with digits; a string of decimal
    digits (of any script, a line end may follow them) that is no column
    name is read as the number it writes, and [ValueError] is raised
    when it has more than 4300 digits; an integer from -1 to the last
    index is returned as it is; a number out of that range gives -1 with
    [allow_error] and [ValueError] without; an unknown name that is no
    number gives -1 with [allow_error] and, without, [ValueError] when
    the header row holds strings only and [TypeError] when it does
    not. *)
Theorem column_number_contract name c hs allow :
  context._data c !! "headers" = Some (VList hs) ->
  (forall s idx,
     py_list_index hs (VStr s) = Ok idx ->
     0 <= idx < Z.of_nat (length hs)
     /\ context.get_column_number name (VStr s) c allow = Ok (VInt idx))
  /\ (forall s ds,
        py_in (VStr s) hs = false ->
        decimal_digits (context.number_string_body s) = Some ds -> ds <> [] ->
        0 <= number_of ds
        /\ context.get_column_number name (VStr s) c allow
           = if bool_decide (4300 < length ds)%nat then Raise ValueError
             else if bool_decide (number_of ds < Z.of_nat (length hs))
             then Ok (VInt (number_of ds))
             else if allow then Ok (VInt (-1)) else Raise ValueError)
  /\ (forall s,
        py_in (VStr s) hs = false ->
        decimal_value (context.number_string_body s) = None ->
        context.get_column_number name (VStr s) c allow
        = if allow then Ok (VInt (-1))
          else if forallb is_str hs then Raise ValueError else Raise TypeError)
  /\ (forall z,
        context.get_column_number name (VInt z) c allow
        = if bool_decide (-1 <= z < Z.of_nat (length hs)) then Ok (VInt z)
          else if allow then Ok (VInt (-1)) else Raise ValueError).
Proof.
  intros Hd. repeat split.
  - eapply py_list_index_bounds; eauto.
  - eapply py_list_index_bounds; eauto.
  - rewrite (get_column_number_headers _ _ _ _ _ Hd), H. simpl.
    apply py_list_index_bounds in H.
    repeat case_bool_decide; try lia; reflexivity.
  - apply number_of_nonneg. eapply decimal_digits_range; eauto.
  - pose proof (number_of_nonneg ds (decimal_digits_range _ _ H0)) as Hpos.
    rewrite (get_column_number_headers _ _ _ _ _ Hd),
      (py_list_index_absent _ _ H).
    unfold context.is_number_string, context.int_of_number_string, decimal_value.
    rewrite H0. destruct ds as [|d ds]; [contradiction|].
    case_bool_decide; [reflexivity|]. cbn [mbind res_bind as_int].
    repeat case_bool_decide; try lia; reflexivity.
  - intros s Hin Hnum.
    rewrite (get_column_number_headers _ _ _ _ _ Hd),
      (py_list_index_absent _ _ Hin).
    unfold context.is_number_string. rewrite Hnum.
    destruct allow.
    + simpl. repeat case_bool_decide; try lia; reflexivity.
    + destruct (forallb is_str hs) eqn:Et.
      * destruct (py_join_text "," hs Et) as [joined ->]. reflexivity.
      * rewrite (py_join_not_text "," hs Et). reflexivity.
  - intros z. rewrite (get_column_number_headers _ _ _ _ _ Hd). simpl.
    repeat case_bool_decide; try lia; reflexivity.
Qed.
End ColumnNumberContract.

Lemma column_number_contract_witness :
  0 <= 1 < Z.of_nat (length [VStr "a"; VStr "b"; VStr "c"])
  /\ context.get_column_number "input_col_idx" (VStr "b") headers_context false
     = Ok (VInt 1).
Proof.
  apply (proj1 (column_number_contract "input_col_idx" headers_context
                  [VStr "a"; VStr "b"; VStr "c"] false eq_refl) "b" 1).
  reflexivity.
Defined.

Section InPlace.
Import convertors convertors.InputOutputConvertor.
Implicit Types (c : context.Context) (self : Self) (rows : list pyval).

Lemma reorder_same_index {A} (l : list A) z k v :
  py_index l z = Some k -> -1 <= z ->
  reorder l (Some z) z v = Ok (<[k := v]> l).
Proof.
  intros Hk Hz. unfold reorder, py_pop. rewrite Hk. simpl.
  apply py_index_Some in Hk as [Hlt Hk].
  rewrite (bool_decide_eq_false_2 (z < z)) by lia. f_equal.
  rewrite insert_take_drop by exact Hlt.
  rewrite delete_take_drop.
  case_bool_decide as Hneg.
  - assert (z = -1) as -> by lia.
    assert (S k = length l) as Hlast by lia.
    unfold py_append. rewrite (drop_ge l (S k)) by lia.
    rewrite app_nil_r. reflexivity.
  - unfold py_insert.
    assert (py_clamp (take k l ++ drop (S k) l) z = k) as ->.
    { unfold py_clamp. rewrite bool_decide_eq_false_2 by lia.
      rewrite length_app, length_take, length_drop. lia. }
    rewrite take_app_length' by (rewrite length_take; lia).
    rewrite drop_app_length' by (rewrite length_take; lia).
    reflexivity.
Qed.

Lemma ioc_declared cls m p :
  convertor_class.base cls = convertor_class.InputOutputConvertor ->
  convertor_class.meta cls = Ok m ->
  In p convertor_class.InputOutputConvertor_params ->
  params.getitem (convertor_class.params m) (params.name p) = Some p.
Proof.
  intros Hb Hm Hin. unfold convertor_class.meta in Hm. rewrite Hb in Hm.
  destruct (params.new _) as [ps|] eqn:E; simpl in Hm; [|discriminate].
  injection Hm as <-. simpl.
  eapply new_getitem; [exact E|]. apply in_or_app. now left.
Qed.

Lemma get_param_meta c n v :
  context.get_param c n = Ok v ->
  exists m, convertor_class.meta (context._convertor c) = Ok m.
Proof.
  unfold context.get_param.
  destruct (convertor_class.meta _) as [m|]; [eauto | discriminate].
Qed.

(** What [preproc] leaves when neither the name nor the place of the
    output column is given. *)
Lemma preproc_in_place c ret self c' :
  convertor_class.base (context._convertor c)
    = convertor_class.InputOutputConvertor ->
  context._convertor_params c !! "output_col_name" = None ->
  context._convertor_params c !! "output_col_idx" = None ->
  preproc c = Ok (ret, self, c') ->
  exists z k,
    as_int (input_col_idx self) = Some z
    /\ -1 <= z
    /\ py_index (headers self) z = Some k
    /\ del_col self = input_col_idx self
    /\ output_col_idx self = input_col_idx self
    /\ headers self !! k = Some (output_col_name self).
Proof.
  intros Hbase Hname Hidx. unfold preproc, Convertor.preproc. intros H.
  destruct (context.next c) as [[hs c0]|] eqn:En; simpl in H; [|discriminate].
  assert (context._convertor c0 = context._convertor c
          /\ context._convertor_params c0 = context._convertor_params c)
    as [Hc0 Hp0].
  { unfold context.next in En. destruct (input.next _) as [[? ?]|]; [|discriminate].
    injection En as _ <-. split; reflexivity. }
  match type of H with
  | context [context.get_param ?c1 _] => set (cd := c1) in *
  end.
  assert (context._data cd !! "headers" = Some (VList hs)) as Hd.
  { subst cd. simpl. rewrite lookup_insert_ne by discriminate.
    apply lookup_insert_eq. }
  destruct (context.get_param cd "input_col_idx") as [ici|] eqn:Ei; simpl in H;
    [|discriminate].
  destruct (get_param_meta _ _ _ Ei) as [m Hm].
  assert (convertor_class.base (context._convertor cd)
          = convertor_class.InputOutputConvertor) as Hb by (subst cd; simpl; congruence).
  rewrite (get_param_not_supplied cd m "output_col_name" _ Hm
             (ioc_declared _ m _ Hb Hm ltac:(right; left; reflexivity))
             eq_refl ltac:(discriminate)) in H
    by (subst cd; simpl; congruence).
  rewrite (get_param_not_supplied cd m "output_col_idx" _ Hm
             (ioc_declared _ m _ Hb Hm ltac:(right; right; left; reflexivity))
             eq_refl ltac:(discriminate)) in H
    by (subst cd; simpl; congruence).
  simpl in H.
  destruct (context.get_param cd "overwrite") as [ow|]; simpl in H; [|discriminate].
  destruct (py_subscript hs ici) as [name|] eqn:Es; simpl in H; [|discriminate].
  unfold py_subscript in Es. destruct (as_int ici) as [z|] eqn:Ez; [|discriminate].
  assert (is_None ici = false) as Hnn by (destruct ici; try reflexivity; discriminate).
  rewrite Hnn in H. injection H as <- <- <-. simpl.
  unfold py_getitem in Es. destruct (py_index hs z) as [k|] eqn:Ek; [|discriminate].
  destruct (hs !! k) as [x|] eqn:Ex; [|discriminate]. injection Es as ->.
  exists z, k. repeat split; try assumption.
  (* the number comes from [get_column_number] *)
  unfold context.get_param in Ei. rewrite Hm in Ei. simpl in Ei.
  destruct (negb _); [discriminate|].
  pose proof (ioc_declared _ m _ Hb Hm ltac:(left; reflexivity)) as Hg.
  simpl in Hg. rewrite Hg in Ei. simpl in Ei.
  destruct (negb _); [discriminate|]. simpl in Ei.
  unfold context.get_value in Ei. simpl in Ei.
  destruct (is_None _).
  - injection Ei as <-. discriminate.
  - apply (get_column_number_range _ _ _ _ hs) in Ei as (z' & Hz' & Hr); [|exact Hd].
    rewrite Ez in Hz'. injection Hz' as <-. lia.
Qed.

Lemma reorder_attrs_in_place self z k (l : list pyval) v :
  as_int (input_col_idx self) = Some z -> -1 <= z ->
  del_col self = input_col_idx self ->
  output_col_idx self = input_col_idx self ->
  py_index l z = Some k ->
  reorder_attrs self l v = Ok (<[k := v]> l).
Proof.
  intros Hz Hge Hdel Hout Hk. unfold reorder_attrs, as_optional_index, as_index.
  rewrite Hdel, Hout, Hz.
  destruct (input_col_idx self); try discriminate; simpl;
    now apply reorder_same_index.
Qed.

Section Record.
Variable process_convertor : Self -> list pyval -> context.Context -> res pyval.

(** X5: an [InputOutputConvertor] that is given neither the name nor
    the position of the output column replaces the input column in
    place: the header row is written as it is, and a row that is
    written differs from the row read in the field of the input column
    at most. *)
Theorem single_output_in_place c ret self c' :
  convertor_class.base (context._convertor c)
    = convertor_class.InputOutputConvertor ->
  context._convertor_params c !! "output_col_name" = None ->
  context._convertor_params c !! "output_col_idx" = None ->
  preproc c = Ok (ret, self, c') ->
  exists z,
    as_int (input_col_idx self) = Some z
    /\ -1 <= z < len (headers self)
    /\ (forall c0,
          process_header self (headers self) c0
          = Ok (context.output c0 (headers self)))
    /\ (forall rows c0 c1,
          length rows = length (headers self) ->
          process_record process_convertor self rows c0 = Ok c1 ->
          c1 = c0
          \/ exists x,
               c1 = context.output c0
                      (<[position (length rows) z := x]> rows)).
Proof.
  intros Hbase Hname Hidx Hpre.
  destruct (preproc_in_place _ _ _ _ Hbase Hname Hidx Hpre)
    as (z & k & Hz & Hge & Hk & Hdel & Hout & Hhead).
  destruct (py_index_Some _ _ _ Hk) as [Hlt Hkz].
  assert (z < Z.of_nat (length (headers self))) as Hzlt
    by (case_bool_decide; lia).
  exists z. split; [exact Hz|]. split; [unfold len; lia|]. split.
  - intros c0. unfold process_header.
    rewrite (reorder_attrs_in_place self z k _ _ Hz Hge Hdel Hout Hk).
    simpl. now rewrite list_insert_id.
  - intros rows c0 c1 Hlen H.
    assert (py_index rows z = Some (position (length rows) z)) as Hkr.
    { unfold position. apply py_index_valid. rewrite Hlen. lia. }
    unfold process_record in H.
    destruct (need_value self rows) as [[|]|]; simpl in H; [| |discriminate].
    + destruct (process_convertor self rows c0) as [value|]; simpl in H;
        [|discriminate].
      destruct (is_False value); [injection H as <-; now left|].
      rewrite (reorder_attrs_in_place self z _ _ _ Hz Hge Hdel Hout Hkr) in H.
      injection H as <-. right. eauto.
    + destruct (py_subscript rows (del_col self)) as [value|]; simpl in H;
        [|discriminate].
      rewrite (reorder_attrs_in_place self z _ _ _ Hz Hge Hdel Hout Hkr) in H.
      injection H as <-. right. eauto.
Qed.
End Record.
End InPlace.

Lemma single_output_in_place_witness :
  exists z,
    as_int (convertors.InputOutputConvertor.input_col_idx in_place_self) = Some z
    /\ -1 <= z < convertors.len (convertors.InputOutputConvertor.headers in_place_self)
    /\ (forall c0,
          convertors.InputOutputConvertor.process_header in_place_self
            (convertors.InputOutputConvertor.headers in_place_self) c0
          = Ok (context.output c0
                  (convertors.InputOutputConvertor.headers in_place_self)))
    /\ (forall rows c0 c1,
          length rows
          = length (convertors.InputOutputConvertor.headers in_place_self) ->
          convertors.InputOutputConvertor.process_record
            convertors.InputOutputConvertor.process_convertor in_place_self rows c0
          = Ok c1 ->
          c1 = c0
          \/ exists x,
               c1 = context.output c0 (<[position (length rows) z := x]> rows)).
Proof.
  apply (single_output_in_place convertors.InputOutputConvertor.process_convertor
           in_place_context (VBool true) in_place_self in_place_context_after);
    vm_compute; reflexivity.
Defined.

(** ** The column convertors *)

Section BasicsFacts.
Import convertors basics.
Implicit Types (c : context.Context) (hs : list pyval) (rows : list (list pyval)).

Lemma convertor_declared cls m p :
  convertor_class.base cls = convertor_class.Convertor ->
  convertor_class.meta cls = Ok m ->
  In p (convertor_class.Meta_params cls) ->
  params.getitem (convertor_class.params m) (params.name p) = Some p.
Proof.
  intros Hb Hm Hin. unfold convertor_class.meta in Hm. rewrite Hb in Hm.
  destruct (params.new _) as [ps|] eqn:E; simpl in Hm; [|discriminate].
  injection Hm as <-. simpl. eapply new_getitem; eauto.
Qed.

Lemma get_param_supplied c m n p v :
  convertor_class.meta (context._convertor c) = Ok m ->
  params.getitem (convertor_class.params m) n = Some p ->
  context._convertor_params c !! n = Some v ->
  context.get_param c n = context.get_value p v c.
Proof.
  intros Hm Hp Hv. unfold context.get_param. rewrite Hm. simpl.
  assert (params.contains (convertor_class.params m) n = true) as ->
    by (apply contains_getitem; [eapply meta_wf; eauto | eauto]).
  simpl. rewrite Hp, Hv. simpl. rewrite andb_false_r. reflexivity.
Qed.

(** A column given by its name through an [InputAttributeParam] or an
    [OutputAttributeParam]. *)
Lemma get_param_column_name c m n p s hs idx :
  convertor_class.meta (context._convertor c) = Ok m ->
  params.getitem (convertor_class.params m) n = Some p ->
  params.kind p = params.InputAttributeParam
  \/ params.kind p = params.OutputAttributeParam ->
  context._convertor_params c !! n = Some (VStr s) ->
  context._data c !! "headers" = Some (VList hs) ->
  py_list_index hs (VStr s) = Ok idx ->
  context.get_param c n = Ok (VInt idx).
Proof.
  intros Hm Hp Hk Hv Hd Hi.
  rewrite (get_param_supplied _ _ _ _ _ Hm Hp Hv). unfold context.get_value.
  destruct Hk as [-> | ->]; cbn -[context.get_column_number];
    apply (get_column_number_denotes _ _ hs _ _ _ Hd); left; eauto.
Qed.

Lemma denotes_column_bounds hs v idx :
  denotes_column hs v idx -> 0 <= idx < Z.of_nat (length hs).
Proof.
  intros [(s & -> & H) | [-> H]]; [eapply py_list_index_bounds; eauto | exact H].
Qed.

Lemma get_param_column c m n p v hs idx :
  convertor_class.meta (context._convertor c) = Ok m ->
  params.getitem (convertor_class.params m) n = Some p ->
  params.kind p = params.InputAttributeParam
  \/ params.kind p = params.OutputAttributeParam ->
  context._convertor_params c !! n = Some v ->
  context._data c !! "headers" = Some (VList hs) ->
  denotes_column hs v idx ->
  context.get_param c n = Ok (VInt idx).
Proof.
  intros Hm Hp Hk Hv Hd [(s & -> & Hi) | [-> Hi]].
  - eapply get_param_column_name; eauto.
  - rewrite (get_param_supplied _ _ _ _ _ Hm Hp Hv). unfold context.get_value.
    destruct Hk as [-> | ->]; cbn -[context.get_column_number];
      apply (get_column_number_denotes _ _ hs _ _ _ Hd); right; auto.
Qed.

(** [Convertor.preproc] on an input at its start. *)
Lemma preproc_at_start c hs rows :
  input._array (context._input c) = hs :: rows ->
  input._current (context._input c) = 0%nat ->
  Convertor.preproc c
  = Ok ({| Convertor.headers := hs; Convertor.num_of_columns := len hs |},
        context.set_data
          (context.set_data
             (context.with_input c
                {| input._array := hs :: rows; input._current := 1 |} (VList hs))
             "headers" (VList hs))
          "num_of_columns" (VInt (len hs))).
Proof.
  intros Ha Hc. unfold Convertor.preproc, context.next, input.next.
  rewrite Ha, Hc. reflexivity.
Qed.




(** *** [delete_col] *)





(** *** [move_col] *)

Lemma get_param_reads c m n p hs read :
  convertor_class.meta (context._convertor c) = Ok m ->
  params.getitem (convertor_class.params m) n = Some p ->
  params.kind p = params.OutputAttributeParam ->
  params.required p = false ->
  params.default_value p = VNone ->
  context._data c !! "headers" = Some (VList hs) ->
  reads_column hs (context._convertor_params c !! n) read ->
  context.get_param c n = Ok read.
Proof.
  intros Hm Hp Hk Hreq Hdef Hd Hr.
  destruct (context._convertor_params c !! n) as [v|] eqn:Hv; simpl in Hr.
  - destruct Hr as (idx & Hcol & ->).
    eapply get_param_column; eauto.
  - subst read. rewrite <- Hdef.
    apply (get_param_not_supplied c m n p); auto. rewrite Hk. discriminate.
Qed.









(** *** [rename_col] and [rename_cols] *)

(** A parameter of the plain kind whose default is [None] reads as the
    value that is supplied. *)
Lemma get_param_plain c m n p v :
  convertor_class.meta (context._convertor c) = Ok m ->
  params.getitem (convertor_class.params m) n = Some p ->
  params.kind p = params.PlainParam ->
  params.default_value p = VNone ->
  context._convertor_params c !! n = Some v ->
  context.get_param c n = Ok v.
Proof.
  intros Hm Hp Hk Hdef Hv.
  rewrite (get_param_supplied _ _ _ _ _ Hm Hp Hv). unfold context.get_value.
  rewrite Hk, Hdef. destruct v; reflexivity.
Qed.



Lemma rename_cols_meta :
  exists m, convertor_class.meta RenameColsConvertor.cls = Ok m.
Proof. vm_compute. eauto. Qed.

(** X11: [rename_cols] with a list of names: when the list is not as long
    as the header row, the run raises [ValueError]; when it is, the list
    is written as the header row, followed by the rows of that width as
    they are (rows of another width, which hold strings only, are
    skipped). *)
Theorem rename_cols_checks_length c hs rows names :
  context._convertor c = RenameColsConvertor.cls ->
  context._convertor_params c !! "column_list" = Some (VList names) ->
  input._array (context._input c) = hs :: rows ->
  input._current (context._input c) = 0%nat ->
  skipped_rows_are_text hs rows = true ->
  (length names <> length hs -> RenameColsConvertor.process c = Raise ValueError)
  /\ (length names = length hs ->
      exists c',
        RenameColsConvertor.process c = Ok c'
        /\ context._output c' = context._output c ++ names :: rows_of_width hs rows).
Proof.
  intros Hcls Hnames Ha Hc Hskip.
  destruct rename_cols_meta as [m Hm].
  unfold RenameColsConvertor.process, Convertor.process, base_preproc.
  rewrite (preproc_at_start c hs rows Ha Hc). cbn [mbind res_bind is_False].
  unfold context.next, input.next. cbn.
  unfold RenameColsConvertor.process_header.
  match goal with
  | |- context [context.get_param ?cd _] => set (c1 := cd)
  end.
  assert (context.get_param c1 "column_list" = Ok (VList names)) as ->.
  { eapply (get_param_plain c1 m "column_list"); eauto.
    - subst c1. cbn. rewrite Hcls. exact Hm.
    - apply (convertor_declared RenameColsConvertor.cls m
               {| params.name := "column_list"; params.required := true;
                  params.default_value := VNone;
                  params.kind := params.PlainParam |});
        [reflexivity | exact Hm | now left].
    - reflexivity.
    - reflexivity. }
  cbn [mbind res_bind py_len py_iter]. unfold len. split; intros Hlen.
  - replace (Z.eqb (Z.of_nat (length hs)) (Z.of_nat (length names))) with false
      by (symmetry; apply Z.eqb_neq; lia).
    reflexivity.
  - rewrite Hlen, Z.eqb_refl. cbn [negb mbind res_bind]. subst c1. cbn.
    match goal with
    | |- context [Convertor.process_rows _ _ ?self _ ?c2] =>
        destruct (process_rows_base self hs rows c2) as (c' & Hrun & Hout)
    end.
    + cbn. apply lookup_insert_eq.
    + exact Hskip.
    + exists c'. rewrite drop_0. split; [exact Hrun|].
      rewrite Hout. cbn. rewrite <- app_assoc. reflexivity.
Qed.

(** *** [reorder_cols], [insert_col] and [select_row_match] *)

(** The loop of [process] for a [process_record] that writes a row, or
    none, and leaves the rest of the context alone. *)
Lemma process_rows_writing {Inst} (self : Inst)
    (hook : Inst -> list pyval -> context.Context -> res context.Context)
    (I : context.Context -> Prop) (h : list pyval -> option (list pyval)) hs :
  (forall c i cur, I c -> I (context.with_input c i cur)) ->
  (forall c r, I c -> I (context.output c r)) ->
  (forall c, I c ->
     context._data c !! "num_of_columns" = Some (VInt (len hs))) ->
  (forall r c, I c -> length r = length hs ->
     hook self r c
     = Ok (match h r with Some r' => context.output c r' | None => c end)) ->
  forall remaining c,
    I c ->
    skipped_rows_are_text hs remaining = true ->
    exists c',
      Convertor.process_rows (fun _ => Convertor.check_record) hook self remaining c
      = Ok c'
      /\ context._output c'
         = context._output c ++ omap h (rows_of_width hs remaining).
Proof.
  intros Hin Hout Hn Hhook.
  induction remaining as [|r remaining IH]; intros c Hc Hskip.
  - exists c. simpl. rewrite app_nil_r. auto.
  - apply skipped_rows_cons in Hskip as [Hr Hskip].
    cbn [Convertor.process_rows].
    match goal with
    | |- context [Convertor.check_record r ?c1] =>
        assert (I c1) as Hc1 by (apply Hin; exact Hc); set (cn := c1) in *
    end.
    erewrite check_record_width by (apply Hn; exact Hc1).
    cbn [rows_of_width List.filter].
    unfold len. destruct (Nat.eqb_spec (length r) (length hs)) as [E|E].
    + rewrite E, Z.eqb_refl. rewrite (Hhook r cn Hc1 E).
      cbn [omap list_omap]. destruct (h r) as [r'|].
      * destruct (IH (context.output cn r')) as (c' & -> & Ho);
          [apply Hout; exact Hc1 | exact Hskip |].
        exists c'. split; [reflexivity|]. rewrite Ho. cbn.
        rewrite <- app_assoc. reflexivity.
      * destruct (IH cn Hc1 Hskip) as (c' & -> & Ho).
        exists c'. split; [reflexivity|]. exact Ho.
    + replace (Z.eqb (Z.of_nat (length hs)) (Z.of_nat (length r))) with false
        by (symmetry; apply Z.eqb_neq; lia).
      destruct (Hr E) as [joined ->].
      destruct (IH cn Hc1 Hskip) as (c' & -> & Ho).
      exists c'. split; [reflexivity|]. exact Ho.
Qed.

Lemma omap_Some_map {A B} (g : A -> B) (l : list A) :
  omap (fun x => Some (g x)) l = List.map g l.
Proof. induction l as [|x l IH]; [reflexivity|]. cbn. now rewrite IH. Qed.

Lemma py_eq_VStr y s : py_eq y (VStr s) = true -> y = VStr s.
Proof.
  destruct y; simpl; try discriminate. intros H%String.eqb_eq. now subst.
Qed.

Lemma py_list_index_lookup hs x idx :
  py_list_index hs x = Ok idx ->
  exists y, hs !! Z.to_nat idx = Some y /\ py_eq y x = true.
Proof.
  revert idx. induction hs as [|y hs IH]; intros idx H; simpl in H; [discriminate|].
  destruct (py_eq y x) eqn:E.
  - injection H as <-. exists y. auto.
  - destruct (py_list_index hs x) as [k|] eqn:Ek; simpl in H; [|discriminate].
    injection H as <-. destruct (IH k eq_refl) as (z & Hz & Hzx).
    pose proof (py_list_index_bounds _ _ _ Ek).
    exists z. split; [|exact Hzx].
    replace (Z.to_nat (k + 1)) with (S (Z.to_nat k)) by lia. exact Hz.
Qed.

Lemma py_in_index hs x :
  py_in x hs = true -> exists idx, py_list_index hs x = Ok idx.
Proof.
  intros H. destruct (py_list_index hs x) as [k|e] eqn:E; [eauto|].
  apply py_list_index_raises in E as [_ E]. congruence.
Qed.

Lemma reorder_cols_meta :
  exists m, convertor_class.meta ReorderColsConvertor.cls = Ok m.
Proof. vm_compute. eauto. Qed.

Lemma missed_names hs (names : list string) :
  List.filter (ReorderColsConvertor.missed hs) (VStr <$> names) = [] <->
  forall s, s ∈ names -> py_in (VStr s) hs = true.
Proof.
  induction names as [|s names IH]; simpl.
  - split; [intros _ s Hs; inversion Hs | reflexivity].
  - destruct (py_in (VStr s) hs) eqn:E; simpl.
    + rewrite IH. split.
      * intros H t Ht. apply elem_of_cons in Ht as [->|Ht]; auto.
      * intros H t Ht. apply H. now right.
    + split; [discriminate|]. intros H.
      specialize (H s ltac:(left)). congruence.
Qed.

Lemma reorder_mapping hs (names : list string) :
  (forall s, s ∈ names -> py_in (VStr s) hs = true) ->
  for_each (fun idx => match idx with
                       | VStr _ => i ← py_list_index hs idx; Ok (VInt i)
                       | _ => Ok idx
                       end) (VStr <$> names)
  = Ok ((fun s => VInt (Z.of_nat (column_of hs s))) <$> names).
Proof.
  induction names as [|s names IH]; intros H; [reflexivity|].
  cbn [fmap list_fmap for_each].
  destruct (py_in_index hs (VStr s) (H s ltac:(left))) as [k Hk].
  rewrite Hk. cbn [mbind res_bind].
  change (list_fmap string pyval VStr names) with (VStr <$> names).
  rewrite IH by (intros t Ht; apply H; now right). cbn [mbind res_bind].
  unfold column_of. rewrite Hk.
  pose proof (py_list_index_bounds _ _ _ Hk). rewrite Z2Nat.id by lia.
  reflexivity.
Qed.

Lemma py_subscript_nat (r : list pyval) (n : nat) x :
  r !! n = Some x -> py_subscript r (VInt (Z.of_nat n)) = Ok x.
Proof.
  intros Hx. pose proof (lookup_lt_Some _ _ _ Hx).
  unfold py_subscript, py_getitem, py_index. cbn [as_int].
  rewrite bool_decide_eq_true_2 by lia. now rewrite Nat2Z.id, Hx.
Qed.

Lemma reorder_picks hs (names : list string) (r : list pyval) :
  (forall s, s ∈ names -> py_in (VStr s) hs = true) ->
  length r = length hs ->
  for_each (fun idx => py_subscript r idx)
    ((fun s => VInt (Z.of_nat (column_of hs s))) <$> names)
  = Ok (picked hs names r).
Proof.
  intros H Hr. unfold picked.
  induction names as [|s names IH]; [reflexivity|].
  cbn [fmap list_fmap for_each omap list_omap].
  destruct (py_in_index hs (VStr s) (H s ltac:(left))) as [k Hk].
  pose proof (py_list_index_bounds _ _ _ Hk) as Hb.
  assert (column_of hs s < length r)%nat as Hlt
    by (unfold column_of; rewrite Hk; lia).
  destruct (lookup_lt_is_Some_2 r _ Hlt) as [x Hx].
  rewrite (py_subscript_nat r _ x Hx), Hx. cbn [mbind res_bind].
  change (list_fmap string pyval (fun s0 => VInt (Z.of_nat (column_of hs s0))) names)
    with ((fun s0 => VInt (Z.of_nat (column_of hs s0))) <$> names).
  rewrite IH by (intros t Ht; apply H; now right). reflexivity.
Qed.

Lemma picked_headers hs (names : list string) :
  (forall s, s ∈ names -> py_in (VStr s) hs = true) ->
  picked hs names hs = VStr <$> names.
Proof.
  intros H. unfold picked.
  induction names as [|s names IH]; [reflexivity|].
  cbn [omap list_omap fmap list_fmap].
  destruct (py_in_index hs (VStr s) (H s ltac:(left))) as [k Hk].
  destruct (py_list_index_lookup _ _ _ Hk) as (y & Hy & Heq).
  apply py_eq_VStr in Heq. subst y.
  unfold column_of at 1. rewrite Hk, Hy. f_equal.
  apply IH. intros t Ht. apply H. now right.
Qed.

(** X12: [reorder_cols] with a list of names. When a name of the list is
    no column name, the run raises [ValueError] (in [preproc], before
    anything is written). When all are, the header row that is written is
    the list itself and every row of the width of the input header row is
    written as its fields at the columns of the names, in the order of the
    list (rows of another width, which hold strings only, are skipped). *)
Theorem reorder_cols_by_names c hs rows (names : list string) :
  context._convertor c = ReorderColsConvertor.cls ->
  context._convertor_params c !! "column_list" = Some (VList (VStr <$> names)) ->
  input._array (context._input c) = hs :: rows ->
  input._current (context._input c) = 0%nat ->
  skipped_rows_are_text hs rows = true ->
  ((exists s, s ∈ names /\ py_in (VStr s) hs = false) ->
   ReorderColsConvertor.process c = Raise ValueError)
  /\ ((forall s, s ∈ names -> py_in (VStr s) hs = true) ->
      exists c',
        ReorderColsConvertor.process c = Ok c'
        /\ context._output c'
           = context._output c
             ++ (VStr <$> names)
                :: List.map (picked hs names) (rows_of_width hs rows)).
Proof.
  intros Hcls Hnames Ha Hc Hskip.
  destruct reorder_cols_meta as [m Hm].
  unfold ReorderColsConvertor.process, Convertor.process,
    ReorderColsConvertor.preproc.
  rewrite (preproc_at_start c hs rows Ha Hc). cbn [mbind res_bind].
  match goal with
  | |- context [context.get_param ?cd _] => set (c1 := cd)
  end.
  assert (context.get_param c1 "column_list" = Ok (VList (VStr <$> names))) as ->.
  { eapply (get_param_plain c1 m "column_list"); eauto.
    - subst c1. cbn. rewrite Hcls. exact Hm.
    - apply (convertor_declared ReorderColsConvertor.cls m
               {| params.name := "column_list"; params.required := true;
                  params.default_value := VNone;
                  params.kind := params.PlainParam |});
        [reflexivity | exact Hm | now left].
    - reflexivity.
    - reflexivity. }
  cbn [mbind res_bind py_iter Convertor.headers]. split.
  - intros (s & Hs & Hmiss).
    destruct (List.filter _ _) as [|x l] eqn:E.
    + pose proof (proj1 (missed_names hs names) E) as E'.
      rewrite (E' s Hs) in Hmiss. discriminate.
    + rewrite bool_decide_eq_true_2 by (unfold len; simpl; lia). reflexivity.
  - intros Hall. rewrite (proj2 (missed_names hs names) Hall).
    rewrite bool_decide_eq_false_2 by (unfold len; simpl; lia).
    rewrite (reorder_mapping hs names Hall).
    cbn [mbind res_bind is_False].
    unfold context.next, input.next. subst c1. cbn.
    unfold ReorderColsConvertor.process_header, ReorderColsConvertor.reorder.
    cbn [ReorderColsConvertor.mapping].
    rewrite (reorder_picks hs names hs Hall eq_refl). cbn [mbind res_bind].
    rewrite (picked_headers hs names Hall).
    match goal with
    | |- context [Convertor.process_rows _ _ ?self _ ?c2] =>
        destruct (process_rows_writing self ReorderColsConvertor.process_record
                    (fun c0 => context._data c0 !! "num_of_columns"
                               = Some (VInt (len hs)))
                    (fun r => Some (picked hs names r)) hs
                    (fun c0 i cur H => H) (fun c0 r H => H) (fun c0 H => H))
          with (remaining := rows) (c := c2)
          as (c' & Hrun & Hout)
    end.
    + intros r c0 _ Hr. unfold ReorderColsConvertor.process_record,
        ReorderColsConvertor.reorder. cbn [ReorderColsConvertor.mapping].
      rewrite (reorder_picks hs names r Hall Hr). reflexivity.
    + cbn. apply lookup_insert_eq.
    + exact Hskip.
    + exists c'. rewrite ?drop_0. split; [exact Hrun|].
      rewrite Hout, omap_Some_map. cbn. rewrite <- app_assoc. reflexivity.
Qed.

Lemma get_param_optional_plain c m n p :
  convertor_class.meta (context._convertor c) = Ok m ->
  params.getitem (convertor_class.params m) n = Some p ->
  params.kind p = params.PlainParam ->
  params.required p = false ->
  context.get_param c n
  = Ok (supplied_or (context._convertor_params c !! n) (params.default_value p)).
Proof.
  intros Hm Hp Hk Hreq.
  destruct (context._convertor_params c !! n) as [v|] eqn:Hv.
  - rewrite (get_param_supplied _ _ _ _ _ Hm Hp Hv). unfold context.get_value.
    rewrite Hk. simpl. destruct (is_None v); reflexivity.
  - apply (get_param_not_supplied c m n p); auto. rewrite Hk. discriminate.
Qed.




Lemma select_row_meta :
  exists m, convertor_class.meta StringMatchSelectRowConvertor.cls = Ok m.
Proof. vm_compute. eauto. Qed.

Lemma omap_filter {A} (k : A -> bool) (l : list A) :
  omap (fun x => if k x then Some x else None) l = List.filter k l.
Proof.
  induction l as [|x l IH]; [reflexivity|]. cbn.
  destruct (k x); now rewrite IH.
Qed.

(** X14: [select_row_match] writes the header row and then, of the rows of
    its width, exactly those whose field in the column is equal to the
    query, in their order. Rows of another width, which hold strings only,
    are skipped. *)
Theorem select_row_match_filters c hs rows v i q :
  context._convertor c = StringMatchSelectRowConvertor.cls ->
  context._convertor_params c !! "input_col_idx" = Some v ->
  denotes_column hs v i ->
  context._convertor_params c !! "query" = Some q ->
  input._array (context._input c) = hs :: rows ->
  input._current (context._input c) = 0%nat ->
  skipped_rows_are_text hs rows = true ->
  exists c',
    StringMatchSelectRowConvertor.process c = Ok c'
    /\ context._output c'
       = context._output c
         ++ hs :: List.filter (selects q (Z.to_nat i)) (rows_of_width hs rows).
Proof.
  intros Hcls Hv Hcol Hq Ha Hc Hskip.
  pose proof (denotes_column_bounds _ _ _ Hcol) as Hi.
  destruct select_row_meta as [m Hm].
  unfold StringMatchSelectRowConvertor.process, Convertor.process, base_preproc.
  rewrite (preproc_at_start c hs rows Ha Hc). cbn [mbind res_bind is_False].
  unfold context.next, input.next. cbn.
  match goal with
  | |- context [Convertor.process_rows _ _ ?self _ ?c2] =>
      destruct (process_rows_writing self StringMatchSelectRowConvertor.process_record
                  (fun c0 =>
                     context._convertor c0 = StringMatchSelectRowConvertor.cls
                     /\ context._convertor_params c0 = context._convertor_params c
                     /\ context._data c0 = context._data c2)
                  (fun r => if selects q (Z.to_nat i) r then Some r else None) hs)
        with (remaining := rows) (c := c2)
        as (c' & Hrun & Hout)
  end.
  - intros c0 j cur H. exact H.
  - intros c0 r H. exact H.
  - intros c0 (_ & _ & ->). cbn. apply lookup_insert_eq.
  - intros r c0 (Hc0 & Hp0 & Hd0) Hr.
    unfold StringMatchSelectRowConvertor.process_record.
    assert (convertor_class.meta (context._convertor c0) = Ok m) as Hm0
      by (rewrite Hc0; exact Hm).
    rewrite (get_param_column c0 m "input_col_idx" input_col_idx_param v hs i);
      auto.
    2:{ apply (convertor_declared StringMatchSelectRowConvertor.cls m
                 input_col_idx_param); [reflexivity | exact Hm | now left]. }
    2:{ rewrite Hp0. exact Hv. }
    2:{ rewrite Hd0. cbn. rewrite lookup_insert_ne by discriminate.
        apply lookup_insert_eq. }
    cbn [mbind res_bind].
    rewrite (get_param_plain c0 m "query"
               {| params.name := "query"; params.required := true;
                  params.default_value := VNone;
                  params.kind := params.PlainParam |} q); auto.
    2:{ apply (convertor_declared StringMatchSelectRowConvertor.cls m
                 {| params.name := "query"; params.required := true;
                    params.default_value := VNone;
                    params.kind := params.PlainParam |});
          [reflexivity | exact Hm | right; now left]. }
    2:{ rewrite Hp0. exact Hq. }
    cbn [mbind res_bind].
    assert (Z.to_nat i < length r)%nat as Hlt by lia.
    destruct (lookup_lt_is_Some_2 r _ Hlt) as [x Hx].
    rewrite <- (Z2Nat.id i) at 1 by lia.
    rewrite (py_subscript_nat r _ x Hx). cbn [mbind res_bind].
    unfold selects. rewrite Hx. destruct (py_eq q x); reflexivity.
  - cbn. auto.
  - exact Hskip.
  - exists c'. rewrite ?drop_0. split; [exact Hrun|].
    rewrite Hout, omap_filter. cbn. rewrite <- app_assoc. reflexivity.
Qed.

(** *** [delete_cols] *)









End BasicsFacts.

Lemma sample_denotes_a : denotes_column [VStr "a"; VStr "b"; VStr "c"] (VStr "a") 0.
Proof. left. exists "a". split; reflexivity. Qed.


Lemma delete_b_denotes : denotes_column [VStr "a"; VStr "b"; VStr "c"] (VStr "b") 1.
Proof. left. exists "b". split; reflexivity. Qed.






Lemma rename_cols_checks_length_witness :
  (length [VStr "x"; VStr "y"; VStr "z"] <> length [VStr "a"; VStr "b"; VStr "c"] ->
   basics.RenameColsConvertor.process rename_all_context = Raise ValueError)
  /\ (length [VStr "x"; VStr "y"; VStr "z"] = length [VStr "a"; VStr "b"; VStr "c"] ->
      exists c',
        basics.RenameColsConvertor.process rename_all_context = Ok c'
        /\ context._output c'
           = context._output rename_all_context
             ++ [VStr "x"; VStr "y"; VStr "z"]
                :: rows_of_width [VStr "a"; VStr "b"; VStr "c"]
                     [ [VStr "1"; VStr ""; VStr "3"]; [VStr "4"; VStr "5"; VStr "6"] ]).
Proof.
  apply (rename_cols_checks_length rename_all_context); reflexivity.
Defined.

Lemma reorder_cols_by_names_witness :
  ((exists s, s ∈ ["c"; "a"] /\ py_in (VStr s) [VStr "a"; VStr "b"; VStr "c"] = false) ->
   basics.ReorderColsConvertor.process reorder_context = Raise ValueError)
  /\ ((forall s, s ∈ ["c"; "a"] -> py_in (VStr s) [VStr "a"; VStr "b"; VStr "c"] = true) ->
      exists c',
        basics.ReorderColsConvertor.process reorder_context = Ok c'
        /\ context._output c'
           = context._output reorder_context
             ++ (VStr <$> ["c"; "a"])
                :: List.map (picked [VStr "a"; VStr "b"; VStr "c"] ["c"; "a"])
                     (rows_of_width [VStr "a"; VStr "b"; VStr "c"]
                        [ [VStr "1"; VStr ""; VStr "3"];
                          [VStr "4"; VStr "5"; VStr "6"] ])).
Proof.
  apply (reorder_cols_by_names reorder_context); reflexivity.
Defined.



Lemma select_row_match_filters_witness :
  exists c',
    basics.StringMatchSelectRowConvertor.process select_context = Ok c'
    /\ context._output c'
       = context._output select_context
         ++ [VStr "a"; VStr "b"; VStr "c"]
            :: List.filter (selects (VStr "4") (Z.to_nat 0))
                 (rows_of_width [VStr "a"; VStr "b"; VStr "c"]
                    [ [VStr "1"; VStr ""; VStr "3"]; [VStr "4"; VStr "5"; VStr "6"] ]).
Proof.
  apply (select_row_match_filters select_context _ _ (VStr "a") 0 (VStr "4"));
    [reflexivity | reflexivity | exact sample_denotes_a | reflexivity
    | reflexivity | reflexivity | reflexivity].
Defined.


(** ** More column and row convertors *)

Section BasicsMore.
Import convertors basics.
Implicit Types (c : context.Context) (hs : list pyval) (rows : list (list pyval)).

(** The loop over the rows for a hook that writes a row or nothing and
    is known on the rows that satisfy [P]. *)
Lemma process_rows_writing_on {Inst} (self : Inst)
    (hook : Inst -> list pyval -> context.Context -> res context.Context)
    (I : context.Context -> Prop) (P : list pyval -> Prop)
    (h : list pyval -> option (list pyval)) hs :
  (forall c i cur, I c -> I (context.with_input c i cur)) ->
  (forall c r, I c -> I (context.output c r)) ->
  (forall c, I c ->
     context._data c !! "num_of_columns" = Some (VInt (len hs))) ->
  (forall r c, I c -> length r = length hs -> P r ->
     hook self r c
     = Ok (match h r with Some r' => context.output c r' | None => c end)) ->
  forall remaining c,
    I c ->
    Forall P (rows_of_width hs remaining) ->
    skipped_rows_are_text hs remaining = true ->
    exists c',
      Convertor.process_rows (fun _ => Convertor.check_record) hook self remaining c
      = Ok c'
      /\ context._output c'
         = context._output c ++ omap h (rows_of_width hs remaining).
Proof.
  intros Hin Hout Hn Hhook.
  induction remaining as [|r remaining IH]; intros c Hc HP Hskip.
  - exists c. simpl. rewrite app_nil_r. auto.
  - apply skipped_rows_cons in Hskip as [Hjoin Hskip].
    cbn [Convertor.process_rows].
    match goal with
    | |- context [Convertor.check_record r ?c1] =>
        assert (I c1) as Hc1 by (apply Hin; exact Hc); set (cn := c1) in *
    end.
    erewrite check_record_width by (apply Hn; exact Hc1).
    cbn [rows_of_width List.filter] in *.
    unfold len. destruct (Nat.eqb_spec (length r) (length hs)) as [E|E].
    + rewrite E, Z.eqb_refl. apply Forall_cons in HP as [Hr HP].
      rewrite (Hhook r cn Hc1 E Hr).
      cbn [omap list_omap]. destruct (h r) as [r'|].
      * destruct (IH (context.output cn r')) as (c' & Hrun & Ho);
          [apply Hout; exact Hc1 | exact HP | exact Hskip |].
        exists c'. split; [exact Hrun|]. rewrite Ho. cbn.
        rewrite <- app_assoc. reflexivity.
      * destruct (IH cn Hc1 HP Hskip) as (c' & Hrun & Ho).
        exists c'. split; [exact Hrun|]. exact Ho.
    + replace (Z.eqb (Z.of_nat (length hs)) (Z.of_nat (length r))) with false
        by (symmetry; apply Z.eqb_neq; lia).
      destruct (Hjoin E) as [joined ->].
      destruct (IH cn Hc1 HP Hskip) as (c' & Hrun & Ho).
      exists c'. split; [exact Hrun|]. exact Ho.
Qed.

Lemma select_contains_meta :
  exists m, convertor_class.meta StringContainSelectRowConvertor.cls = Ok m.
Proof. vm_compute. eauto. Qed.

Lemma str_contains_empty (s : string) : str_contains "" s = true.
Proof. destruct s; reflexivity. Qed.

(** X25: [select_row_contains] on rows whose field in the column is a
    string: the header row is written and then, of the rows of its width,
    exactly those whose field in the column contains the query, in their
    order; with the empty query all of them are written. Rows of another
    width, which hold strings only, are skipped. *)
Theorem select_row_contains_filters c hs rows v i query :
  context._convertor c = StringContainSelectRowConvertor.cls ->
  context._convertor_params c !! "input_col_idx" = Some v ->
  denotes_column hs v i ->
  context._convertor_params c !! "query" = Some (VStr query) ->
  input._array (context._input c) = hs :: rows ->
  input._current (context._input c) = 0%nat ->
  skipped_rows_are_text hs rows = true ->
  Forall (holds_text (Z.to_nat i)) (rows_of_width hs rows) ->
  (exists c',
     StringContainSelectRowConvertor.process c = Ok c'
     /\ context._output c'
        = context._output c
          ++ hs :: List.filter (contains_query query (Z.to_nat i))
                     (rows_of_width hs rows))
  /\ (query = "" ->
      List.filter (contains_query query (Z.to_nat i)) (rows_of_width hs rows)
      = rows_of_width hs rows).
Proof.
  intros Hcls Hv Hcol Hq Ha Hc Hskip Htext.
  pose proof (denotes_column_bounds _ _ _ Hcol) as Hi.
  destruct select_contains_meta as [m Hm].
  split.
  - unfold StringContainSelectRowConvertor.process, Convertor.process, base_preproc.
    rewrite (preproc_at_start c hs rows Ha Hc). cbn [mbind res_bind is_False].
    unfold context.next, input.next. cbn.
    match goal with
    | |- context [Convertor.process_rows _ _ ?self _ ?c2] =>
        destruct (process_rows_writing_on self
                    StringContainSelectRowConvertor.process_record
                    (fun c0 =>
                       context._convertor c0 = StringContainSelectRowConvertor.cls
                       /\ context._convertor_params c0 = context._convertor_params c
                       /\ context._data c0 = context._data c2)
                    (holds_text (Z.to_nat i))
                    (fun r => if contains_query query (Z.to_nat i) r
                              then Some r else None) hs)
          with (remaining := rows) (c := c2)
          as (c' & Hrun & Hout)
    end.
    + intros c0 j cur H. exact H.
    + intros c0 r H. exact H.
    + intros c0 (_ & _ & ->). cbn. apply lookup_insert_eq.
    + intros r c0 (Hc0 & Hp0 & Hd0) Hr [s Hs].
      unfold StringContainSelectRowConvertor.process_record.
      assert (convertor_class.meta (context._convertor c0) = Ok m) as Hm0
        by (rewrite Hc0; exact Hm).
      rewrite (get_param_column c0 m "input_col_idx" input_col_idx_param v hs i);
        auto.
      2:{ apply (convertor_declared StringContainSelectRowConvertor.cls m
                   input_col_idx_param); [reflexivity | exact Hm | now left]. }
      2:{ rewrite Hp0. exact Hv. }
      2:{ rewrite Hd0. cbn. rewrite lookup_insert_ne by discriminate.
          apply lookup_insert_eq. }
      cbn [mbind res_bind].
      rewrite (get_param_plain c0 m "query"
                 {| params.name := "query"; params.required := true;
                    params.default_value := VNone;
                    params.kind := params.PlainParam |} (VStr query)); auto.
      2:{ apply (convertor_declared StringContainSelectRowConvertor.cls m
                   {| params.name := "query"; params.required := true;
                      params.default_value := VNone;
                      params.kind := params.PlainParam |});
            [reflexivity | exact Hm | right; now left]. }
      2:{ rewrite Hp0. exact Hq. }
      cbn [mbind res_bind].
      rewrite <- (Z2Nat.id i) at 1 by lia.
      rewrite (py_subscript_nat r _ (VStr s) Hs). cbn [mbind res_bind py_contains].
      unfold contains_query. rewrite Hs. destruct (str_contains query s); reflexivity.
    + cbn. auto.
    + exact Htext.
    + exact Hskip.
    + exists c'. rewrite ?drop_0 in Hrun. split; [exact Hrun|].
      rewrite Hout. cbn. rewrite omap_filter, <- app_assoc. reflexivity.
  - intros ->. clear -Htext.
    induction (rows_of_width hs rows) as [|r l IH]; [reflexivity|].
    apply Forall_cons in Htext as [[s Hs] Hl]. cbn [List.filter].
    unfold contains_query at 1. rewrite Hs, str_contains_empty.
    f_equal. apply IH, Hl.
Qed.

(** *** [insert_cols] *)

Lemma insert_cols_meta :
  exists m, convertor_class.meta InsertColsConvertor.cls = Ok m.
Proof. vm_compute. eauto. Qed.

Lemma insert_list_with_fields (r : list pyval) (z : Z) (xs : list pyval) :
  0 <= z <= len r ->
  InsertColsConvertor.insert_list (VInt z) (VList xs) r
  = Ok (with_fields (Z.to_nat z) xs r).
Proof.
  unfold len. intros Hz.
  unfold InsertColsConvertor.insert_list, InsertColsConvertor.slice_to,
    InsertColsConvertor.slice_from, with_fields, py_slice_to, py_slice_from, py_clamp.
  cbn. rewrite bool_decide_eq_false_2 by lia.
  replace (Z.min z (Z.of_nat (length r))) with z by lia. reflexivity.
Qed.

(** X26: [insert_cols] with a list of names. When [values] is a list of
    another length than the list of the names, the run raises [ValueError]
    before anything is written. Otherwise the names are put into the
    header row and the new fields into every row of its width at the same
    place: at the end when no position is given, else before the column
    that is given. The new fields are the elements of [values] when it is
    a list, and each the string [values] when it is a string (the empty
    string when it is not given). Rows of another width, which hold
    strings only, are skipped. *)
Theorem insert_cols_inserts c hs rows names read :
  context._convertor c = InsertColsConvertor.cls ->
  context._convertor_params c !! "output_col_names" = Some (VList names) ->
  reads_column hs (context._convertor_params c !! "output_col_idx") read ->
  input._array (context._input c) = hs :: rows ->
  input._current (context._input c) = 0%nat ->
  skipped_rows_are_text hs rows = true ->
  let p := Z.to_nat (if is_None read then len hs else default 0 (as_int read)) in
  (forall vs,
     context._convertor_params c !! "values" = Some (VList vs) ->
     length vs <> length names ->
     InsertColsConvertor.process c = Raise ValueError)
  /\ (forall fields,
        new_fields names (context._convertor_params c !! "values") = Some fields ->
        length fields = length names
        /\ exists c',
             InsertColsConvertor.process c = Ok c'
             /\ context._output c'
                = context._output c
                  ++ with_fields p names hs
                     :: List.map (with_fields p fields) (rows_of_width hs rows)).
Proof.
  intros Hcls Hnames Hread Ha Hc Hskip p.
  destruct insert_cols_meta as [m Hm].
  unfold InsertColsConvertor.process, process_updating, InsertColsConvertor.preproc.
  rewrite (preproc_at_start c hs rows Ha Hc). cbn [mbind res_bind].
  match goal with
  | |- context [context.get_param ?cd _] => set (c1 := cd)
  end.
  assert (convertor_class.meta (context._convertor c1) = Ok m) as Hm1
    by (subst c1; cbn; rewrite Hcls; exact Hm).
  assert (context.get_param c1 "output_col_idx" = Ok read) as ->.
  { apply (get_param_reads c1 m "output_col_idx" output_col_idx_param hs read);
      auto.
    - apply (convertor_declared InsertColsConvertor.cls m output_col_idx_param);
        [reflexivity | exact Hm | now left].
    - subst c1. cbn. rewrite lookup_insert_ne by discriminate.
      apply lookup_insert_eq. }
  assert (context.get_param c1 "output_col_names" = Ok (VList names)) as ->.
  { eapply (get_param_plain c1 m "output_col_names"); eauto.
    - apply (convertor_declared InsertColsConvertor.cls m
               {| params.name := "output_col_names"; params.required := true;
                  params.default_value := VNone;
                  params.kind := params.PlainParam |});
        [reflexivity | exact Hm | right; now left].
    - reflexivity.
    - reflexivity. }
  assert (context.get_param c1 "values"
          = Ok (supplied_or (context._convertor_params c !! "values") (VStr "")))
    as ->.
  { apply (get_param_optional_plain c1 m "values"
             {| params.name := "values"; params.required := false;
                params.default_value := VStr "";
                params.kind := params.PlainParam |}); auto.
    apply (convertor_declared InsertColsConvertor.cls m
             {| params.name := "values"; params.required := false;
                params.default_value := VStr "";
                params.kind := params.PlainParam |});
      [reflexivity | exact Hm | right; right; now left]. }
  cbn [mbind res_bind].
  split.
  - intros vs Hvs Hlen. rewrite Hvs. cbn [supplied_or is_None py_len mbind res_bind].
    unfold len. rewrite (proj2 (Z.eqb_neq _ _)) by lia. reflexivity.
  - intros fields Hf. unfold new_fields in Hf.
    assert (exists z, (if is_None read then VInt (len hs) else read) = VInt z
                      /\ 0 <= z <= len hs /\ p = Z.to_nat z) as (z & Hzv & Hzb & Hp).
    { subst p. destruct (context._convertor_params c !! "output_col_idx");
        simpl in Hread.
      - destruct Hread as (idx & Hcol & ->).
        apply denotes_column_bounds in Hcol. exists idx. cbn. unfold len.
        repeat split; try lia.
      - subst read. exists (len hs). cbn. unfold len. repeat split; try lia. }
    assert (length fields = length names) as Hlen.
    { destruct (supplied_or _ _) as [| | |s|vs]; try discriminate.
      - injection Hf as <-. apply length_replicate.
      - destruct (Nat.eqb_spec (length vs) (length names)) as [E|E]; [|discriminate].
        injection Hf as <-. exact E. }
    split; [exact Hlen|].
    change (context._convertor_params c1) with (context._convertor_params c).
    destruct (supplied_or _ _) as [| | |s|vs]; try discriminate Hf;
      [ injection Hf as Hf; cbn [py_len mbind res_bind];
        replace (Z.to_nat (len names)) with (length names) by (unfold len; lia);
        rewrite Hf
      | destruct (Nat.eqb_spec (length vs) (length names)) as [E|E];
        [|discriminate Hf];
        injection Hf as Hf; subst vs; cbn [py_len mbind res_bind];
        replace (Z.eqb (len fields) (len names)) with true
          by (unfold len; rewrite Hlen; symmetry; apply Z.eqb_refl);
        cbn [negb] ].
    all: cbn [mbind res_bind is_False].
    all: unfold context.next, input.next; subst c1; cbn.
    all: unfold InsertColsConvertor.process_header.
    all: cbn [InsertColsConvertor.output_col_idx InsertColsConvertor.new_names
              InsertColsConvertor.new_values InsertColsConvertor.headers
              InsertColsConvertor.num_of_columns].
    all: match goal with
         | |- context [if is_None ?rd then ?a else ?b] =>
             replace (if is_None rd then a else b)
               with {| InsertColsConvertor.headers := hs;
                       InsertColsConvertor.num_of_columns := len hs;
                       InsertColsConvertor.output_col_idx := VInt z;
                       InsertColsConvertor.new_names := VList names;
                       InsertColsConvertor.new_values := VList fields |}
               by (revert Hzv; destruct (is_None read); intros Hzv;
                   [injection Hzv as <- | rewrite Hzv]; reflexivity)
         end.
    all: cbn [InsertColsConvertor.output_col_idx InsertColsConvertor.new_names].
    all: rewrite insert_list_with_fields by exact Hzb.
    all: cbn [mbind res_bind]; rewrite <- Hp.
    all: match goal with
         | |- context [Convertor.process_rows _ _ ?self _ ?c2] =>
             destruct (process_rows_writing self InsertColsConvertor.process_record
                         (fun c0 => context._data c0 !! "num_of_columns"
                                    = Some (VInt (len hs)))
                         (fun r => Some (with_fields p fields r)) hs)
               with (remaining := rows) (c := c2)
               as (c' & Hrun & Hout);
               [ intros c0 j cur H; exact H
               | intros c0 r H; exact H
               | intros c0 H; exact H
               | intros r c0 _ Hr; unfold InsertColsConvertor.process_record;
                 cbn [InsertColsConvertor.output_col_idx
                      InsertColsConvertor.new_values];
                 rewrite insert_list_with_fields by (unfold len in *; lia);
                 rewrite <- Hp; reflexivity
               | cbn; apply lookup_insert_eq
               | exact Hskip
               | exists c'; split; [exact Hrun|];
                 rewrite Hout; cbn; rewrite omap_Some_map, <- app_assoc;
                 reflexivity ]
         end.
Qed.
End BasicsMore.

Lemma select_row_contains_filters_witness :
  exists c',
    basics.StringContainSelectRowConvertor.process select_contains_context = Ok c'
    /\ context._output c'
       = context._output select_contains_context
         ++ [VStr "a"; VStr "b"; VStr "c"]
            :: List.filter (contains_query "4" (Z.to_nat 0))
                 (rows_of_width [VStr "a"; VStr "b"; VStr "c"]
                    [ [VStr "1"; VStr ""; VStr "3"]; [VStr "4"; VStr "5"; VStr "6"] ]).
Proof.
  apply (select_row_contains_filters select_contains_context _ _ (VStr "a") 0 "4");
    [ reflexivity | reflexivity | exact sample_denotes_a | reflexivity
    | reflexivity | reflexivity | reflexivity | ].
  cbn. repeat constructor; eexists; reflexivity.
Defined.

Lemma insert_cols_reads_b :
  reads_column [VStr "a"; VStr "b"; VStr "c"]
    (context._convertor_params insert_cols_context !! "output_col_idx") (VInt 1).
Proof. exists 1. split; [exact delete_b_denotes | reflexivity]. Qed.

Lemma insert_cols_inserts_witness :
  let p := Z.to_nat (if is_None (VInt 1) then convertors.len [VStr "a"; VStr "b"; VStr "c"]
                     else default 0 (as_int (VInt 1))) in
  length [VStr "-"; VStr "-"] = length [VStr "x"; VStr "y"]
  /\ exists c',
       basics.InsertColsConvertor.process insert_cols_context = Ok c'
       /\ context._output c'
          = context._output insert_cols_context
            ++ with_fields p [VStr "x"; VStr "y"] [VStr "a"; VStr "b"; VStr "c"]
               :: List.map (with_fields p [VStr "-"; VStr "-"])
                    (rows_of_width [VStr "a"; VStr "b"; VStr "c"]
                       [ [VStr "1"; VStr ""; VStr "3"]; [VStr "4"; VStr "5"; VStr "6"] ]).
Proof.
  apply (proj2 (insert_cols_inserts insert_cols_context _ _ [VStr "x"; VStr "y"] (VInt 1)
                  eq_refl eq_refl insert_cols_reads_b eq_refl eq_refl eq_refl)
           [VStr "-"; VStr "-"]).
  reflexivity.
Defined.

(** ** The declared parameter set *)

Section ParamSetFacts.
Implicit Types (ps : params.ParamSet) (l : list params.Param).

Lemma add_names l : forall ps,
  ParamSet_wf ps ->
  match params.add ps l with
  | Ok ps' =>
      NoDup (params.name <$> l)
      /\ (forall p, In p l -> params._dist ps !! params.name p = None)
  | Raise e =>
      e = TypeError
      /\ ~ (NoDup (params.name <$> l)
            /\ forall p, In p l -> params._dist ps !! params.name p = None)
  end.
Proof.
  induction l as [|p l IH]; intros ps Hwf; cbn [params.add].
  - split; [constructor | intros p []].
  - unfold params.append at 1.
    destruct (params._dist ps !! params.name p) as [q|] eqn:E.
    + cbn. split; [reflexivity|]. intros [_ H].
      rewrite (H p (or_introl eq_refl)) in E. discriminate.
    + cbn [mbind res_bind].
      set (ps1 := {| params._list := params._list ps ++ [p];
                     params._dist := <[params.name p := p]> (params._dist ps) |}).
      assert (ParamSet_wf ps1) as Hwf1.
      { apply (ParamSet_wf_append ps p); [exact Hwf|].
        unfold params.append. rewrite E. reflexivity. }
      specialize (IH ps1 Hwf1).
      assert (forall q, params._dist ps1 !! params.name q = None
                        <-> params.name q <> params.name p
                            /\ params._dist ps !! params.name q = None) as Hq.
      { intros q. subst ps1. cbn.
        destruct (decide (params.name p = params.name q)) as [Heq|Hne].
        - rewrite Heq, lookup_insert_eq. split; [discriminate|]. intros [H _]. congruence.
        - rewrite lookup_insert_ne by exact Hne. split; [|tauto]. intros H. split; congruence. }
      destruct (params.add ps1 l) as [ps'|e].
      * destruct IH as [Hnd Hnone]. split.
        -- cbn [fmap list_fmap]. apply NoDup_cons. split; [|exact Hnd].
           rewrite list_elem_of_fmap. intros (q & Hn & Hin).
           apply list_elem_of_In in Hin.
           apply Hnone, Hq in Hin. destruct Hin as [Hin _]. congruence.
        -- intros q [<-|Hin]; [exact E|]. apply Hnone, Hq in Hin. tauto.
      * destruct IH as [-> Hnot]. split; [reflexivity|]. intros [Hnd Hnone].
        apply Hnot. cbn [fmap list_fmap] in Hnd. apply NoDup_cons in Hnd as [Hp Hnd].
        split; [exact Hnd|]. intros q Hin. apply Hq. split.
        -- intros Heq. apply Hp. rewrite <- Heq.
           apply list_elem_of_fmap. exists q. split; [reflexivity|].
           apply list_elem_of_In. exact Hin.
        -- apply Hnone. right. exact Hin.
Qed.

(** X16: [ParamSet(l)] is built exactly when the names of the
    parameters of [l] are distinct; it then lists the names in the
    order of [l], holds each parameter under its name and nothing under
    another name.  With a name that is declared twice the construction
    raises [TypeError] (the source raises a string). *)
Theorem paramset_distinct_names l :
  (NoDup (params.name <$> l) ->
   exists ps,
     params.new l = Ok ps
     /\ params.keys ps = params.name <$> l
     /\ (forall p, In p l -> params.getitem ps (params.name p) = Some p)
     /\ (forall n, ~ In n (params.name <$> l) ->
           params.getitem ps n = None /\ params.contains ps n = false))
  /\ (~ NoDup (params.name <$> l) -> params.new l = Raise TypeError).
Proof.
  pose proof (add_names l params.empty ParamSet_wf_empty) as H.
  fold (params.new l) in H. split.
  - intros Hnd. destruct (params.new l) as [ps|e] eqn:E.
    + exists ps. split; [reflexivity|].
      pose proof (new_list l ps E) as Hl.
      pose proof (ParamSet_wf_new l ps E) as [Hin Hdist].
      split; [|split].
      * unfold params.keys. rewrite Hl. reflexivity.
      * intros p Hp. apply Hin. rewrite Hl. exact Hp.
      * intros n Hn.
        assert (params.getitem ps n = None) as Hg.
        { unfold params.getitem. destruct (params._dist ps !! n) as [q|] eqn:Eq; [|reflexivity].
          destruct (Hdist n q Eq) as [<- Hq]. exfalso. apply Hn.
          rewrite Hl in Hq. apply in_map. exact Hq. }
        split; [exact Hg|]. unfold params.contains.
        destruct (List.filter _ _) as [|q qs] eqn:Ef; [reflexivity|].
        exfalso. apply Hn.
        assert (In q (List.filter (fun param => String.eqb (params.name param) n)
                        (params._list ps))) as Hq by (rewrite Ef; now left).
        apply filter_In in Hq as [Hq Heq]. apply String.eqb_eq in Heq. subst n.
        rewrite Hl in Hq. apply in_map. exact Hq.
    + exfalso. destruct H as [_ H]. apply H. split; [exact Hnd|].
      intros p _. apply lookup_empty.
  - intros Hnd. destruct (params.new l) as [ps|e].
    + destruct H as [H _]. contradiction.
    + destruct H as [-> _]. reflexivity.
Qed.
End ParamSetFacts.

Lemma paramset_distinct_names_witness :
  (exists ps,
     params.new [basics.input_col_idx_param; basics.output_col_idx_param] = Ok ps
     /\ params.keys ps = ["input_col_idx"; "output_col_idx"]
     /\ (forall p, In p [basics.input_col_idx_param; basics.output_col_idx_param] ->
           params.getitem ps (params.name p) = Some p)
     /\ (forall n, ~ In n ["input_col_idx"; "output_col_idx"] ->
           params.getitem ps n = None /\ params.contains ps n = false))
  /\ params.new [basics.input_col_idx_param; basics.input_col_idx_param]
     = Raise TypeError.
Proof.
  split.
  - apply (proj1 (paramset_distinct_names
                    [basics.input_col_idx_param; basics.output_col_idx_param])).
    apply NoDup_cons. split; [|apply NoDup_singleton].
    intros H%list_elem_of_singleton. discriminate.
  - apply (proj2 (paramset_distinct_names
                    [basics.input_col_idx_param; basics.input_col_idx_param])).
    intros H. apply NoDup_cons in H as [H _]. apply H. left.
Defined.

(** ** [Table.convert]: the calls that end before the run, and the ones
    that succeed *)

Section ConvertMore.
Import table.
Implicit Types (w : World) (self : Table) (conv : Convertor).

Lemma find_registered w convertor conv :
  CONVERTOR_DICT w !! convertor = Some conv ->
  convertor_find_by w convertor = (Some conv, w).
Proof. intros H. unfold convertor_find_by. rewrite H. reflexivity. Qed.

(** X17: [convert] of a table that is read without cleaning, with a
    name that is registered neither among the convertors nor among the
    extra ones, raises [ValueError].  No file is written, but the
    temporary file of a call without [output] has been created by then
    and is left, empty. *)
Theorem convert_unknown_convertor w self convertor params output rows :
  skip_cleaning self = true ->
  files w !! file self = Some rows ->
  CONVERTOR_DICT w !! convertor = None ->
  extras w !! convertor = None ->
  snd (convert w self convertor params output) = Raise ValueError
  /\ files (fst (convert w self convertor params output))
     = files_before_run w output.
Proof.
  intros _ Hfile Hd He. unfold convert, files_before_run. rewrite Hfile.
  assert (forall w0 : World,
            CONVERTOR_DICT w0 !! convertor = None -> extras w0 = extras w ->
            convertor_find_by w0 convertor = (None, register_extras w0)) as Hfind.
  { intros w0 H0 H1. unfold convertor_find_by. rewrite H0. f_equal.
    unfold register_extras. cbn. apply lookup_union_None. rewrite H1. auto. }
  assert (forall w0 : World,
            CONVERTOR_DICT w0 !! convertor = None -> extras w0 = extras w ->
            CONVERTOR_DICT (register_extras w0) !! convertor = None) as Hreg.
  { intros w0 H0 H1. unfold register_extras. cbn.
    apply lookup_union_None. rewrite H1. auto. }
  destruct output as [|path|path]; cbn.
  - rewrite Hfind by (cbn; auto). cbn.
    rewrite Hfind by (try apply Hreg; try apply Hreg; cbn; auto). cbn. auto.
  - rewrite Hfind by (cbn; auto). cbn.
    rewrite Hfind by (try apply Hreg; try apply Hreg; cbn; auto). cbn. auto.
  - rewrite Hfind by (cbn; auto). cbn.
    rewrite Hfind by (try apply Hreg; try apply Hreg; cbn; auto). cbn. auto.
Qed.

(** X18: [convert] of a table that is read without cleaning, with a
    registered convertor and without one of its required parameters,
    raises [ValueError] before the output is opened: an output file the
    caller names is neither created nor emptied, and the temporary file
    of a call without [output] is left, empty. *)
Theorem convert_missing_parameter w self convertor params output rows conv m n :
  skip_cleaning self = true ->
  files w !! file self = Some rows ->
  CONVERTOR_DICT w !! convertor = Some conv ->
  convertor_class.meta (cls conv) = Ok m ->
  missing_required (convertor_class.params m) params n ->
  snd (convert w self convertor params output) = Raise ValueError
  /\ files (fst (convert w self convertor params output))
     = files_before_run w output.
Proof.
  intros _ Hfile Hconv Hm Hmiss. unfold convert, files_before_run. rewrite Hfile.
  destruct (init_missing_required (cls conv) m params
              {| input._array := rows; input._current := 0 |} [] n Hm Hmiss)
    as [log Hinit].
  destruct output as [|path|path]; cbn.
  - rewrite find_registered with (conv := conv) by exact Hconv.
    rewrite Hinit. auto.
  - rewrite find_registered with (conv := conv) by exact Hconv.
    rewrite Hinit. auto.
  - rewrite find_registered with (conv := conv) by exact Hconv.
    rewrite Hinit. auto.
Qed.

(** X19: for a table that is read without cleaning: when the run of the
    convertor on the rows of its file ends without exception, [convert]
    returns a table on the output file (the caller's, or the temporary
    one), that file holds the rows the run has written, in their order,
    and the file of the table that was converted is as it was when it
    is another file.  The table returned is never marked as
    temporary. *)
Theorem convert_writes_output w self convertor params output conv
    rows i log c c' :
  skip_cleaning self = true ->
  files w !! file self = Some rows ->
  CONVERTOR_DICT w !! convertor = Some conv ->
  context.init (cls conv) params {| input._array := rows; input._current := 0 |} []
    = (i, log, Ok c) ->
  process conv c = (c', Ok tt) ->
  output_path w output <> file self ->
  snd (convert w self convertor params output)
    = Ok {| file := output_path w output; is_tempfile := false;
            skip_cleaning := true |}
  /\ files (fst (convert w self convertor params output))
     = <[output_path w output := context._output c']> (files w).
Proof.
  intros _ Hfile Hconv Hinit Hrun _. unfold convert. rewrite Hfile.
  destruct output as [|path|path]; cbn.
  - rewrite find_registered with (conv := conv) by exact Hconv.
    rewrite Hinit, Hrun. cbn. split; [reflexivity|].
    unfold close_output. cbn. rewrite lookup_insert_eq. cbn.
    rewrite !insert_insert_eq. reflexivity.
  - rewrite find_registered with (conv := conv) by exact Hconv.
    rewrite Hinit, Hrun. cbn. split; [reflexivity|].
    unfold close_output. cbn. rewrite lookup_insert_eq. cbn.
    rewrite !insert_insert_eq. reflexivity.
  - rewrite find_registered with (conv := conv) by exact Hconv.
    rewrite Hinit, Hrun. cbn. split; [reflexivity|].
    unfold close_output. cbn. rewrite lookup_insert_eq. cbn.
    rewrite !insert_insert_eq. reflexivity.
Qed.

Lemma init_noop params i :
  exists log,
    context.init NoopConvertor params i []
    = (i, log, Ok (context_of NoopConvertor params i)).
Proof.
  unfold context.init. cbn. eexists. reflexivity.
Qed.

(** X20: [convert] of a table that is read without cleaning, with the
    convertor of [NoopConvertor], whatever the parameters, on a file of
    strings that has a first row and is not the output file: the output
    file gets the first row and, in their order, the rows with as many
    fields as the first row; the other rows are left out. *)
Theorem convert_noop_drops_ragged_rows w self convertor params output hs rows :
  skip_cleaning self = true ->
  skipped_rows_are_text hs rows = true ->
  files w !! file self = Some (hs :: rows) ->
  CONVERTOR_DICT w !! convertor = Some noop_convertor ->
  output_path w output <> file self ->
  snd (convert w self convertor params output)
    = Ok {| file := output_path w output; is_tempfile := false;
            skip_cleaning := true |}
  /\ files (fst (convert w self convertor params output))
     = <[output_path w output := hs :: rows_of_width hs rows]> (files w).
Proof.
  intros _ Hskip Hfile Hconv _.
  destruct (init_noop params {| input._array := hs :: rows; input._current := 0 |})
    as [log Hinit].
  assert (exists c',
            Convertor_process
              (context_of NoopConvertor params
                 {| input._array := hs :: rows; input._current := 0 |}) = Ok c'
            /\ context._output c' = hs :: rows_of_width hs rows) as (c' & Hrun & Hout).
  { unfold Convertor_process, convertors.Convertor.process,
      convertors.Convertor.preproc, context.next, input.next.
    cbn. rewrite ?drop_0.
    edestruct (process_rows_base
                 {| convertors.Convertor.headers := hs;
                    convertors.Convertor.num_of_columns := convertors.len hs |}
                 hs rows)
      as (c' & -> & Hout); [| |eexists; split; [reflexivity|]].
    - cbn. apply lookup_insert_eq.
    - exact Hskip.
    - rewrite Hout. reflexivity. }
  unfold convert. rewrite Hfile.
  assert (process noop_convertor
            (context_of NoopConvertor params
               {| input._array := hs :: rows; input._current := 0 |})
          = (c', Ok tt)) as Hp
    by (cbn; unfold run_of; rewrite Hrun; reflexivity).
  destruct output as [|path|path]; cbn -[noop_convertor].
  - rewrite find_registered with (conv := noop_convertor) by exact Hconv.
    change (cls noop_convertor) with NoopConvertor.
    rewrite Hinit, Hp. cbn. split; [reflexivity|].
    unfold close_output. cbn. rewrite lookup_insert_eq. cbn.
    rewrite !insert_insert_eq, Hout. reflexivity.
  - rewrite find_registered with (conv := noop_convertor) by exact Hconv.
    change (cls noop_convertor) with NoopConvertor.
    rewrite Hinit, Hp. cbn. split; [reflexivity|].
    unfold close_output. cbn. rewrite lookup_insert_eq. cbn.
    rewrite !insert_insert_eq, Hout. reflexivity.
  - rewrite find_registered with (conv := noop_convertor) by exact Hconv.
    change (cls noop_convertor) with NoopConvertor.
    rewrite Hinit, Hp. cbn. split; [reflexivity|].
    unfold close_output. cbn. rewrite lookup_insert_eq. cbn.
    rewrite !insert_insert_eq, Hout. reflexivity.
Qed.
End ConvertMore.

Lemma convert_unknown_convertor_witness :
  snd (table.convert noop_world cleaned_table "nothing" ∅ table.OutputNone)
    = Raise ValueError
  /\ table.files
       (fst (table.convert noop_world cleaned_table "nothing" ∅ table.OutputNone))
     = files_before_run noop_world table.OutputNone.
Proof.
  apply (convert_unknown_convertor noop_world cleaned_table "nothing" ∅
           table.OutputNone
           [ [VStr "a"; VStr "b"]; [VStr "1"]; [VStr "1"; VStr "2"] ]);
    reflexivity.
Defined.

Lemma convert_missing_parameter_witness :
  snd (table.convert noop_world cleaned_table "delete_col" ∅
         (table.OutputPath "out.csv"))
    = Raise ValueError
  /\ table.files
       (fst (table.convert noop_world cleaned_table "delete_col" ∅
               (table.OutputPath "out.csv")))
     = files_before_run noop_world (table.OutputPath "out.csv").
Proof.
  destruct (convertor_class.meta basics.DeleteColConvertor.cls) as [m|e] eqn:Em;
    [|discriminate Em].
  apply (convert_missing_parameter noop_world cleaned_table "delete_col" ∅
           (table.OutputPath "out.csv")
           [ [VStr "a"; VStr "b"]; [VStr "1"]; [VStr "1"; VStr "2"] ]
           delete_col_convertor m "input_col_idx");
    [reflexivity | reflexivity | reflexivity | exact Em |].
  exists basics.input_col_idx_param.
  injection Em as <-. repeat split; reflexivity.
Defined.

Lemma convert_writes_output_witness :
  snd (table.convert noop_world cleaned_table "noop" ∅ (table.OutputPath "out.csv"))
    = Ok {| table.file := "out.csv"; table.is_tempfile := false;
            table.skip_cleaning := true |}
  /\ table.files
       (fst (table.convert noop_world cleaned_table "noop" ∅
               (table.OutputPath "out.csv")))
     = <["out.csv" := [ [VStr "a"; VStr "b"]; [VStr "1"; VStr "2"] ] ]>
         (table.files noop_world).
Proof.
  apply (convert_writes_output noop_world cleaned_table "noop" ∅
           (table.OutputPath "out.csv") noop_convertor
           [ [VStr "a"; VStr "b"]; [VStr "1"]; [VStr "1"; VStr "2"] ]
           {| input._array := [ [VStr "a"; VStr "b"]; [VStr "1"]; [VStr "1"; VStr "2"] ];
              input._current := 0 |}
           []
           (context_of NoopConvertor ∅
              {| input._array := [ [VStr "a"; VStr "b"]; [VStr "1"]; [VStr "1"; VStr "2"] ];
                 input._current := 0 |})
           (fst (table.process noop_convertor
                   (context_of NoopConvertor ∅
                      {| input._array :=
                           [ [VStr "a"; VStr "b"]; [VStr "1"]; [VStr "1"; VStr "2"] ];
                         input._current := 0 |}))));
    [reflexivity | reflexivity | reflexivity | reflexivity | reflexivity
    | discriminate].
Defined.

Lemma convert_noop_drops_ragged_rows_witness :
  snd (table.convert noop_world cleaned_table "noop" ∅ table.OutputNone)
    = Ok {| table.file := output_path noop_world table.OutputNone;
            table.is_tempfile := false; table.skip_cleaning := true |}
  /\ table.files
       (fst (table.convert noop_world cleaned_table "noop" ∅ table.OutputNone))
     = <[output_path noop_world table.OutputNone
         := [VStr "a"; VStr "b"] :: rows_of_width [VStr "a"; VStr "b"]
                                      [ [VStr "1"]; [VStr "1"; VStr "2"] ] ]>
         (table.files noop_world).
Proof.
  apply (convert_noop_drops_ragged_rows noop_world cleaned_table "noop" ∅
           table.OutputNone [VStr "a"; VStr "b"] [ [VStr "1"]; [VStr "1"; VStr "2"] ]);
    [reflexivity | reflexivity | reflexivity | reflexivity |].
  intros H. pose proof (is_fresh (dom (table.files noop_world))) as Hf.
  apply Hf. change (fresh (dom (table.files noop_world)))
    with (output_path noop_world table.OutputNone).
  rewrite H. apply elem_of_dom. exists [ [VStr "a"; VStr "b"]; [VStr "1"]; [VStr "1"; VStr "2"] ].
  reflexivity.
Defined.
(** ** Tasks *)

Section TaskFacts.
Import task.




End TaskFacts.


